(** * Slack response-time monitor: a shallow embedding of [bot.py]

  The development follows the layout of the source file: the
  [BusinessHours] predicate, the configuration record, the channel
  evaluator and the status decision of [SlackMonitor], the CSV escaping
  helper, owner resolution, and the per-cycle control loop
  [check_channels] with its observable effects recorded as a trace.

  Conventions of the embedding.
  - An absolute instant (the float epoch value of a Slack [ts], the
    instant of an aware [datetime]) is an integer number of microseconds
    since the Unix epoch.  A Slack [ts] is a decimal string with six
    fractional digits and [datetime] has microsecond resolution, so
    [float(ts)] followed by [datetime.fromtimestamp] is the identity on
    this representation.
  - An aware [datetime] is its instant together with the key of its
    [ZoneInfo].  Python compares and subtracts two aware datetimes that
    share their tzinfo object on their local wall-clock fields, and others
    on their instants; [ZoneInfo] hands out one object for each key.
  - A [float] is the rational number it denotes; an operation on floats is
    the exact operation followed by rounding to the nearest binary64
    number, ties to even (overflow and subnormal numbers do not occur on
    the quantities of this program).
  - A Python [dict] with optional keys is a record of [option] fields;
    [d.get(k)] is the field, [k in d] is [is_Some], [d[k]] raises
    [KeyError] on [None].
  - Python truthiness ([if x], [x or y], [not x]) is written out: [None],
    the empty string and the number zero are falsy. *)

From Stdlib Require Import ZArith QArith Lia Bool Ascii String List.
From Stdlib Require Import Sorting.Sorted Sorting.Permutation.
From stdpp Require Import base strings gmap.
Import ListNotations.

Local Open Scope Z_scope.

(** ** Python values used by the program *)

Module Py.

(** Truthiness of a string value ([if s]). *)
Definition truthy_str (s : string) : bool :=
  match s with
  | EmptyString => false
  | String _ _ => true
  end.

(** Truthiness of an optional string ([if d.get(k)]). *)
Definition truthy_ostr (o : option string) : bool :=
  match o with
  | Some s => truthy_str s
  | None => false
  end.

(** Truthiness of a number ([if x] on an [int] or a [float]). *)
Definition truthy_num (x : Z) : bool := negb (x =? 0).

(** [a or b] on optional strings: [a] when it is truthy, else [b]. *)
Definition or_ostr (a b : option string) : option string :=
  if truthy_ostr a then a else b.

(** [d.get(k, default)]. *)
Definition get_default {A : Type} (o : option A) (default : A) : A :=
  match o with
  | Some v => v
  | None => default
  end.

(** Exceptions the modelled code can raise. *)
Inductive exn : Type :=
| KeyError (key : string).

(** Outcome of a call that may raise. *)
Inductive result (A : Type) : Type :=
| Ok (value : A)
| Raise (e : exn).

Arguments Ok {A} value.
Arguments Raise {A} e.

(** [d[k]]. *)
Definition getitem {A : Type} (key : string) (o : option A) : result A :=
  match o with
  | Some v => Ok v
  | None => Raise (KeyError key)
  end.

End Py.

(** ** Floating point *)

Module Float.

(** The integer nearest to [n / d], for [d > 0]; a tie goes to the even
    neighbour. *)
Definition round_half_even (n d : Z) : Z :=
  let q := n / d in
  match 2 * (n mod d) ?= d with
  | Lt => q
  | Gt => q + 1
  | Eq => if Z.even q then q else q + 1
  end.

(** The binary64 number nearest to [n / d], for [n > 0] and [d > 0]: the
    quotient is scaled into the interval from [2^52] to [2^53], rounded to
    an integer there and scaled back. *)
Definition round_pos (n d : Z) : Q :=
  let s := Z.log2 d + 1 in
  let t := Z.log2 (n * 2 ^ s / d) in
  let m := round_half_even (n * 2 ^ (s + 52)) (d * 2 ^ t) in
  (m * 2 ^ t) # Z.to_pos (2 ^ (s + 52)).

(** Rounding to the nearest binary64 number, ties to even. *)
Definition RN (q : Q) : Q :=
  match Qnum q with
  | Z0 => 0
  | Zpos _ => round_pos (Qnum q) (Zpos (Qden q))
  | Zneg _ => - round_pos (- Qnum q) (Zpos (Qden q))
  end.

(** The float that counts in seconds a whole number of microseconds:
    [float(ts)] of a Slack ts, [dt.timestamp()] of an aware datetime,
    [td.total_seconds()] of a timedelta. *)
Definition seconds (us : Z) : Q := RN (us # 1000000).

(** [td.total_seconds() / 3600] for a timedelta of [us] microseconds. *)
Definition total_hours (us : Z) : Q := RN (seconds us / 3600).

End Float.

(** ** Time: instants, wall clocks and times of day *)

Module Time.

(** Microseconds since 1970-01-01T00:00:00Z. *)
Definition instant : Type := Z.

Definition US_PER_SECOND : Z := 1000000.
Definition US_PER_MINUTE : Z := 60 * US_PER_SECOND.
Definition US_PER_HOUR : Z := 3600 * US_PER_SECOND.
Definition US_PER_DAY : Z := 86400 * US_PER_SECOND.

(** [datetime.time]: a naive time of day. *)
Record dtime : Type := mk_dtime {
  hour : Z;
  minute : Z;
  second : Z;
  microsecond : Z
}.

(** [time._cmp]: the tuples (hour, minute, second, microsecond) are
    compared lexicographically. *)
Definition dtime_cmp (a b : dtime) : comparison :=
  match hour a ?= hour b with
  | Eq =>
      match minute a ?= minute b with
      | Eq =>
          match second a ?= second b with
          | Eq => microsecond a ?= microsecond b
          | c => c
          end
      | c => c
      end
  | c => c
  end.

(** [a <= b] on [datetime.time]. *)
Definition dtime_le (a b : dtime) : bool :=
  match dtime_cmp a b with
  | Gt => false
  | _ => true
  end.

(** [a > b] on [datetime.time]. *)
Definition dtime_gt (a b : dtime) : bool :=
  match dtime_cmp a b with
  | Gt => true
  | _ => false
  end.

(** [dtime.fromisoformat("HH:MM")]. *)
Definition hhmm (h m : Z) : dtime := mk_dtime h m 0 0.

(** A wall-clock reading: microseconds since 1970-01-01T00:00:00 of the
    local calendar. *)
Definition wallclock : Type := Z.

(** Proleptic Gregorian ordinal of the local date; 1970-01-01 is day
    719163. *)
Definition toordinal (local : wallclock) : Z :=
  local / US_PER_DAY + 719163.

(** [datetime.weekday()]: Monday is 0 and Sunday is 6. *)
Definition weekday (local : wallclock) : Z :=
  (toordinal local + 6) mod 7.

(** [datetime.time()]. *)
Definition time_of (local : wallclock) : dtime :=
  let r := local mod US_PER_DAY in
  {| hour := r / US_PER_HOUR;
     minute := (r / US_PER_MINUTE) mod 60;
     second := (r / US_PER_SECOND) mod 60;
     microsecond := r mod US_PER_SECOND |}.

(** [datetime.fromtimestamp(ts, tz)]: same instant. *)
Definition fromtimestamp (ts : Z) : instant := ts.

End Time.

Import Py Float Time.

(** ** Data model *)

(** An aware [datetime]: its instant and the key of its [ZoneInfo]. *)
Record datetime : Type := mk_datetime {
  dt_instant : instant;
  dt_zone : string
}.

Record BusinessHours : Type := mk_BusinessHours {
  start : dtime;
  end_ : dtime;
  timezone : string;
  weekdays_only : bool
}.

Record MonitorConfig : Type := mk_MonitorConfig {
  channel_owners : gmap string string;
  team_member_ids : list string;
  business_hours : BusinessHours;
  business_reply_hours : Z;
  overall_reply_hours : Z;
  check_interval_minutes : Z;
  reminder_text_template : string
}.

(** A raw message of [conversations.history].  [ts] holds the number that
    [float] reads from the message's ts string. *)
Record message : Type := mk_message {
  ts : option Z;
  user : option string;
  bot_id : option string;
  text : option string;
  subtype : option string
}.

(** The dict returned by [_evaluate_channel]. *)
Record exchange : Type := mk_exchange {
  client_ts : Z;
  client_text : string;
  team_reply_ts : option Z;
  team_reply_text : option string
}.

(** The verdicts of [_decide_status]. *)
Inductive status : Type :=
| answered
| waiting
| remind.

(** A channel object of [conversations.list]. *)
Record channel : Type := mk_channel {
  ch_id : option string;
  ch_name : option string;
  ch_name_normalized : option string;
  ch_is_member : bool
}.

(** The dict that [_fetch_monitored_channels] builds for a channel. *)
Record monitored : Type := mk_monitored {
  m_id : string;
  m_name : option string;
  m_owner_id : option string
}.

(** One page of [conversations.list]. *)
Record channel_page : Type := mk_channel_page {
  page_channels : list channel;
  next_cursor : option string
}.

(** The Slack client.  A call answers [None] when the platform reports a
    [SlackApiError]. *)
Record WebClient : Type := mk_WebClient {
  conversations_list : option string -> option channel_page;
  conversations_history : string -> option (list message);
  conversations_open : string -> option string;
  chat_postMessage : string -> string -> bool
}.

Record SlackMonitor : Type := mk_SlackMonitor {
  config : MonitorConfig;
  client : WebClient
}.

(** *** Observable effects *)

(** A line of the summary log, field by field; rendering a field as text
    (ISO-8601 dates, float repr) is left to the writer. *)
Record summary_row : Type := mk_summary_row {
  sr_channel_name : option string;
  sr_channel_id : string;
  sr_client_ts : instant;
  sr_team_reply_ts : option instant;
  sr_hours_to_reply : option Q;
  sr_status : status
}.

(** A line of the trail log. *)
Record trail_row : Type := mk_trail_row {
  tr_channel_name : option string;
  tr_channel_id : string;
  tr_client_ts : instant;
  tr_client_text : string;
  tr_team_reply_ts : option instant;
  tr_team_reply_text : string;
  tr_hours_between : option Q;
  tr_status : status
}.

(** The [logging] calls at level INFO and above. *)
Inductive log_line : Type :=
| InfoChecking (channel_name : option string) (channel_id : string)
| InfoNoClientMessages (channel_id : string) (channel_name : option string)
| WarnNoOwner (channel_name : option string) (channel_id : string)
| InfoReminderSent (owner_id channel_id : string)
| ErrFetchMessages (channel_id : string)
| ErrListChannels
| ErrSendReminder (channel_id : string).

Inductive event : Type :=
| Log (line : log_line)
| CallConversationsList (cursor : option string)
| CallConversationsHistory (channel_id : string) (limit : Z)
| CallConversationsOpen (users : string)
| CallChatPostMessage (channel_id : string) (message_text : string)
| AppendSummary (row : summary_row)
| AppendTrail (row : trail_row).

(** A computation that emits events and then returns or raises. *)
Definition M (A : Type) : Type := (list event * result A)%type.

Definition ret {A : Type} (a : A) : M A := ([], Ok a).

Definition bind {A B : Type} (c : M A) (k : A -> M B) : M B :=
  match c with
  | (tr, Ok a) => let '(tr', r) := k a in (tr ++ tr', r)
  | (tr, Raise e) => (tr, Raise e)
  end.

Definition emit (e : event) : M unit := ([e], Ok tt).

Definition lift {A : Type} (r : result A) : M A := ([], r).

Definition trace_of {A : Type} (c : M A) : list event := fst c.

Definition outcome_of {A : Type} (c : M A) : result A := snd c.

Declare Scope monitor_scope.
Delimit Scope monitor_scope with mon.

Notation "x <- c ;; k" := (bind c (fun x => k))
  (at level 100, c at next level, right associativity) : monitor_scope.
Notation "c ;;; k" := (bind c (fun _ => k))
  (at level 100, right associativity) : monitor_scope.

(** [bind] for a pure call that may raise. *)
Definition result_bind {A B : Type} (r : result A) (k : A -> result B)
  : result B :=
  match r with
  | Ok a => k a
  | Raise e => Raise e
  end.

(** ** Sorting *)

(** [sorted(l, key=key)] is stable: of two elements with equal keys the one
    that comes first in [l] comes first in the result.  Insertion from the
    right, each element placed before the first element whose key is not
    smaller, computes that order. *)
Fixpoint insert_by {A : Type} (key : A -> Z) (x : A) (l : list A) : list A :=
  match l with
  | [] => [x]
  | y :: l' => if key x <=? key y then x :: l else y :: insert_by key x l'
  end.

Definition sorted {A : Type} (key : A -> Z) (l : list A) : list A :=
  fold_right (insert_by key) [] l.

(** ** CSV escaping *)

Definition LF : ascii := ascii_of_nat 10.
Definition CR : ascii := ascii_of_nat 13.
Definition SPACE : ascii := ascii_of_nat 32.
Definition DQUOTE : ascii := ascii_of_nat 34.

(** [s.replace(old, new)] for a one-character [old]. *)
Fixpoint replace (old : ascii) (new : string) (s : string) : string :=
  match s with
  | EmptyString => EmptyString
  | String c s' =>
      if Ascii.eqb c old then String.append new (replace old new s')
      else String c (replace old new s')
  end.

Definition csv_escape (text : string) : string :=
  let sanitized :=
    replace CR (String SPACE EmptyString)
      (replace LF (String SPACE EmptyString) text) in
  let sanitized :=
    replace DQUOTE (String DQUOTE (String DQUOTE EmptyString)) sanitized in
  String DQUOTE (String.append sanitized (String DQUOTE EmptyString)).

(** ** Sample data *)

Module Sample.

Local Open Scope string_scope.

(** A time-zone database in which every zone is UTC. *)
Definition utc_zones : string -> instant -> Z := fun _ _ => 0.

(** A formatter that prints the template as it is. *)
Definition plain_format : string -> string -> Q -> string :=
  fun template _ _ => template.

(** The default window: 08:00-17:00, UTC, weekdays only. *)
Definition office_hours : BusinessHours :=
  {| start := hhmm 8 0; end_ := hhmm 17 0; timezone := "UTC";
     weekdays_only := true |}.

(** A window whose start is after its end. *)
Definition inverted_hours : BusinessHours :=
  {| start := hhmm 17 0; end_ := hhmm 8 0; timezone := "UTC";
     weekdays_only := true |}.

(** Monday 2024-01-01, 00:00:00 UTC. *)
Definition monday : instant := 1704067200 * US_PER_SECOND.

Definition monday_0800 : instant := monday + 8 * US_PER_HOUR.
Definition monday_0900 : instant := monday + 9 * US_PER_HOUR.
Definition monday_1400 : instant := monday + 14 * US_PER_HOUR.
Definition monday_1700 : instant := monday + 17 * US_PER_HOUR.
Definition monday_2200 : instant := monday + 22 * US_PER_HOUR.
Definition tuesday_1500 : instant := monday + 39 * US_PER_HOUR.

(** Saturday 2024-01-06, 12:00:00 UTC. *)
Definition saturday_noon : instant := monday + 5 * US_PER_DAY + 12 * US_PER_HOUR.

Definition owners : gmap string string :=
  <["C1" := "U_ALICE"]> (<["support" := "U_BOB"]> (<["sales" := "U_CAROL"]> ∅)).

Definition cfg : MonitorConfig :=
  {| channel_owners := owners;
     team_member_ids := ["T1"; "T2"];
     business_hours := office_hours;
     business_reply_hours := 4;
     overall_reply_hours := 24;
     check_interval_minutes := 10;
     reminder_text_template := "Reminder: please respond." |}.

Definition cfg_inverted : MonitorConfig :=
  {| channel_owners := owners;
     team_member_ids := ["T1"; "T2"];
     business_hours := inverted_hours;
     business_reply_hours := 4;
     overall_reply_hours := 24;
     check_interval_minutes := 10;
     reminder_text_template := "Reminder: please respond." |}.

(** A client question on Monday at 09:00:00 and two answers of the team,
    one and two minutes later. *)
Definition question : message :=
  {| ts := Some monday_0900; user := Some "U_CLIENT"; bot_id := None;
     text := Some "Is the invoice ready?"; subtype := None |}.

Definition first_answer : message :=
  {| ts := Some (monday_0900 + 60 * US_PER_SECOND); user := Some "T1";
     bot_id := None; text := Some "Looking into it."; subtype := None |}.

Definition second_answer : message :=
  {| ts := Some (monday_0900 + 120 * US_PER_SECOND); user := Some "T2";
     bot_id := None; text := Some "Sent."; subtype := None |}.

(** The history as the platform returns it, newest first. *)
Definition thread : list message := [second_answer; first_answer; question].

(** A client message one second before the epoch and an answer at the
    epoch itself. *)
Definition early_question : message :=
  {| ts := Some (- US_PER_SECOND); user := Some "U_CLIENT"; bot_id := None;
     text := Some "Hello?"; subtype := None |}.

Definition epoch_answer : message :=
  {| ts := Some 0; user := Some "T1"; bot_id := None;
     text := Some "Hi."; subtype := None |}.

Definition epoch_thread : list message := [epoch_answer; early_question].


(** A question without reply. *)
Definition open_record : exchange :=
  {| client_ts := monday_0900; client_text := "Is the invoice ready?";
     team_reply_ts := None; team_reply_text := None |}.

(** A question asked on Monday at 17:00:00, without reply. *)
Definition late_record : exchange :=
  {| client_ts := monday_1700; client_text := "Anyone there?";
     team_reply_ts := None; team_reply_text := None |}.

(** Channels: one configured by id, one by name only, one not at all. *)
Definition by_id_and_name : channel :=
  {| ch_id := Some "C1"; ch_name := Some "support";
     ch_name_normalized := Some "support"; ch_is_member := true |}.

Definition by_name_only : channel :=
  {| ch_id := Some "C2"; ch_name := Some "sales";
     ch_name_normalized := Some "sales"; ch_is_member := true |}.

Definition unconfigured : channel :=
  {| ch_id := Some "C3"; ch_name := Some "random";
     ch_name_normalized := Some "random"; ch_is_member := true |}.

(** A workspace with the three channels on one page; every channel holds
    the unanswered question. *)
Definition api : WebClient :=
  {| conversations_list := fun _ =>
       Some {| page_channels := [by_id_and_name; by_name_only; unconfigured];
               next_cursor := None |};
     conversations_history := fun _ => Some [question];
     conversations_open := fun owner => Some ("D-" +:+ owner);
     chat_postMessage := fun _ _ => true |}.

Definition monitor : SlackMonitor := {| config := cfg; client := api |}.

Definition monitor_inverted : SlackMonitor :=
  {| config := cfg_inverted; client := api |}.

(** The three channels as the monitor describes them. *)
Definition monitored_c1 : monitored :=
  {| m_id := "C1"; m_name := Some "support"; m_owner_id := Some "U_ALICE" |}.

Definition monitored_c2 : monitored :=
  {| m_id := "C2"; m_name := Some "sales"; m_owner_id := Some "U_CAROL" |}.

Definition monitored_c3 : monitored :=
  {| m_id := "C3"; m_name := Some "random"; m_owner_id := None |}.

(** A client message that carries no ts. *)
Definition untimed_question : message :=
  {| ts := None; user := Some "U_CLIENT"; bot_id := None;
     text := Some "Ping"; subtype := None |}.

(** The question with its first answer. *)
Definition answered_record : exchange :=
  {| client_ts := monday_0900; client_text := "Is the invoice ready?";
     team_reply_ts := Some (monday_0900 + 60 * US_PER_SECOND);
     team_reply_text := Some "Looking into it." |}.

Definition monday_1000 : instant := monday + 10 * US_PER_HOUR.

(** A channel object without name, configured under its normalized
    name. *)
Definition normalized_only : channel :=
  {| ch_id := Some "C4"; ch_name := None;
     ch_name_normalized := Some "sales"; ch_is_member := true |}.

(** A platform on which every call fails. *)
Definition offline_api : WebClient :=
  {| conversations_list := fun _ => None;
     conversations_history := fun _ => None;
     conversations_open := fun _ => None;
     chat_postMessage := fun _ _ => false |}.

Definition offline_monitor : SlackMonitor :=
  {| config := cfg; client := offline_api |}.

(** The sample workspace with a message without ts in the history of
    channel C2. *)
Definition broken_api : WebClient :=
  {| conversations_list := conversations_list api;
     conversations_history := fun channel_id =>
       if String.eqb channel_id "C2" then Some [untimed_question]
       else Some [question];
     conversations_open := conversations_open api;
     chat_postMessage := chat_postMessage api |}.

Definition broken_monitor : SlackMonitor :=
  {| config := cfg; client := broken_api |}.

(** The summary row of channel C1 on Tuesday at 15:00. *)
Definition c1_row : summary_row :=
  {| sr_channel_name := Some "support"; sr_channel_id := "C1";
     sr_client_ts := monday_0900; sr_team_reply_ts := None;
     sr_hours_to_reply := None; sr_status := remind |}.


(** The start and the end of daylight saving time of 2024 in
    America/New_York: 2024-03-10 07:00:00 UTC and 2024-11-03 06:00:00
    UTC. *)
Definition dst_start_2024 : instant := 1710054000 * US_PER_SECOND.
Definition dst_end_2024 : instant := 1730613600 * US_PER_SECOND.

(** A time-zone database that holds America/New_York around its two
    transitions of 2024: four hours behind UTC between them, five hours
    behind UTC before and after.  Every other zone is UTC. *)
Definition ny_zones : string -> instant -> Z := fun name t =>
  if String.eqb name "America/New_York"
  then if ((dst_start_2024 <=? t) && (t <? dst_end_2024))%Z then -14400
       else -18000
  else 0.

(** The default window in New York. *)
Definition ny_hours : BusinessHours :=
  {| start := hhmm 8 0; end_ := hhmm 17 0; timezone := "America/New_York";
     weekdays_only := true |}.

Definition ny_cfg : MonitorConfig :=
  {| channel_owners := owners;
     team_member_ids := ["T1"; "T2"];
     business_hours := ny_hours;
     business_reply_hours := 4;
     overall_reply_hours := 24;
     check_interval_minutes := 10;
     reminder_text_template := "Reminder: please respond." |}.

Definition ny_monitor : SlackMonitor := {| config := ny_cfg; client := api |}.

(** The night in which the clocks go back.  A client writes on
    2024-11-03 at 05:30:00 UTC (01:30 daylight time) and the team answers
    forty minutes later, at 06:10:00 UTC (01:10 standard time). *)
Definition night_question : message :=
  {| ts := Some (1730611800 * US_PER_SECOND); user := Some "U_CLIENT";
     bot_id := None; text := Some "Is the server down?"; subtype := None |}.

Definition night_answer : message :=
  {| ts := Some (1730614200 * US_PER_SECOND); user := Some "T1";
     bot_id := None; text := Some "Back up now."; subtype := None |}.

Definition night_thread : list message := [night_answer; night_question].

Definition night_record : exchange :=
  {| client_ts := 1730611800 * US_PER_SECOND;
     client_text := "Is the server down?";
     team_reply_ts := Some (1730614200 * US_PER_SECOND);
     team_reply_text := Some "Back up now." |}.

(** 2024-11-03 06:15:00 UTC, five minutes after the answer. *)
Definition night_0615 : instant := 1730614500 * US_PER_SECOND.

(** The question of that night without its answer, and the instant five
    hours after it, 2024-11-03 10:30:00 UTC (05:30 standard time). *)
Definition night_question_record : exchange :=
  {| client_ts := 1730611800 * US_PER_SECOND;
     client_text := "Is the server down?";
     team_reply_ts := None; team_reply_text := None |}.

Definition night_1030 : instant := 1730629800 * US_PER_SECOND.

(** The weekend in which the clocks go forward.  A client writes on
    Saturday 2024-03-09 at 23:00:00 UTC (18:00 standard time) and nobody
    answers; the monitor looks on Sunday at 22:30:00 UTC (18:30 daylight
    time), twenty-three and a half hours later. *)
Definition spring_record : exchange :=
  {| client_ts := 1710025200 * US_PER_SECOND; client_text := "Anyone there?";
     team_reply_ts := None; team_reply_text := None |}.

Definition spring_sunday_2230 : instant := 1710109800 * US_PER_SECOND.

(** A client writes on Saturday 2024-11-02 at 05:30:00 UTC (01:30
    daylight time) and nobody answers; the monitor looks on Sunday at
    05:45:00 UTC (01:45 daylight time) and half an hour later, at 06:15:00
    UTC (01:15 standard time). *)
Definition autumn_record : exchange :=
  {| client_ts := 1730525400 * US_PER_SECOND; client_text := "Anyone there?";
     team_reply_ts := None; team_reply_text := None |}.

Definition autumn_sunday_0545 : instant := 1730612700 * US_PER_SECOND.
Definition autumn_sunday_0615 : instant := 1730614500 * US_PER_SECOND.


End Sample.

(** ** The monitor *)

Section Monitor.

(** [zoneinfo.ZoneInfo]: the UTC offset, in seconds, that the named zone
    applies at an instant.  The time-zone database is external to the
    program. *)
Variable ZoneInfo : string -> instant -> Z.

(** [template.format(channel_id, round(hours, 1))]: rendering of the
    reminder text from the template, the channel id and the float of the
    elapsed hours.  The configuration is required to supply a template with two
    positional slots, on which [format] returns. *)
Variable format_reminder : string -> string -> Q -> string.

(** *** BusinessHours.is_open *)

(** [moment.astimezone(ZoneInfo(name))], read as a wall clock. *)
Definition astimezone (name : string) (moment : instant) : wallclock :=
  moment + US_PER_SECOND * ZoneInfo name moment.

Definition is_open (self : BusinessHours) (moment : instant) : bool :=
  let local_now := astimezone (timezone self) moment in
  if weekdays_only self && (5 <=? weekday local_now) then false
  else dtime_le (start self) (time_of local_now)
       && dtime_le (time_of local_now) (end_ self).

(** *** SlackMonitor._resolve_owner *)

(** [key in d] for a key obtained with [get]. *)
Definition dict_contains (d : gmap string string) (key : option string)
  : bool :=
  match key with
  | Some k => match d !! k with Some _ => true | None => false end
  | None => false
  end.

(** [d[key]] once [key in d] holds. *)
Definition dict_lookup (d : gmap string string) (key : option string)
  : option string :=
  match key with
  | Some k => d !! k
  | None => None
  end.

Definition resolve_owner (self : SlackMonitor) (ch : channel)
  : option string :=
  let channel_id := ch_id ch in
  let channel_name := or_ostr (ch_name ch) (ch_name_normalized ch) in
  let owners := channel_owners (config self) in
  if dict_contains owners channel_id then dict_lookup owners channel_id
  else if truthy_ostr channel_name && dict_contains owners channel_name
  then dict_lookup owners channel_name
  else None.

(** *** SlackMonitor._evaluate_channel *)

Definition str_in (s : string) (l : list string) : bool :=
  existsb (String.eqb s) l.

Definition EXCLUDED_SUBTYPES : list string :=
  ["channel_join"; "bot_message"; "channel_topic"; "channel_purpose"]%string.

Definition has_key {A : Type} (o : option A) : bool :=
  match o with
  | Some _ => true
  | None => false
  end.

Definition is_valid_message (msg : message) : bool :=
  if match subtype msg with
     | Some st => str_in st EXCLUDED_SUBTYPES
     | None => false
     end
  then false
  else has_key (user msg) || has_key (bot_id msg).

Definition is_client_message (self : SlackMonitor) (msg : message) : bool :=
  match user msg with
  | None => false
  | Some user_id =>
      if negb (truthy_str user_id) then false
      else negb (str_in user_id (team_member_ids (config self)))
  end.

(** The sort key [float(m.get("ts", 0.0))]. *)
Definition sort_key (m : message) : Z := get_default (ts m) 0.

(** The loop variables [last_client_msg] and [last_team_reply]. *)
Definition scan_state : Type := (option message * option message)%type.

(** One iteration of the scanning loop. *)
Definition scan_step (self : SlackMonitor) (st : scan_state) (msg : message)
  : scan_state :=
  let '(last_client_msg, last_team_reply) := st in
  if negb (is_valid_message msg) then st
  else if is_client_message self msg then (Some msg, None)
  else if has_key last_client_msg then (last_client_msg, Some msg)
  else st.

Definition evaluate_channel (self : SlackMonitor) (messages : list message)
  : result (option exchange) :=
  match messages with
  | [] => Ok None
  | _ =>
      let sorted_messages := sorted sort_key messages in
      let '(last_client_msg, last_team_reply) :=
        fold_left (scan_step self) sorted_messages (None, None) in
      match last_client_msg with
      | None => Ok None
      | Some c =>
          result_bind (getitem "ts" (ts c)) (fun cts =>
          match last_team_reply with
          | None =>
              Ok (Some {| client_ts := cts;
                          client_text := get_default (text c) EmptyString;
                          team_reply_ts := None;
                          team_reply_text := None |})
          | Some r =>
              result_bind (getitem "ts" (ts r)) (fun rts =>
              Ok (Some {| client_ts := cts;
                          client_text := get_default (text c) EmptyString;
                          team_reply_ts := Some rts;
                          team_reply_text :=
                            Some (get_default (text r) EmptyString) |}))
          end)
      end
  end.

(** *** Aware datetimes *)

(** The local wall-clock reading of an aware datetime. *)
Definition wall (d : datetime) : wallclock :=
  astimezone (dt_zone d) (dt_instant d).

(** The two datetimes carry the same tzinfo object. *)
Definition same_tzinfo (a b : datetime) : bool :=
  String.eqb (dt_zone a) (dt_zone b).

(** [a - b], in microseconds: the difference of the wall clocks when the
    tzinfo is shared, the difference of the instants otherwise. *)
Definition datetime_sub (a b : datetime) : Z :=
  if same_tzinfo a b then wall a - wall b
  else dt_instant a - dt_instant b.

(** [a > b], on the wall clocks when the tzinfo is shared, on the instants
    otherwise. *)
Definition datetime_gt (a b : datetime) : bool :=
  if same_tzinfo a b then wall b <? wall a
  else dt_instant b <? dt_instant a.

(** [datetime.fromtimestamp(ts, tz=ZoneInfo(self.config.business_hours.timezone))]. *)
Definition zoned_fromtimestamp (self : SlackMonitor) (t : Z) : datetime :=
  {| dt_instant := fromtimestamp t;
     dt_zone := timezone (business_hours (config self)) |}.

(** [datetime.now(tz=ZoneInfo(self.config.business_hours.timezone))] when
    the clock shows the instant [now]. *)
Definition datetime_now (self : SlackMonitor) (now : instant) : datetime :=
  {| dt_instant := now;
     dt_zone := timezone (business_hours (config self)) |}.

(** *** SlackMonitor._decide_status *)

(** The [datetime] of [record["team_reply_ts"]], or [None] when the value
    is missing or falsy. *)
Definition reply_datetime (self : SlackMonitor) (record : exchange)
  : option datetime :=
  match team_reply_ts record with
  | Some t => if truthy_num t then Some (zoned_fromtimestamp self t) else None
  | None => None
  end.

(** [(now - client_dt).total_seconds() / 3600]. *)
Definition hours_since_client (self : SlackMonitor) (record : exchange)
  (now : datetime) : Q :=
  total_hours (datetime_sub now (zoned_fromtimestamp self (client_ts record))).

Definition decide_status (self : SlackMonitor) (record : exchange)
  (now : datetime) : status :=
  let client_dt := zoned_fromtimestamp self (client_ts record) in
  let reply_dt := reply_datetime self record in
  if match reply_dt with
     | Some r => datetime_gt r client_dt
     | None => false
     end
  then answered
  else
    let within_business :=
      is_open (business_hours (config self)) (dt_instant now) in
    let threshold :=
      if within_business then business_reply_hours (config self)
      else overall_reply_hours (config self) in
    if Qle_bool (inject_Z threshold) (hours_since_client self record now)
    then remind
    else waiting.

(** *** Logging and reminders *)

Local Open Scope monitor_scope.

(** [hours or ''] of the log lines, where [hours] is
    [(reply_ts - client_ts).total_seconds() / 3600]: nothing is printed
    for [None] and for a zero difference. *)
Definition hours_field (reply_ts : option datetime) (client_dt : datetime)
  : option Q :=
  match reply_ts with
  | Some r =>
      let h := total_hours (datetime_sub r client_dt) in
      if Qeq_bool h 0 then None else Some h
  | None => None
  end.

Definition log_record (self : SlackMonitor) (channel_name : option string)
  (channel_id : string) (record : exchange) (st : status) : M unit :=
  let client_dt := zoned_fromtimestamp self (client_ts record) in
  let reply_ts := reply_datetime self record in
  emit (AppendSummary
          {| sr_channel_name := channel_name;
             sr_channel_id := channel_id;
             sr_client_ts := dt_instant client_dt;
             sr_team_reply_ts := option_map dt_instant reply_ts;
             sr_hours_to_reply := hours_field reply_ts client_dt;
             sr_status := st |}).

Definition log_trail (self : SlackMonitor) (channel_name : option string)
  (channel_id : string) (record : exchange) (st : status) : M unit :=
  let client_dt := zoned_fromtimestamp self (client_ts record) in
  let reply_ts := reply_datetime self record in
  let reply_raw := or_ostr (team_reply_text record) (Some EmptyString) in
  let reply_text :=
    if truthy_ostr reply_raw then csv_escape (get_default reply_raw EmptyString)
    else EmptyString in
  emit (AppendTrail
          {| tr_channel_name := channel_name;
             tr_channel_id := channel_id;
             tr_client_ts := dt_instant client_dt;
             tr_client_text := csv_escape (client_text record);
             tr_team_reply_ts := option_map dt_instant reply_ts;
             tr_team_reply_text := reply_text;
             tr_hours_between := hours_field reply_ts client_dt;
             tr_status := st |}).

(** [(now.timestamp() - record["client_ts"]) / 3600], the hours that
    [_send_reminder] hands to [round]. *)
Definition reminder_hours (record : exchange) (now : datetime) : Q :=
  RN (RN (seconds (dt_instant now) - seconds (client_ts record)) / 3600).

Definition send_reminder (self : SlackMonitor) (channel_id owner_id : string)
  (record : exchange) (now : datetime) : M unit :=
  let hours_since := reminder_hours record now in
  let message_text :=
    format_reminder (reminder_text_template (config self)) channel_id
      hours_since in
  emit (CallConversationsOpen owner_id) ;;;
  match conversations_open (client self) owner_id with
  | None => emit (Log (ErrSendReminder channel_id))
  | Some dm_channel =>
      emit (CallChatPostMessage dm_channel message_text) ;;;
      if chat_postMessage (client self) dm_channel message_text
      then emit (Log (InfoReminderSent owner_id channel_id))
      else emit (Log (ErrSendReminder channel_id))
  end.

(** *** Fetching *)

Definition fetch_messages (self : SlackMonitor) (channel_id : string)
  (channel_name : option string) : M (list message) :=
  emit (CallConversationsHistory channel_id 200) ;;;
  match conversations_history (client self) channel_id with
  | Some messages => ret messages
  | None => emit (Log (ErrFetchMessages channel_id)) ;;; ret []
  end.

(** The dict appended for one member channel. *)
Definition describe (self : SlackMonitor) (ch : channel) : result monitored :=
  let owner_id := resolve_owner self ch in
  let channel_name :=
    or_ostr (or_ostr (ch_name ch) (ch_name_normalized ch)) (ch_id ch) in
  result_bind (getitem "id" (ch_id ch)) (fun i =>
  Ok {| m_id := i; m_name := channel_name; m_owner_id := owner_id |}).

(** The inner loop over the channels of one page. *)
Fixpoint add_channels (self : SlackMonitor) (page : list channel)
  (channels : list monitored) : result (list monitored) :=
  match page with
  | [] => Ok channels
  | ch :: rest =>
      if negb (ch_is_member ch) then add_channels self rest channels
      else result_bind (describe self ch) (fun d =>
           add_channels self rest (channels ++ [d]))
  end.

(** The pagination loop, [fuel] page requests at most; [None] when the
    platform still hands out a cursor after that many. *)
Fixpoint fetch_pages (self : SlackMonitor) (fuel : nat)
  (cursor : option string) (channels : list monitored)
  : M (option (list monitored)) :=
  match fuel with
  | O => ret None
  | S fuel' =>
      emit (CallConversationsList cursor) ;;;
      match conversations_list (client self) cursor with
      | None => emit (Log ErrListChannels) ;;; ret (Some channels)
      | Some resp =>
          channels' <- lift (add_channels self (page_channels resp) channels) ;;
          let cursor' := next_cursor resp in
          if negb (truthy_ostr cursor') then ret (Some channels')
          else fetch_pages self fuel' cursor' channels'
      end
  end.

Definition fetch_monitored_channels (self : SlackMonitor) (fuel : nat)
  : M (option (list monitored)) :=
  fetch_pages self fuel None [].

(** *** SlackMonitor.check_channels *)

Definition status_eqb (a b : status) : bool :=
  match a, b with
  | answered, answered | waiting, waiting | remind, remind => true
  | _, _ => false
  end.

(** The body of the loop over the monitored channels. *)
Definition check_channel (self : SlackMonitor) (now : datetime)
  (ch : monitored) : M unit :=
  let channel_id := m_id ch in
  let channel_name := m_name ch in
  let owner_id := m_owner_id ch in
  emit (Log (InfoChecking channel_name channel_id)) ;;;
  messages <- fetch_messages self channel_id channel_name ;;
  record <- lift (evaluate_channel self messages) ;;
  match record with
  | None => emit (Log (InfoNoClientMessages channel_id channel_name))
  | Some record =>
      let st := decide_status self record now in
      log_record self channel_name channel_id record st ;;;
      log_trail self channel_name channel_id record st ;;;
      if status_eqb st remind && truthy_ostr owner_id
      then send_reminder self channel_id (get_default owner_id EmptyString)
             record now
      else if status_eqb st remind && negb (truthy_ostr owner_id)
      then emit (Log (WarnNoOwner channel_name channel_id))
      else ret tt
  end.

(** [for x in l: body(x)]. *)
Fixpoint for_each {A : Type} (body : A -> M unit) (l : list A) : M unit :=
  match l with
  | [] => ret tt
  | x :: l' => body x ;;; for_each body l'
  end.

(** One monitoring cycle; [now] is the instant that the clock shows at
    its start. *)
Definition check_channels (self : SlackMonitor) (fuel : nat) (now : instant)
  : M (option unit) :=
  let now := datetime_now self now in
  channels <- fetch_monitored_channels self fuel ;;
  match channels with
  | None => ret None
  | Some chs => for_each (check_channel self now) chs ;;; ret (Some tt)
  end.

(** ** Vocabulary of the properties *)

(** Microseconds since local midnight of a time of day. *)
Definition us_since_midnight (t : dtime) : Z :=
  ((hour t * 60 + minute t) * 60 + second t) * US_PER_SECOND + microsecond t.

(** The field ranges that [datetime.time] enforces on construction. *)
Definition wf_dtime (t : dtime) : Prop :=
  0 <= hour t < 24 /\ 0 <= minute t < 60 /\ 0 <= second t < 60
  /\ 0 <= microsecond t < US_PER_SECOND.

(** The zone with this name never departs from UTC. *)
Definition zone_is_utc (name : string) : Prop :=
  forall t : instant, ZoneInfo name t = 0.

(** The threshold, in hours, that applies at [now]. *)
Definition threshold_at (self : SlackMonitor) (now : datetime) : Z :=
  if is_open (business_hours (config self)) (dt_instant now)
  then business_reply_hours (config self)
  else overall_reply_hours (config self).

(** The record holds a reply that the status decision takes into account:
    a timestamp that is present and not falsy. *)
Definition reply_seen (record : exchange) (t : Z) : Prop :=
  team_reply_ts record = Some t /\ t <> 0.


(** The test [reply_dt and reply_dt > client_dt]. *)
Definition reply_after (self : SlackMonitor) (record : exchange) : bool :=
  match reply_datetime self record with
  | Some r => datetime_gt r (zoned_fromtimestamp self (client_ts record))
  | None => false
  end.

(** What escaping does to one character of the text: a line feed or a
    carriage return becomes a space, a double quote is doubled, any other
    character stays. *)
Definition escape_char (c : ascii) : string :=
  if Ascii.eqb c LF then String SPACE EmptyString
  else if Ascii.eqb c CR then String SPACE EmptyString
  else if Ascii.eqb c DQUOTE then String DQUOTE (String DQUOTE EmptyString)
  else String c EmptyString.

Fixpoint escape_all (s : string) : string :=
  match s with
  | EmptyString => EmptyString
  | String c s' => String.append (escape_char c) (escape_all s')
  end.

(** The character [c] occurs in [s]. *)
Fixpoint occurs (c : ascii) (s : string) : Prop :=
  match s with
  | EmptyString => False
  | String d s' => c = d \/ occurs c s'
  end.

(** The inside of a well-formed quoted CSV field that stays on one line:
    characters other than the double quote and the line breaks, and double
    quotes in pairs. *)
Inductive field_body : string -> Prop :=
| body_empty : field_body EmptyString
| body_char (c : ascii) (s : string) :
    c <> DQUOTE -> c <> LF -> c <> CR -> field_body s ->
    field_body (String c s)
| body_quote (s : string) :
    field_body s -> field_body (String DQUOTE (String DQUOTE s)).

(** The valid messages of a channel in the order in which the scanning
    loop meets them. *)
Definition scanned (messages : list message) : list message :=
  List.filter is_valid_message (sorted sort_key messages).

(** The result that [_evaluate_channel] builds from the final value of
    its loop variables. *)
Definition exchange_of_state (st : scan_state) : result (option exchange) :=
  match fst st with
  | None => Ok None
  | Some c =>
      result_bind (getitem "ts" (ts c)) (fun cts =>
      match snd st with
      | None =>
          Ok (Some {| client_ts := cts;
                      client_text := get_default (text c) EmptyString;
                      team_reply_ts := None;
                      team_reply_text := None |})
      | Some r =>
          result_bind (getitem "ts" (ts r)) (fun rts =>
          Ok (Some {| client_ts := cts;
                      client_text := get_default (text c) EmptyString;
                      team_reply_ts := Some rts;
                      team_reply_text :=
                        Some (get_default (text r) EmptyString) |}))
      end)
  end.

(** Last element of a list, if any. *)
Fixpoint last_of {A : Type} (l : list A) : option A :=
  match l with
  | [] => None
  | [x] => Some x
  | _ :: l' => last_of l'
  end.

(** Order of the sort keys. *)
Definition key_le {A : Type} (key : A -> Z) (a b : A) : Prop :=
  key a <= key b.

(** The messages that [_fetch_messages] hands to the evaluator: the
    history of the channel, or nothing when the call fails. *)
Definition fetched (self : SlackMonitor) (channel_id : string)
  : list message :=
  get_default (conversations_history (client self) channel_id) [].

(** The event opens a direct-message channel. *)
Definition is_dm_open (e : event) : bool :=
  match e with
  | CallConversationsOpen _ => true
  | _ => false
  end.

(** The event posts a message. *)
Definition is_post (e : event) : bool :=
  match e with
  | CallChatPostMessage _ _ => true
  | _ => false
  end.

(** The event belongs to a reminder: a direct-message channel is opened or
    a message is posted. *)
Definition is_reminder_call (e : event) : bool := is_dm_open e || is_post e.

(** The event appends a line to one of the two logs. *)
Definition is_row (e : event) : bool :=
  match e with
  | AppendSummary _ | AppendTrail _ => true
  | _ => false
  end.

Definition count_events (p : event -> bool) (tr : list event) : nat :=
  length (List.filter p tr).

(** The zone with this name keeps one UTC offset, in seconds, at all
    instants. *)
Definition fixed_offset (name : string) (offset : Z) : Prop :=
  forall t : instant, ZoneInfo name t = offset.


(** Number of occurrences of a character. *)
Fixpoint count_char (c : ascii) (s : string) : nat :=
  match s with
  | EmptyString => O
  | String d s' => ((if Ascii.eqb d c then 1 else 0) + count_char c s')%nat
  end.

(** The first step of [_csv_escape]: line feeds and carriage returns
    become spaces. *)
Definition line_breaks_to_spaces (text : string) : string :=
  replace CR (String SPACE EmptyString)
    (replace LF (String SPACE EmptyString) text).


(** *** SlackMonitor.run_forever *)

(** What an iteration of [run_forever] adds to the events of its cycle. *)
Inductive loop_event : Type :=
| InCycle (e : event)
| LogIterationFailed (e : exn)
| Sleep (seconds : Z).

(** [max(self.config.check_interval_minutes, 1) * 60]. *)
Definition interval (cfg : MonitorConfig) : Z :=
  Z.max (check_interval_minutes cfg) 1 * 60.

(** The body of the [while True] loop: a cycle, the log of its failure if
    it raises, and the sleep.  [None] when the channel listing of the
    cycle does not end within [fuel] pages. *)
Definition run_iteration (self : SlackMonitor) (fuel : nat) (now : instant)
  : option (list loop_event) :=
  match check_channels self fuel now with
  | (tr, Ok (Some _)) =>
      Some (map InCycle tr ++ [Sleep (interval (config self))])
  | (tr, Ok None) => None
  | (tr, Raise e) =>
      Some (map InCycle tr
            ++ [LogIterationFailed e; Sleep (interval (config self))])
  end.

(** The first iterations of [run_forever], one for each element of
    [ticks]: the clock reading at the start of the iteration and the
    answers that the platform gives during it. *)
Fixpoint run_forever (cfg : MonitorConfig) (fuel : nat)
  (ticks : list (instant * WebClient)) : option (list loop_event) :=
  match ticks with
  | [] => Some []
  | (now, api) :: ticks' =>
      match run_iteration {| config := cfg; client := api |} fuel now with
      | None => None
      | Some tr =>
          match run_forever cfg fuel ticks' with
          | None => None
          | Some tr' => Some (tr ++ tr')
          end
      end
  end.

(** The durations of the sleeps of a run, in order. *)
Definition sleeps (tr : list loop_event) : list Z :=
  flat_map (fun e => match e with Sleep s => [s] | _ => [] end) tr.

(** The failures logged during a run, in order. *)
Definition logged_failures (tr : list loop_event) : list exn :=
  flat_map (fun e => match e with LogIterationFailed x => [x] | _ => [] end)
    tr.

(** The failure, if any, of the cycle of one tick. *)
Definition cycle_failure (cfg : MonitorConfig) (fuel : nat)
  (tick : instant * WebClient) : list exn :=
  match outcome_of (check_channels {| config := cfg; client := snd tick |}
                      fuel (fst tick)) with
  | Raise e => [e]
  | Ok _ => []
  end.

(** The channel listing of the cycle of one tick ends within [fuel]
    page requests. *)
Definition listing_ends (cfg : MonitorConfig) (fuel : nat)
  (tick : instant * WebClient) : Prop :=
  outcome_of (fetch_monitored_channels {| config := cfg; client := snd tick |}
                fuel) <> Ok None.

(** *** SlackMonitor._debug_log_messages *)

(** The fields that the debug log prints for a message: ts, user, subtype
    and a one-line snippet of the text. *)
Record debug_line : Type := mk_debug_line {
  dbg_ts : option Z;
  dbg_user : string;
  dbg_subtype : string;
  dbg_snippet : string
}.

Definition debug_fields (msg : message) : debug_line :=
  let user_field :=
    if truthy_ostr (user msg) then get_default (user msg) EmptyString
    else get_default (bot_id msg) "unknown"%string in
  let subtype_field := get_default (subtype msg) "standard"%string in
  let text_field :=
    replace LF (String SPACE EmptyString)
      (get_default (or_ostr (text msg) (Some EmptyString)) EmptyString) in
  let snippet :=
    String.append (String.substring 0 80 text_field)
      (if (80 <? String.length text_field)%nat then "..."%string
       else EmptyString) in
  {| dbg_ts := ts msg; dbg_user := user_field;
     dbg_subtype := subtype_field; dbg_snippet := snippet |}.

Definition debug_log_messages (messages : list message) : list debug_line :=
  map debug_fields messages.


(** * Properties *)

(** ** Floating point *)

Lemma round_half_even_spec (n d : Z) :
  0 < d ->
  let r := round_half_even n d in
  (2 * r - 1) * d <= 2 * n <= (2 * r + 1) * d
  /\ (2 * n = (2 * r + 1) * d -> Z.even r = true)
  /\ (2 * n = (2 * r - 1) * d -> Z.even r = true).
Proof.
  intros Hd r. subst r. unfold round_half_even.
  pose proof (Z.div_mod n d ltac:(lia)) as Hn.
  pose proof (Z.mod_pos_bound n d Hd) as Hm.
  set (q := n / d) in *. set (m := n mod d) in *.
  destruct (Z.compare_spec (2 * m) d) as [E | L | G].
  - destruct (Z.even q) eqn:Ev.
    + repeat split; try lia; auto.
    + assert (Z.even (q + 1) = true).
      { rewrite Z.even_add, Ev. reflexivity. }
      repeat split; try lia; auto.
  - repeat split; try lia.
  - repeat split; try lia.
Qed.

Lemma round_half_even_monotone (n1 d1 n2 d2 : Z) :
  0 < d1 -> 0 < d2 -> n1 * d2 <= n2 * d1 ->
  round_half_even n1 d1 <= round_half_even n2 d2.
Proof.
  intros H1 H2 Hle.
  destruct (round_half_even_spec n1 d1 H1) as ([L1 U1] & T1 & B1).
  destruct (round_half_even_spec n2 d2 H2) as ([L2 U2] & T2 & B2).
  set (r1 := round_half_even n1 d1) in *.
  set (r2 := round_half_even n2 d2) in *.
  destruct (Z_le_gt_dec r1 r2) as [|Hgt]; [assumption | exfalso].
  assert (P : 0 < d1 * d2) by nia.
  assert (C1 : (2 * r1 - 1) * (d1 * d2) <= 2 * n1 * d2) by nia.
  assert (C2 : 2 * n2 * d1 <= (2 * r2 + 1) * (d1 * d2)) by nia.
  assert (C3 : (2 * r1 - 1) * (d1 * d2) <= (2 * r2 + 1) * (d1 * d2)) by lia.
  assert (Er : r1 = r2 + 1) by nia.
  assert (E1 : 2 * n1 = (2 * r1 - 1) * d1) by nia.
  assert (E2 : 2 * n2 = (2 * r2 + 1) * d2) by nia.
  specialize (B1 E1). specialize (T2 E2).
  rewrite Er, Z.even_add, T2 in B1. discriminate.
Qed.

Lemma scaling_bracket (n d : Z) :
  0 < n -> 0 < d ->
  let s := Z.log2 d + 1 in
  let t := Z.log2 (n * 2 ^ s / d) in
  0 < s /\ 0 <= t
  /\ 2 ^ t * d <= n * 2 ^ s < 2 * 2 ^ t * d.
Proof.
  intros Hn Hd s t.
  assert (Hs : 0 < s) by (pose proof (Z.log2_nonneg d); lia).
  assert (Hds : d < 2 ^ s).
  { unfold s. pose proof (Z.log2_spec d Hd). lia. }
  assert (Hw : 0 < 2 ^ s) by (apply Z.pow_pos_nonneg; lia).
  assert (Hq : 0 < n * 2 ^ s / d).
  { apply Z.div_str_pos. nia. }
  pose proof (Z.log2_spec _ Hq) as [Hlo Hhi]. fold t in Hlo, Hhi.
  rewrite Z.pow_succ_r in Hhi by apply Z.log2_nonneg.
  pose proof (Z.mul_div_le (n * 2 ^ s) d Hd) as Hfl.
  pose proof (Z.mul_succ_div_gt (n * 2 ^ s) d Hd) as Hce.
  set (q := n * 2 ^ s / d) in *.
  assert (Hp : 0 < 2 ^ t) by (apply Z.pow_pos_nonneg; [lia | apply Z.log2_nonneg]).
  split; [exact Hs |]. split; [apply Z.log2_nonneg |].
  split; nia.
Qed.

Lemma round_pos_parts (n d : Z) :
  0 < n -> 0 < d ->
  let s := Z.log2 d + 1 in
  let t := Z.log2 (n * 2 ^ s / d) in
  let m := round_half_even (n * 2 ^ (s + 52)) (d * 2 ^ t) in
  0 < s /\ 0 <= t
  /\ 2 ^ t * d <= n * 2 ^ s < 2 * 2 ^ t * d
  /\ 2 ^ 52 <= m <= 2 ^ 53
  /\ round_pos n d = (m * 2 ^ t) # Z.to_pos (2 ^ (s + 52))
  /\ Zpos (Z.to_pos (2 ^ (s + 52))) = 2 ^ s * 2 ^ 52.
Proof.
  intros Hn Hd.
  destruct (scaling_bracket n d Hn Hd) as (Hs & Ht & Hlo & Hhi).
  cbv zeta. unfold round_pos.
  set (s := Z.log2 d + 1) in *.
  set (t := Z.log2 (n * 2 ^ s / d)) in *.
  set (m := round_half_even (n * 2 ^ (s + 52)) (d * 2 ^ t)).
  assert (Hw : 0 < 2 ^ s) by (apply Z.pow_pos_nonneg; lia).
  assert (Hp : 0 < 2 ^ t) by (apply Z.pow_pos_nonneg; lia).
  assert (HD : 0 < d * 2 ^ t) by nia.
  assert (Epow : 2 ^ (s + 52) = 2 ^ s * 2 ^ 52) by (apply Z.pow_add_r; lia).
  destruct (round_half_even_spec (n * 2 ^ (s + 52)) (d * 2 ^ t) HD)
    as ([L U] & _ & _).
  fold m in L, U. rewrite Epow in L, U.
  change (2 ^ 52) with 4503599627370496 in *.
  change (2 ^ 53) with 9007199254740992.
  assert (Hm : 4503599627370496 <= m <= 9007199254740992).
  { set (D := d * 2 ^ t) in *. set (W := n * (2 ^ s * 4503599627370496)) in *.
    assert (B1 : 4503599627370496 * D <= W) by (unfold D, W; nia).
    assert (B2 : W < 9007199254740992 * D) by (unfold D, W; nia).
    split; nia. }
  split; [exact Hs |]. split; [exact Ht |]. split; [split; assumption |].
  split; [exact Hm |]. split; [reflexivity |].
  rewrite Z2Pos.id; [exact Epow | rewrite Epow; nia].
Qed.

Lemma round_pos_positive (n d : Z) :
  0 < n -> 0 < d -> (0 < round_pos n d)%Q.
Proof.
  intros Hn Hd.
  destruct (round_pos_parts n d Hn Hd) as (Hs & Ht & _ & Hm & -> & _).
  cbv zeta in Hm.
  set (m := round_half_even _ _) in *.
  assert (0 < 2 ^ Z.log2 (n * 2 ^ (Z.log2 d + 1) / d))
    by (apply Z.pow_pos_nonneg; [lia | exact Ht]).
  change (2 ^ 52) with 4503599627370496 in Hm.
  unfold Qlt. cbn [Qnum Qden]. nia.
Qed.

Lemma pow2_order (u v : Z) :
  0 <= u -> 0 <= v ->
  (u < v -> 2 * 2 ^ u <= 2 ^ v) /\ (u = v -> 2 ^ u = 2 ^ v).
Proof.
  intros Hu Hv. split; [| now intros ->].
  intros Hlt. rewrite <- Z.pow_succ_r by exact Hu.
  apply Z.pow_le_mono_r; lia.
Qed.

Lemma round_pos_monotone (n1 d1 n2 d2 : Z) :
  0 < n1 -> 0 < d1 -> 0 < n2 -> 0 < d2 ->
  n1 * d2 <= n2 * d1 ->
  (round_pos n1 d1 <= round_pos n2 d2)%Q.
Proof.
  intros Hn1 Hd1 Hn2 Hd2 Hle.
  destruct (round_pos_parts n1 d1 Hn1 Hd1)
    as (Hs1 & Ht1 & [Lo1 Hi1] & Hm1 & -> & Den1).
  destruct (round_pos_parts n2 d2 Hn2 Hd2)
    as (Hs2 & Ht2 & [Lo2 Hi2] & Hm2 & -> & Den2).
  cbv zeta in *.
  set (s1 := Z.log2 d1 + 1) in *. set (s2 := Z.log2 d2 + 1) in *.
  set (t1 := Z.log2 (n1 * 2 ^ s1 / d1)) in *.
  set (t2 := Z.log2 (n2 * 2 ^ s2 / d2)) in *.
  set (m1 := round_half_even (n1 * 2 ^ (s1 + 52)) (d1 * 2 ^ t1)) in *.
  set (m2 := round_half_even (n2 * 2 ^ (s2 + 52)) (d2 * 2 ^ t2)) in *.
  unfold Qle. cbn [Qnum Qden]. rewrite Den1, Den2.
  assert (Hp1 : 0 < 2 ^ t1) by (apply Z.pow_pos_nonneg; lia).
  assert (Hp2 : 0 < 2 ^ t2) by (apply Z.pow_pos_nonneg; lia).
  assert (Hw1 : 0 < 2 ^ s1) by (apply Z.pow_pos_nonneg; lia).
  assert (Hw2 : 0 < 2 ^ s2) by (apply Z.pow_pos_nonneg; lia).
  assert (Eu : 2 ^ (t1 + s2) = 2 ^ t1 * 2 ^ s2) by (apply Z.pow_add_r; lia).
  assert (Ev : 2 ^ (t2 + s1) = 2 ^ t2 * 2 ^ s1) by (apply Z.pow_add_r; lia).
  assert (E1 : 2 ^ (s1 + 52) = 2 ^ s1 * 2 ^ 52) by (apply Z.pow_add_r; lia).
  assert (E2 : 2 ^ (s2 + 52) = 2 ^ s2 * 2 ^ 52) by (apply Z.pow_add_r; lia).
  change (2 ^ 52) with 4503599627370496 in *.
  change (2 ^ 53) with 9007199254740992 in *.
  set (p1 := 2 ^ t1) in *. set (p2 := 2 ^ t2) in *.
  set (w1 := 2 ^ s1) in *. set (w2 := 2 ^ s2) in *.
  (* the order of the two binades *)
  assert (Hcmp : p1 * w2 < 2 * (p2 * w1)).
  { assert (A : p1 * d1 * (d2 * w2) <= n1 * w1 * (d2 * w2)).
    { apply Z.mul_le_mono_nonneg_r; nia. }
    assert (B : n1 * w1 * (d2 * w2) <= n2 * w2 * (d1 * w1)) by nia.
    assert (C : n2 * w2 * (d1 * w1) < 2 * p2 * d2 * (d1 * w1)).
    { apply Z.mul_lt_mono_pos_r; nia. }
    assert (P : 0 < d1 * d2) by nia.
    assert (D : (p1 * w2) * (d1 * d2) < (2 * (p2 * w1)) * (d1 * d2)) by nia.
    apply Z.mul_lt_mono_pos_r in D; assumption. }
  destruct (Z.lt_trichotomy (t1 + s2) (t2 + s1)) as [Hlt | [Heq | Hgt]].
  - destruct (pow2_order (t1 + s2) (t2 + s1) ltac:(lia) ltac:(lia)) as [H _].
    specialize (H Hlt). rewrite Eu, Ev in H. fold p1 p2 w1 w2 in H.
    assert (X1 : m1 * (p1 * w2) <= 9007199254740992 * (p1 * w2)).
    { apply Z.mul_le_mono_nonneg_r; nia. }
    assert (X2 : 4503599627370496 * (p2 * w1) <= m2 * (p2 * w1)).
    { apply Z.mul_le_mono_nonneg_r; nia. }
    nia.
  - destruct (pow2_order (t1 + s2) (t2 + s1) ltac:(lia) ltac:(lia)) as [_ H].
    specialize (H Heq). rewrite Eu, Ev in H. fold p1 p2 w1 w2 in H.
    assert (Hm : m1 <= m2).
    { apply round_half_even_monotone; nia. }
    assert (X : m1 * (p1 * w2) <= m2 * (p1 * w2)).
    { apply Z.mul_le_mono_nonneg_r; nia. }
    nia.
  - destruct (pow2_order (t2 + s1) (t1 + s2) ltac:(lia) ltac:(lia)) as [H _].
    specialize (H Hgt). rewrite Eu, Ev in H. fold p1 p2 w1 w2 in H.
    lia.
Qed.

Lemma RN_monotone (q1 q2 : Q) : (q1 <= q2)%Q -> (RN q1 <= RN q2)%Q.
Proof.
  destruct q1 as [n1 d1], q2 as [n2 d2]. unfold Qle at 1, RN.
  cbn [Qnum Qden]. intros Hle.
  destruct n1 as [| p1 | p1], n2 as [| p2 | p2]; try (exfalso; lia).
  - apply Qle_refl.
  - apply Qlt_le_weak, round_pos_positive; lia.
  - apply round_pos_monotone; lia.
  - apply Qlt_le_weak.
    pose proof (round_pos_positive (- Z.neg p1) (Z.pos d1) ltac:(lia) ltac:(lia))
      as H.
    apply Qopp_lt_compat in H. exact H.
  - apply Qlt_le_weak.
    pose proof (round_pos_positive (- Z.neg p1) (Z.pos d1) ltac:(lia) ltac:(lia))
      as H1.
    pose proof (round_pos_positive (Z.pos p2) (Z.pos d2) ltac:(lia) ltac:(lia))
      as H2.
    apply Qopp_lt_compat in H1. eapply Qlt_trans; [exact H1 | exact H2].
  - apply Qopp_le_compat, round_pos_monotone; lia.
Qed.

Lemma RN_compat (q1 q2 : Q) : (q1 == q2)%Q -> (RN q1 == RN q2)%Q.
Proof.
  intros E. apply Qle_antisym; apply RN_monotone; rewrite E; apply Qle_refl.
Qed.

#[local] Instance RN_Proper : Proper (Qeq ==> Qeq) RN.
Proof. intros q1 q2 E. now apply RN_compat. Qed.

Lemma RN_positive (q : Q) : (0 < q)%Q -> (0 < RN q)%Q.
Proof.
  destruct q as [n d]. unfold Qlt, RN. cbn [Qnum Qden]. intros H.
  destruct n as [| p | p]; try lia.
  apply round_pos_positive; lia.
Qed.

Lemma round_pos_exact (a k : Z) :
  0 < a < 2 ^ 53 -> 0 <= k ->
  (round_pos a (2 ^ k) == a # Z.to_pos (2 ^ k))%Q.
Proof.
  intros [Ha Hb] Hk.
  assert (Hd : 0 < 2 ^ k) by (apply Z.pow_pos_nonneg; lia).
  destruct (round_pos_parts a (2 ^ k) Ha Hd)
    as (Hs & Ht & [Lo Hi] & _ & -> & Den).
  cbv zeta in *.
  set (s := Z.log2 (2 ^ k) + 1) in *.
  set (t := Z.log2 (a * 2 ^ s / 2 ^ k)) in *.
  assert (Hw : 0 < 2 ^ s) by (apply Z.pow_pos_nonneg; lia).
  assert (Hp : 0 < 2 ^ t) by (apply Z.pow_pos_nonneg; lia).
  (* the divisor divides the scaled numerator *)
  assert (Hexp : t + k <= s + 52).
  { assert (2 ^ (t + k) < 2 ^ (s + 53)).
    { rewrite !Z.pow_add_r by lia. nia. }
    apply Z.pow_lt_mono_r_iff in H; lia. }
  set (j := s + 52 - (t + k)).
  assert (EN : a * 2 ^ (s + 52) = a * 2 ^ j * (2 ^ k * 2 ^ t)).
  { replace (s + 52) with (j + (k + t)) by (unfold j; lia).
    rewrite !Z.pow_add_r by (unfold j; lia). ring. }
  unfold round_half_even. rewrite EN.
  rewrite Z.div_mul, Z.mod_mul by nia.
  assert (2 * 0 < 2 ^ k * 2 ^ t) by nia.
  destruct (Z.compare_spec (2 * 0) (2 ^ k * 2 ^ t)); try lia.
  unfold Qeq. cbn [Qnum Qden].
  rewrite Z2Pos.id by exact Hd.
  rewrite Z2Pos.id by (apply Z.pow_pos_nonneg; lia).
  replace (s + 52) with (j + (k + t)) by (unfold j; lia).
  rewrite !Z.pow_add_r by (unfold j; lia). ring.
Qed.

(** A dyadic number whose numerator is below [2^53] in absolute value is
    a binary64 number. *)
Lemma RN_exact (a k : Z) :
  - 2 ^ 53 < a < 2 ^ 53 -> 0 <= k ->
  (RN (a # Z.to_pos (2 ^ k)) == a # Z.to_pos (2 ^ k))%Q.
Proof.
  intros Ha Hk.
  assert (Hd : 0 < 2 ^ k) by (apply Z.pow_pos_nonneg; lia).
  unfold RN. cbn [Qnum Qden]. rewrite Z2Pos.id by exact Hd.
  destruct a as [| p | p].
  - reflexivity.
  - apply round_pos_exact; lia.
  - rewrite round_pos_exact by lia.
    unfold Qeq, Qopp. cbn [Qnum Qden]. lia.
Qed.

Lemma RN_exact_Z (a : Z) :
  - 2 ^ 53 < a < 2 ^ 53 -> (RN (inject_Z a) == inject_Z a)%Q.
Proof. intros Ha. exact (RN_exact a 0 Ha ltac:(lia)). Qed.


Lemma total_hours_reaches (th us : Z) :
  - 2 ^ 19 <= th <= 2 ^ 19 ->
  ((inject_Z th <= total_hours us)%Q <-> th * 3600000000 <= us).
Proof.
  intros Hth. change (2 ^ 19) with 524288 in Hth.
  unfold total_hours, seconds.
  split.
  - intros Hle.
    destruct (Z_le_gt_dec (th * 3600000000) us) as [| Hgt]; [assumption |].
    exfalso.
    (* the seconds stay below a double that is below th * 3600 *)
    assert (H1 : (RN (us # 1000000)
                  <= (th * 3600 * 2 ^ 20 - 1) # Z.to_pos (2 ^ 20))%Q).
    { rewrite <- (RN_exact (th * 3600 * 2 ^ 20 - 1) 20)
        by (change (2 ^ 53) with 9007199254740992;
            change (2 ^ 20) with 1048576; lia).
      apply RN_monotone. unfold Qle. cbn. lia. }
    assert (H2 : (RN (RN (us # 1000000) / 3600)
                  <= (th * 2 ^ 32 - 1) # Z.to_pos (2 ^ 32))%Q).
    { rewrite <- (RN_exact (th * 2 ^ 32 - 1) 32)
        by (change (2 ^ 53) with 9007199254740992;
            change (2 ^ 32) with 4294967296; lia).
      apply RN_monotone.
      set (y := RN (us # 1000000)) in *.
      apply Qle_shift_div_r; [reflexivity |].
      eapply Qle_trans; [exact H1 |].
      unfold Qle, Qmult. cbn. lia. }
    assert (H3 : ((th * 2 ^ 32 - 1) # Z.to_pos (2 ^ 32) < inject_Z th)%Q).
    { unfold Qlt. cbn. lia. }
    apply (Qlt_irrefl (inject_Z th)).
    eapply Qle_lt_trans; [exact Hle |].
    eapply Qle_lt_trans; [exact H2 | exact H3].
  - intros Hle.
    assert (H1 : (inject_Z (th * 3600) <= RN (us # 1000000))%Q).
    { rewrite <- (RN_exact_Z (th * 3600))
        by (change (2 ^ 53) with 9007199254740992; lia).
      apply RN_monotone. unfold Qle. cbn. lia. }
    rewrite <- (RN_exact_Z th)
      by (change (2 ^ 53) with 9007199254740992; lia).
    apply RN_monotone.
    apply Qle_shift_div_l; [reflexivity |].
    eapply Qle_trans; [| exact H1].
    unfold Qle, Qmult. cbn. lia.
Qed.

Lemma RN_negative (q : Q) : (q < 0)%Q -> (RN q < 0)%Q.
Proof.
  destruct q as [n d]. unfold Qlt at 1, RN. cbn [Qnum Qden]. intros H.
  destruct n as [| p | p]; try (exfalso; lia).
  pose proof (round_pos_positive (- Z.neg p) (Z.pos d) ltac:(lia) ltac:(lia))
    as Hp.
  apply Qopp_lt_compat in Hp. exact Hp.
Qed.

Lemma total_hours_sign (us : Z) :
  (0 < us -> (0 < total_hours us)%Q)
  /\ (us < 0 -> (total_hours us < 0)%Q)
  /\ (us = 0 -> total_hours us = 0%Q).
Proof.
  unfold total_hours, seconds. split; [| split].
  - intros H. apply RN_positive.
    assert (Hs : (0 < RN (us # 1000000))%Q)
      by (apply RN_positive; unfold Qlt; cbn; lia).
    apply Qlt_shift_div_l; [reflexivity |]. now rewrite Qmult_0_l.
  - intros H. apply RN_negative.
    assert (Hs : (RN (us # 1000000) < 0)%Q)
      by (apply RN_negative; unfold Qlt; cbn; lia).
    apply Qlt_shift_div_r; [reflexivity |]. now rewrite Qmult_0_l.
  - intros ->. reflexivity.
Qed.

(** ** Times of day *)

Lemma dtime_le_lex (a b : dtime) :
  dtime_le a b = true <->
  hour a < hour b \/
  (hour a = hour b /\
   (minute a < minute b \/
    (minute a = minute b /\
     (second a < second b \/
      (second a = second b /\ microsecond a <= microsecond b))))).
Proof.
  unfold dtime_le, dtime_cmp.
  destruct (Z.compare_spec (hour a) (hour b));
    destruct (Z.compare_spec (minute a) (minute b));
    destruct (Z.compare_spec (second a) (second b));
    destruct (Z.compare_spec (microsecond a) (microsecond b));
    split; intros; try discriminate; try reflexivity; lia.
Qed.

Lemma dtime_gt_not_le (a b : dtime) : dtime_gt a b = negb (dtime_le a b).
Proof. unfold dtime_gt, dtime_le. now destruct (dtime_cmp a b). Qed.

Lemma dtime_le_trans (a b c : dtime) :
  dtime_le a b = true -> dtime_le b c = true -> dtime_le a c = true.
Proof. rewrite !dtime_le_lex. lia. Qed.

Lemma dtime_le_us (a b : dtime) :
  wf_dtime a -> wf_dtime b ->
  (dtime_le a b = true <-> us_since_midnight a <= us_since_midnight b).
Proof.
  unfold wf_dtime, us_since_midnight, US_PER_SECOND.
  rewrite dtime_le_lex. lia.
Qed.

Lemma time_of_wf (local : wallclock) : wf_dtime (time_of local).
Proof.
  unfold wf_dtime, time_of; cbn [hour minute second microsecond].
  pose proof (Z.mod_pos_bound local US_PER_DAY eq_refl) as Hr.
  set (r := local mod US_PER_DAY) in *.
  unfold US_PER_DAY, US_PER_HOUR, US_PER_MINUTE, US_PER_SECOND in *.
  repeat split;
    try (apply Z.mod_pos_bound; lia);
    try (apply Z.div_pos; lia);
    try (apply Z.div_lt_upper_bound; lia).
Qed.

Lemma time_of_us (local : wallclock) :
  us_since_midnight (time_of local) = local mod US_PER_DAY.
Proof.
  unfold us_since_midnight, time_of; cbn [hour minute second microsecond].
  set (r := local mod US_PER_DAY).
  unfold US_PER_HOUR, US_PER_MINUTE, US_PER_SECOND.
  change (60 * 1000000) with 60000000.
  change (3600 * 1000000) with 3600000000.
  assert (E1 : r / 60000000 = r / 1000000 / 60)
    by (rewrite Z.div_div by lia; reflexivity).
  assert (E2 : r / 3600000000 = r / 60000000 / 60)
    by (rewrite Z.div_div by lia; reflexivity).
  pose proof (Z.div_mod r 1000000 ltac:(lia)) as H1.
  pose proof (Z.div_mod (r / 1000000) 60 ltac:(lia)) as H2.
  pose proof (Z.div_mod (r / 60000000) 60 ltac:(lia)) as H3.
  lia.
Qed.

Lemma weekday_range (local : wallclock) : 0 <= weekday local < 7.
Proof. unfold weekday. apply Z.mod_pos_bound. lia. Qed.

(** ** BusinessHours.is_open *)

Lemma is_open_unfold (bh : BusinessHours) (moment : instant) :
  is_open bh moment =
  negb (weekdays_only bh && (5 <=? weekday (astimezone (timezone bh) moment)))
  && (dtime_le (start bh) (time_of (astimezone (timezone bh) moment))
      && dtime_le (time_of (astimezone (timezone bh) moment)) (end_ bh)).
Proof.
  unfold is_open.
  now destruct (weekdays_only bh && (5 <=? weekday _)).
Qed.

Lemma weekend_iff (local : wallclock) :
  (5 <=? weekday local) = true <-> weekday local = 5 \/ weekday local = 6.
Proof.
  pose proof (weekday_range local). rewrite Z.leb_le. lia.
Qed.

(** C4.  [is_open] reads the instant in the configured zone.  With
    [weekdays_only] set it is closed on a local Saturday (weekday 5) or
    Sunday (weekday 6).  In every other case it is open exactly when
    [start <= local_time <= end], both ends included; for well-formed times
    of day that is the numeric comparison of the microseconds since local
    midnight.  In particular with 08:00-17:00, weekdays only, zone UTC: a
    Monday instant at exactly 08:00:00 or exactly 17:00:00 is open and any
    Saturday instant is closed. *)
Theorem is_open_window (bh : BusinessHours) (moment : instant) :
  let local_now := astimezone (timezone bh) moment in
  (weekdays_only bh = true ->
   weekday local_now = 5 \/ weekday local_now = 6 ->
   is_open bh moment = false)
  /\ (~ (weekdays_only bh = true
         /\ (weekday local_now = 5 \/ weekday local_now = 6)) ->
      (is_open bh moment = true <->
       dtime_le (start bh) (time_of local_now) = true
       /\ dtime_le (time_of local_now) (end_ bh) = true)
      /\ (wf_dtime (start bh) -> wf_dtime (end_ bh) ->
          (is_open bh moment = true <->
           us_since_midnight (start bh) <= local_now mod US_PER_DAY
             <= us_since_midnight (end_ bh))))
  /\ (timezone bh = "UTC"%string -> zone_is_utc "UTC" ->
      start bh = hhmm 8 0 -> end_ bh = hhmm 17 0 ->
      weekdays_only bh = true ->
      (weekday moment = 0 ->
       moment mod US_PER_DAY = 8 * US_PER_HOUR
       \/ moment mod US_PER_DAY = 17 * US_PER_HOUR ->
       is_open bh moment = true)
      /\ (weekday moment = 5 -> is_open bh moment = false)).
Proof.
  intros local_now.
  assert (Hwin : ~ (weekdays_only bh = true
                    /\ (weekday local_now = 5 \/ weekday local_now = 6)) ->
                 is_open bh moment = true <->
                 dtime_le (start bh) (time_of local_now) = true
                 /\ dtime_le (time_of local_now) (end_ bh) = true).
  { intros Hno. rewrite is_open_unfold. fold local_now.
    rewrite andb_true_iff, negb_true_iff, andb_true_iff.
    assert (weekdays_only bh && (5 <=? weekday local_now) = false) as ->.
    { apply not_true_is_false. rewrite andb_true_iff, weekend_iff. exact Hno. }
    tauto. }
  split; [| split].
  - intros Hw Hd. rewrite is_open_unfold. fold local_now.
    apply weekend_iff in Hd. now rewrite Hw, Hd.
  - intros Hno. split; [exact (Hwin Hno) |].
    intros Hs He. rewrite (Hwin Hno).
    rewrite (dtime_le_us _ _ Hs (time_of_wf local_now)).
    rewrite (dtime_le_us _ _ (time_of_wf local_now) He).
    rewrite time_of_us. tauto.
  - intros Htz Hutc Hs He Hw.
    assert (Hloc : local_now = moment).
    { unfold local_now, astimezone. rewrite Htz, Hutc. lia. }
    rewrite Hloc in *. split.
    + intros Hmon Hat.
      apply Hwin; [lia |].
      rewrite Hs, He.
      assert (W8 : wf_dtime (hhmm 8 0))
        by (unfold wf_dtime, hhmm, US_PER_SECOND; cbn; lia).
      assert (W17 : wf_dtime (hhmm 17 0))
        by (unfold wf_dtime, hhmm, US_PER_SECOND; cbn; lia).
      rewrite (dtime_le_us _ _ W8 (time_of_wf moment)).
      rewrite (dtime_le_us _ _ (time_of_wf moment) W17).
      rewrite time_of_us.
      unfold us_since_midnight, hhmm, US_PER_HOUR, US_PER_SECOND in *.
      cbn [hour minute second microsecond]. lia.
    + intros Hsat. rewrite is_open_unfold.
      unfold astimezone. rewrite Htz, Hutc.
      replace (moment + US_PER_SECOND * 0) with moment by lia.
      rewrite Hw, Hsat. reflexivity.
Qed.

(** ** SlackMonitor._decide_status *)

Lemma decide_status_cases (self : SlackMonitor) (record : exchange)
  (now : datetime) :
  decide_status self record now =
  if reply_after self record then answered
  else if Qle_bool (inject_Z (threshold_at self now))
            (hours_since_client self record now)
       then remind else waiting.
Proof. reflexivity. Qed.

Lemma same_zone_sub (a b : datetime) :
  dt_zone a = dt_zone b -> datetime_sub a b = wall a - wall b.
Proof.
  intros E. unfold datetime_sub, same_tzinfo. rewrite E.
  now rewrite String.eqb_refl.
Qed.

Lemma same_zone_gt (a b : datetime) :
  dt_zone a = dt_zone b -> datetime_gt a b = (wall b <? wall a).
Proof.
  intros E. unfold datetime_gt, same_tzinfo. rewrite E.
  now rewrite String.eqb_refl.
Qed.

Lemma reply_after_iff (self : SlackMonitor) (record : exchange) :
  reply_after self record = true <->
  exists t, reply_seen record t
            /\ wall (zoned_fromtimestamp self (client_ts record))
               < wall (zoned_fromtimestamp self t).
Proof.
  unfold reply_after, reply_datetime, reply_seen, truthy_num.
  destruct (team_reply_ts record) as [t |].
  - destruct (Z.eqb_spec t 0) as [-> | Hne]; cbn [negb].
    + split; [discriminate |]. intros (t & [[= <-] Hne] & _). lia.
    + rewrite same_zone_gt by reflexivity. rewrite Z.ltb_lt. split.
      * intros Hlt. exists t. auto.
      * intros (t' & [[= <-] _] & Hlt). exact Hlt.
  - split; [discriminate |]. intros (t & [[=] _] & _).
Qed.

Lemma decide_status_answered_iff (self : SlackMonitor) (record : exchange)
  (now : datetime) :
  decide_status self record now = answered <-> reply_after self record = true.
Proof.
  rewrite decide_status_cases.
  destruct (reply_after self record); [split; reflexivity |].
  destruct (Qle_bool _ _); split; discriminate.
Qed.

Lemma decide_status_not_answered (self : SlackMonitor) (record : exchange)
  (now : datetime) :
  decide_status self record now <> answered ->
  (decide_status self record now = remind <->
   (inject_Z (threshold_at self now)
    <= hours_since_client self record now)%Q)
  /\ (decide_status self record now = waiting <->
      ~ (inject_Z (threshold_at self now)
         <= hours_since_client self record now)%Q).
Proof.
  rewrite decide_status_cases.
  destruct (reply_after self record); [congruence |].
  intros _. rewrite <- Qle_bool_iff.
  destruct (Qle_bool _ _); split; split; intros; try discriminate;
    try reflexivity; congruence.
Qed.

Lemma no_reply_not_after (self : SlackMonitor) (record : exchange) :
  team_reply_ts record = None -> reply_after self record = false.
Proof. unfold reply_after, reply_datetime. now intros ->. Qed.

(** The hours that the status decision computes reach a threshold exactly
    when the difference that the subtraction of the two datetimes yields
    does. *)
Lemma hours_since_client_reaches (self : SlackMonitor) (record : exchange)
  (now : datetime) (threshold : Z) :
  - 2 ^ 19 <= threshold <= 2 ^ 19 ->
  ((inject_Z threshold <= hours_since_client self record now)%Q <->
   threshold * US_PER_HOUR
   <= datetime_sub now (zoned_fromtimestamp self (client_ts record))).
Proof.
  intros Hth. unfold hours_since_client.
  rewrite (total_hours_reaches threshold _ Hth). reflexivity.
Qed.

Lemma threshold_at_cases (self : SlackMonitor) (now : datetime) :
  threshold_at self now = business_reply_hours (config self)
  \/ threshold_at self now = overall_reply_hours (config self).
Proof. unfold threshold_at. destruct (is_open _ _); auto. Qed.

(** In a zone that keeps one offset the subtraction of two datetimes is
    the difference of their instants, whatever their tzinfo. *)
Lemma fixed_offset_sub (self : SlackMonitor) (offset : Z) (now : datetime)
  (t : Z) :
  fixed_offset (timezone (business_hours (config self))) offset ->
  datetime_sub now (zoned_fromtimestamp self t) = dt_instant now - t.
Proof.
  intros Hfix. unfold datetime_sub, same_tzinfo.
  destruct (String.eqb_spec (dt_zone now)
              (dt_zone (zoned_fromtimestamp self t))) as [E | _];
    [| reflexivity].
  unfold wall, astimezone. rewrite E. cbn [zoned_fromtimestamp dt_zone
                                            dt_instant].
  unfold fromtimestamp. rewrite !Hfix. lia.
Qed.

Lemma fixed_offset_wall (self : SlackMonitor) (offset : Z) (t1 t2 : Z) :
  fixed_offset (timezone (business_hours (config self))) offset ->
  (wall (zoned_fromtimestamp self t1) < wall (zoned_fromtimestamp self t2)
   <-> t1 < t2).
Proof.
  intros Hfix. unfold wall, astimezone, zoned_fromtimestamp, fromtimestamp.
  cbn [dt_zone dt_instant]. rewrite !Hfix. lia.
Qed.

(** The status decision in a zone that keeps one offset. *)
Lemma decide_status_fixed_offset (self : SlackMonitor) (offset : Z)
  (record : exchange) (now : datetime) :
  fixed_offset (timezone (business_hours (config self))) offset ->
  - 2 ^ 19 <= business_reply_hours (config self) <= 2 ^ 19 ->
  - 2 ^ 19 <= overall_reply_hours (config self) <= 2 ^ 19 ->
  decide_status self record now <> answered ->
  (decide_status self record now = remind <->
   threshold_at self now * US_PER_HOUR <= dt_instant now - client_ts record)
  /\ (decide_status self record now = waiting <->
      dt_instant now - client_ts record < threshold_at self now * US_PER_HOUR).
Proof.
  intros Hfix Hb Ho Hna.
  destruct (decide_status_not_answered self record now Hna) as [Hr Hw].
  assert (Hth : - 2 ^ 19 <= threshold_at self now <= 2 ^ 19)
    by (destruct (threshold_at_cases self now) as [-> | ->]; assumption).
  rewrite (hours_since_client_reaches self record now _ Hth) in Hr, Hw.
  rewrite (fixed_offset_sub self offset now _ Hfix) in Hr, Hw.
  split; [exact Hr |]. rewrite Hw. lia.
Qed.

(** C9.  When the configured window has [start] strictly after [end],
    [is_open] is closed at every instant, so the threshold of the status
    decision is always [overall_reply_hours]: a record that is not
    answered gets [remind] exactly when the hours that the decision
    computes reach [overall_reply_hours], and [waiting] otherwise. *)
Theorem inverted_window_never_open (self : SlackMonitor) :
  dtime_gt (start (business_hours (config self)))
    (end_ (business_hours (config self))) = true ->
  (forall moment : instant,
     is_open (business_hours (config self)) moment = false)
  /\ (forall now : datetime,
        threshold_at self now = overall_reply_hours (config self))
  /\ (forall (record : exchange) (now : datetime),
        decide_status self record now <> answered ->
        (decide_status self record now = remind <->
         (inject_Z (overall_reply_hours (config self))
          <= hours_since_client self record now)%Q)
        /\ (decide_status self record now = waiting <->
            ~ (inject_Z (overall_reply_hours (config self))
               <= hours_since_client self record now)%Q)).
Proof.
  intros Hgt.
  assert (Hclosed : forall moment : instant,
             is_open (business_hours (config self)) moment = false).
  { intros moment. rewrite is_open_unfold.
    destruct (dtime_le (start _) (time_of _)) eqn:E1;
      [| now rewrite andb_false_r].
    destruct (dtime_le (time_of _) (end_ _)) eqn:E2;
      [| now rewrite !andb_false_r].
    pose proof (dtime_le_trans _ _ _ E1 E2) as Hle.
    rewrite dtime_gt_not_le, Hle in Hgt. discriminate. }
  assert (Hth : forall now : datetime,
             threshold_at self now = overall_reply_hours (config self)).
  { intros now. unfold threshold_at. now rewrite Hclosed. }
  split; [exact Hclosed |]. split; [exact Hth |].
  intros record now Hna.
  destruct (decide_status_not_answered self record now Hna) as [Hr Hw].
  rewrite Hth in Hr, Hw. split; assumption.
Qed.


(** ** CSV escaping *)

Lemma append_cons (c : ascii) (s t : string) :
  String.append (String c s) t = String c (String.append s t).
Proof. reflexivity. Qed.

Lemma append_empty (t : string) : String.append EmptyString t = t.
Proof. reflexivity. Qed.

Lemma replace_chain (s : string) :
  replace DQUOTE (String DQUOTE (String DQUOTE EmptyString))
    (replace CR (String SPACE EmptyString)
       (replace LF (String SPACE EmptyString) s))
  = escape_all s.
Proof.
  induction s as [| c s IH]; [reflexivity |].
  cbn [replace escape_all]. unfold escape_char.
  destruct (Ascii.eqb_spec c LF) as [-> | HLF].
  - rewrite !append_cons, !append_empty. cbn [replace].
    change (Ascii.eqb SPACE CR) with false. cbn [replace].
    change (Ascii.eqb SPACE DQUOTE) with false. cbn iota.
    now rewrite IH.
  - cbn [replace]. destruct (Ascii.eqb_spec c CR) as [-> | HCR].
    + rewrite !append_cons, !append_empty. cbn [replace].
      change (Ascii.eqb SPACE DQUOTE) with false. cbn iota.
      now rewrite IH.
    + cbn [replace]. destruct (Ascii.eqb_spec c DQUOTE) as [-> | HDQ].
      * rewrite !append_cons, !append_empty. now rewrite IH.
      * rewrite !append_cons, !append_empty. now rewrite IH.
Qed.

Lemma field_body_app (s1 s2 : string) :
  field_body s1 -> field_body s2 -> field_body (String.append s1 s2).
Proof.
  induction 1; intros Hbody; rewrite ?append_cons, ?append_empty;
    [exact Hbody | |].
  - apply body_char; auto.
  - apply body_quote; auto.
Qed.

Lemma escape_char_body (c : ascii) : field_body (escape_char c).
Proof.
  unfold escape_char.
  destruct (Ascii.eqb_spec c LF);
    [apply body_char; [discriminate .. | apply body_empty] |].
  destruct (Ascii.eqb_spec c CR);
    [apply body_char; [discriminate .. | apply body_empty] |].
  destruct (Ascii.eqb_spec c DQUOTE);
    [apply body_quote, body_empty |].
  apply body_char; auto using body_empty.
Qed.

Lemma escape_all_body (s : string) : field_body (escape_all s).
Proof.
  induction s as [| c s IH]; cbn; [apply body_empty |].
  apply field_body_app; [apply escape_char_body | exact IH].
Qed.

Lemma field_body_no_break (s : string) (c : ascii) :
  field_body s -> occurs c s -> c <> LF /\ c <> CR.
Proof.
  induction 1 as [| d s Hq Hl Hc Hs IH | s Hs IH]; cbn.
  - tauto.
  - intros [-> | Hin]; auto.
  - intros [-> | [-> | Hin]]; auto; split; discriminate.
Qed.

Lemma occurs_app (c : ascii) (s1 s2 : string) :
  occurs c (String.append s1 s2) <-> occurs c s1 \/ occurs c s2.
Proof.
  induction s1 as [| d s1 IH]; rewrite ?append_cons, ?append_empty;
    cbn [occurs]; [tauto | rewrite IH; tauto].
Qed.

(** C6.  For every text, [_csv_escape] returns one quoted field: a double
    quote, a body, a double quote.  The body is the text with each double
    quote doubled and each line feed and carriage return replaced by a
    space, every other character unchanged; the double quotes inside it
    come in pairs only; and no line feed or carriage return occurs anywhere
    in the result. *)
Theorem csv_escape_field (text : string) :
  exists body : string,
    csv_escape text
    = String DQUOTE (String.append body (String DQUOTE EmptyString))
    /\ body = escape_all text
    /\ field_body body
    /\ forall c : ascii, occurs c (csv_escape text) -> c <> LF /\ c <> CR.
Proof.
  exists (escape_all text).
  assert (E : csv_escape text
              = String DQUOTE
                  (String.append (escape_all text) (String DQUOTE EmptyString))).
  { unfold csv_escape. now rewrite replace_chain. }
  split; [exact E |]. split; [reflexivity |].
  split; [apply escape_all_body |].
  intros c. rewrite E. cbn [occurs]. rewrite occurs_app. cbn [occurs].
  intros [-> | [Hin | [-> | []]]]; try (split; discriminate).
  exact (field_body_no_break _ _ (escape_all_body text) Hin).
Qed.

(** ** SlackMonitor._resolve_owner *)

Lemma dict_contains_lookup (d : gmap string string) (key : option string) :
  dict_contains d key = has_key (dict_lookup d key).
Proof.
  unfold dict_contains, dict_lookup. destruct key as [k |]; [| reflexivity].
  now destruct (d !! k).
Qed.

Lemma resolve_owner_cases (self : SlackMonitor) (ch : channel) :
  resolve_owner self ch =
  match dict_lookup (channel_owners (config self)) (ch_id ch) with
  | Some owner => Some owner
  | None =>
      if truthy_ostr (or_ostr (ch_name ch) (ch_name_normalized ch))
      then dict_lookup (channel_owners (config self))
             (or_ostr (ch_name ch) (ch_name_normalized ch))
      else None
  end.
Proof.
  unfold resolve_owner. rewrite !dict_contains_lookup.
  destruct (dict_lookup _ (ch_id ch)); [reflexivity |]. cbn [has_key].
  destruct (truthy_ostr _); [| reflexivity]. cbn [andb].
  now destruct (dict_lookup _ (or_ostr _ _)).
Qed.

(** C7.  Owner resolution looks the channel's id up in [channel_owners]
    first and its name only when the id is not a key.  A channel whose
    (non-empty) name is configured and whose id is not resolves to the
    owner configured for the name; a channel configured under both resolves
    to the owner configured for the id; a channel configured under neither
    resolves to no owner. *)
Theorem resolve_owner_id_then_name (self : SlackMonitor) (ch : channel) :
  let owners := channel_owners (config self) in
  (forall owner : string,
     dict_lookup owners (ch_id ch) = Some owner ->
     resolve_owner self ch = Some owner)
  /\ (forall name owner : string,
        dict_lookup owners (ch_id ch) = None ->
        ch_name ch = Some name -> name <> EmptyString ->
        owners !! name = Some owner ->
        resolve_owner self ch = Some owner)
  /\ (forall cid name by_id by_name : string,
        ch_id ch = Some cid -> ch_name ch = Some name ->
        owners !! cid = Some by_id -> owners !! name = Some by_name ->
        resolve_owner self ch = Some by_id)
  /\ (dict_lookup owners (ch_id ch) = None ->
      dict_lookup owners (ch_name ch) = None ->
      dict_lookup owners (ch_name_normalized ch) = None ->
      resolve_owner self ch = None).
Proof.
  intros owners. rewrite resolve_owner_cases. fold owners.
  split; [| split; [| split]].
  - now intros owner ->.
  - intros name owner -> Hname Hne Hown. rewrite Hname.
    unfold or_ostr. cbn [truthy_ostr].
    destruct name as [| c name]; [congruence |]. cbn. exact Hown.
  - intros cid name by_id by_name Hid _ Hown _. rewrite Hid. cbn.
    now rewrite Hown.
  - intros -> Hn Hnn. unfold or_ostr.
    destruct (truthy_ostr (ch_name ch)) eqn:E.
    + now rewrite E, Hn.
    + destruct (truthy_ostr (ch_name_normalized ch)); [exact Hnn | reflexivity].
Qed.

(** ** Sorting *)

Section Sorting.

Context {A : Type} (key : A -> Z).

Lemma insert_by_perm (x : A) (l : list A) :
  Permutation (insert_by key x l) (x :: l).
Proof.
  induction l as [| y l IH]; cbn; [reflexivity |].
  destruct (key x <=? key y); [reflexivity |].
  rewrite IH. apply perm_swap.
Qed.

Lemma sorted_perm (l : list A) : Permutation (sorted key l) l.
Proof.
  induction l as [| x l IH]; cbn; [reflexivity |].
  fold (sorted key l). rewrite insert_by_perm. now apply perm_skip.
Qed.

Lemma sorted_In (l : list A) (x : A) : In x (sorted key l) <-> In x l.
Proof.
  split; apply Permutation_in; [| symmetry]; apply sorted_perm.
Qed.

Lemma insert_by_ordered (x : A) (l : list A) :
  StronglySorted (key_le key) l ->
  StronglySorted (key_le key) (insert_by key x l).
Proof.
  induction 1 as [| y l Hl IH Hy]; cbn.
  - constructor; constructor.
  - destruct (Z.leb_spec (key x) (key y)) as [Hle | Hgt].
    + constructor; [constructor; assumption |].
      constructor; [exact Hle |].
      eapply List.Forall_impl; [| exact Hy].
      unfold key_le. intros; lia.
    + constructor; [exact IH |].
      eapply Permutation_Forall; [symmetry; apply insert_by_perm |].
      constructor; [unfold key_le; lia | exact Hy].
Qed.

Lemma sorted_ordered (l : list A) : StronglySorted (key_le key) (sorted key l).
Proof.
  induction l as [| x l IH]; cbn; [constructor |].
  now apply insert_by_ordered.
Qed.

(** Stability: elements with the same key keep their input order. *)
Lemma insert_by_stable (k : Z) (x : A) (l : list A) :
  Forall (fun y => key y = k -> key x <= key y) l ->
  List.filter (fun y => key y =? k) (insert_by key x l)
  = List.filter (fun y => key y =? k) (x :: l).
Proof.
  induction 1 as [| y l Hy Hl IH]; [reflexivity |].
  cbn [insert_by]. destruct (Z.leb_spec (key x) (key y)); [reflexivity |].
  cbn [List.filter] in *. rewrite IH.
  destruct (Z.eqb_spec (key y) k) as [E | _]; [specialize (Hy E); lia |].
  reflexivity.
Qed.

Lemma sorted_stable (k : Z) (l : list A) :
  List.filter (fun y => key y =? k) (sorted key l)
  = List.filter (fun y => key y =? k) l.
Proof.
  induction l as [| x l IH]; [reflexivity |].
  cbn [sorted fold_right]. fold (sorted key l).
  destruct (Z.eqb_spec (key x) k) as [E | Hne].
  - rewrite insert_by_stable.
    + cbn [List.filter]. now rewrite IH.
    + apply List.Forall_forall. intros y _ Hy. lia.
  - assert (Hdrop : forall l', List.filter (fun y => key y =? k)
                                 (insert_by key x l')
                               = List.filter (fun y => key y =? k) l').
    { induction l' as [| y l' IH']; cbn.
      - destruct (Z.eqb_spec (key x) k); [contradiction | reflexivity].
      - destruct (key x <=? key y); cbn.
        + destruct (Z.eqb_spec (key x) k); [contradiction | reflexivity].
        + now rewrite IH'. }
    rewrite Hdrop, IH. cbn [List.filter].
    destruct (Z.eqb_spec (key x) k); [contradiction | reflexivity].
Qed.

Lemma ordered_filter (p : A -> bool) (l : list A) :
  StronglySorted (key_le key) l ->
  StronglySorted (key_le key) (List.filter p l).
Proof.
  induction 1 as [| y l Hl IH Hy]; cbn; [constructor |].
  destruct (p y); [| exact IH].
  constructor; [exact IH |].
  apply List.Forall_forall. intros z Hz. apply filter_In in Hz.
  rewrite List.Forall_forall in Hy. now apply Hy.
Qed.

Lemma ordered_app (l1 l2 : list A) :
  StronglySorted (key_le key) (l1 ++ l2) ->
  forall x y, In x l1 -> In y l2 -> key x <= key y.
Proof.
  induction l1 as [| a l1 IH]; cbn; [tauto |].
  intros Hs x y [-> | Hx] Hy.
  - apply StronglySorted_inv in Hs as [_ Hall].
    rewrite List.Forall_forall in Hall. apply Hall, in_or_app. now right.
  - apply StronglySorted_inv in Hs as [Hs _]. now apply IH.
Qed.

End Sorting.

(** ** SlackMonitor._evaluate_channel *)

Lemma evaluate_channel_scan (self : SlackMonitor) (messages : list message) :
  evaluate_channel self messages
  = exchange_of_state
      (fold_left (scan_step self) (sorted sort_key messages) (None, None)).
Proof.
  unfold evaluate_channel, exchange_of_state.
  destruct messages as [| m messages]; [reflexivity |].
  now destruct (fold_left _ _ _) as [[c |] [r |]].
Qed.

Lemma scan_skips_invalid (self : SlackMonitor) (l : list message)
  (st : scan_state) :
  fold_left (scan_step self) l st
  = fold_left (scan_step self) (List.filter is_valid_message l) st.
Proof.
  revert st. induction l as [| m l IH]; intros st; [reflexivity |].
  cbn [fold_left List.filter].
  destruct (is_valid_message m) eqn:E; cbn [fold_left]; [apply IH |].
  rewrite <- IH. f_equal. unfold scan_step. destruct st. now rewrite E.
Qed.

Lemma scan_client (self : SlackMonitor) (st : scan_state) (c : message) :
  is_valid_message c = true -> is_client_message self c = true ->
  scan_step self st c = (Some c, None).
Proof. intros Hv Hc. unfold scan_step. destruct st. now rewrite Hv, Hc. Qed.

Lemma last_of_cons {A : Type} (x : A) (l : list A) :
  exists r, last_of (x :: l) = Some r.
Proof.
  revert x. induction l as [| y l IH]; intros x; [now exists x |].
  destruct (IH y) as [r Hr]. exists r. exact Hr.
Qed.

Lemma scan_replies (self : SlackMonitor) (c : message) (post : list message) :
  forall reply : option message,
  Forall (fun m => is_valid_message m = true) post ->
  Forall (fun m => is_client_message self m = false) post ->
  fold_left (scan_step self) post (Some c, reply)
  = (Some c, match last_of post with Some r => Some r | None => reply end).
Proof.
  induction post as [| m post IH]; intros reply Hv Hn; [reflexivity |].
  apply Forall_cons_iff in Hv as [Hv Hvs].
  apply Forall_cons_iff in Hn as [Hn Hns].
  cbn [fold_left]. unfold scan_step at 2. rewrite Hv, Hn. cbn [negb has_key].
  rewrite (IH _ Hvs Hns).
  destruct post as [| m' post]; [reflexivity |].
  change (last_of (m :: m' :: post)) with (last_of (m' :: post)).
  destruct (last_of_cons m' post) as [r ->]. reflexivity.
Qed.

Lemma scan_last_client (self : SlackMonitor) (pre post : list message)
  (c : message) :
  Forall (fun m => is_valid_message m = true) (pre ++ c :: post) ->
  is_client_message self c = true ->
  Forall (fun m => is_client_message self m = false) post ->
  fold_left (scan_step self) (pre ++ c :: post) (None, None)
  = (Some c, last_of post).
Proof.
  intros Hv Hc Hn.
  apply Forall_app in Hv as [_ Hv].
  apply Forall_cons_iff in Hv as [Hvc Hvp].
  rewrite fold_left_app. cbn [fold_left].
  rewrite (scan_client _ _ _ Hvc Hc), (scan_replies _ _ _ _ Hvp Hn).
  now destruct (last_of post).
Qed.

Lemma last_of_snoc {A : Type} (l : list A) (x : A) : last_of (l ++ [x]) = Some x.
Proof.
  induction l as [| y l IH]; [reflexivity |].
  cbn [app]. destruct (l ++ [x]) as [| z l'] eqn:E;
    [destruct l; discriminate |].
  exact IH.
Qed.

Lemma scanned_valid (messages : list message) :
  Forall (fun m => is_valid_message m = true) (scanned messages).
Proof.
  apply List.Forall_forall. intros m Hm. now apply filter_In in Hm.
Qed.

Lemma scanned_In (messages : list message) (m : message) :
  In m (scanned messages) <-> In m messages /\ is_valid_message m = true.
Proof. unfold scanned. now rewrite filter_In, sorted_In. Qed.

Lemma scanned_ordered (messages : list message) :
  StronglySorted (key_le sort_key) (scanned messages).
Proof. apply ordered_filter, sorted_ordered. Qed.

(** The exchange found when the scanned messages end with a client message
    followed by replies. *)
Lemma evaluate_channel_decomposed (self : SlackMonitor)
  (messages pre post : list message) (c : message) :
  scanned messages = pre ++ c :: post ->
  is_client_message self c = true ->
  Forall (fun m => is_client_message self m = false) post ->
  evaluate_channel self messages = exchange_of_state (Some c, last_of post).
Proof.
  intros Hs Hc Hn.
  rewrite evaluate_channel_scan, scan_skips_invalid.
  fold (scanned messages).
  rewrite Hs, scan_last_client; auto.
  rewrite <- Hs. apply scanned_valid.
Qed.

Lemma split_at_last (p : message -> bool) (l : list message) :
  existsb p l = true ->
  exists pre c post,
    l = pre ++ c :: post /\ p c = true
    /\ Forall (fun m => p m = false) post.
Proof.
  induction l as [| a l IH]; [discriminate |].
  cbn [existsb]. destruct (existsb p l) eqn:E.
  - intros _. destruct (IH eq_refl) as (pre & c & post & -> & Hc & Hpost).
    exists (a :: pre), c, post. auto.
  - rewrite orb_false_r. intros Ha. exists [], a, l.
    split; [reflexivity |]. split; [exact Ha |].
    apply List.Forall_forall. intros m Hm.
    destruct (p m) eqn:Hp; [| reflexivity].
    assert (existsb p l = true) by (apply existsb_exists; eauto).
    congruence.
Qed.

(** C1 (as amended).  When the scanned messages of a channel end with a
    client message [c] followed by one or more valid messages that are not
    client messages, the exchange carries the timestamp and text of [c] and
    the timestamp and text of the LAST of the messages after [c] (the scan
    overwrites the reply at each of them), whose timestamp none of the
    others exceeds; it is the first message after [c] when exactly one
    follows. *)
Theorem evaluate_channel_latest_reply (self : SlackMonitor)
  (messages pre post : list message) (c r : message) (tc tr : Z) :
  scanned messages = pre ++ c :: post ++ [r] ->
  is_client_message self c = true ->
  Forall (fun m => is_client_message self m = false) (post ++ [r]) ->
  ts c = Some tc ->
  ts r = Some tr ->
  evaluate_channel self messages
  = Ok (Some {| client_ts := tc;
                client_text := get_default (text c) EmptyString;
                team_reply_ts := Some tr;
                team_reply_text := Some (get_default (text r) EmptyString) |})
  /\ Forall (fun m => sort_key m <= tr) post.
Proof.
  intros Hs Hc Hn Htc Htr. split.
  - rewrite (evaluate_channel_decomposed self messages pre (post ++ [r]) c
               Hs Hc Hn).
    rewrite last_of_snoc. unfold exchange_of_state. cbn [fst snd].
    rewrite Htc, Htr. reflexivity.
  - pose proof (scanned_ordered messages) as Hord. rewrite Hs in Hord.
    replace (pre ++ c :: post ++ [r]) with ((pre ++ c :: post) ++ [r]) in Hord
      by (rewrite <- app_assoc; reflexivity).
    apply List.Forall_forall. intros m Hm.
    replace tr with (sort_key r) by (unfold sort_key; now rewrite Htr).
    apply (ordered_app sort_key _ _ Hord).
    + apply in_or_app. right. now right.
    + now left.
Qed.

(** ** SlackMonitor.check_channels *)

Lemma trace_bind {A B : Type} (c : M A) (k : A -> M B) :
  trace_of (bind c k)
  = match outcome_of c with
    | Ok a => trace_of c ++ trace_of (k a)
    | Raise _ => trace_of c
    end.
Proof.
  unfold trace_of, outcome_of, bind. destruct c as [tr [a | e]]; cbn;
    [| reflexivity].
  now destruct (k a).
Qed.

Lemma outcome_bind {A B : Type} (c : M A) (k : A -> M B) :
  outcome_of (bind c k)
  = match outcome_of c with
    | Ok a => outcome_of (k a)
    | Raise e => Raise e
    end.
Proof.
  unfold outcome_of, bind. destruct c as [tr [a | e]]; cbn; [| reflexivity].
  now destruct (k a).
Qed.

Lemma fetch_messages_outcome (self : SlackMonitor) (channel_id : string)
  (channel_name : option string) :
  outcome_of (fetch_messages self channel_id channel_name)
  = Ok (fetched self channel_id).
Proof.
  unfold fetch_messages, fetched.
  now destruct (conversations_history (client self) channel_id).
Qed.

Lemma fetch_messages_trace (self : SlackMonitor) (channel_id : string)
  (channel_name : option string) :
  count_events is_reminder_call
    (trace_of (fetch_messages self channel_id channel_name)) = 0%nat
  /\ count_events is_row
       (trace_of (fetch_messages self channel_id channel_name)) = 0%nat.
Proof.
  unfold fetch_messages.
  now destruct (conversations_history (client self) channel_id).
Qed.

Lemma send_reminder_trace (self : SlackMonitor) (channel_id owner_id : string)
  (record : exchange) (now : datetime) :
  exists rest : list event,
    trace_of (send_reminder self channel_id owner_id record now)
    = CallConversationsOpen owner_id :: rest
    /\ count_events is_dm_open rest = 0%nat
    /\ (count_events is_post rest <= 1)%nat
    /\ count_events is_row rest = 0%nat
    /\ rest
       = match conversations_open (client self) owner_id with
         | Some dm =>
             let message_text :=
               format_reminder (reminder_text_template (config self))
                 channel_id (reminder_hours record now) in
             [CallChatPostMessage dm message_text;
              Log (if chat_postMessage (client self) dm message_text
                   then InfoReminderSent owner_id channel_id
                   else ErrSendReminder channel_id)]
         | None => [Log (ErrSendReminder channel_id)]
         end.
Proof.
  unfold send_reminder.
  destruct (conversations_open (client self) owner_id) as [dm |].
  - cbv zeta. destruct (chat_postMessage (client self) dm _); eexists;
      (split; [reflexivity |]); cbn; auto.
  - eexists. split; [reflexivity |]. cbn. auto.
Qed.

Lemma check_channel_outcome (self : SlackMonitor) (now : datetime)
  (ch : monitored) :
  outcome_of (check_channel self now ch)
  = match evaluate_channel self (fetched self (m_id ch)) with
    | Ok _ => Ok tt
    | Raise e => Raise e
    end.
Proof.
  unfold check_channel. rewrite !outcome_bind. cbn [emit outcome_of snd].
  rewrite fetch_messages_outcome.
  unfold lift at 1. cbn [outcome_of snd].
  destruct (evaluate_channel self (fetched self (m_id ch))) as [[record |] | e];
    [| reflexivity | reflexivity].
  rewrite !outcome_bind. cbn [log_record log_trail emit outcome_of snd].
  destruct (status_eqb _ remind && truthy_ostr _).
  - unfold send_reminder.
    destruct (conversations_open _ _); [| reflexivity].
    now destruct (chat_postMessage _ _ _).
  - now destruct (status_eqb _ remind && negb _).
Qed.

Lemma for_each_segment {A : Type} (body : A -> M unit) (pre post : list A)
  (x : A) :
  Forall (fun y => outcome_of (body y) = Ok tt) pre ->
  exists before after : list event,
    trace_of (for_each body (pre ++ x :: post))
    = before ++ trace_of (body x) ++ after.
Proof.
  induction 1 as [| y pre Hy Hpre (before & after & IH)].
  - cbn [app for_each]. rewrite trace_bind. exists [].
    destruct (outcome_of (body x)); eexists; cbn [app];
      [reflexivity | now rewrite app_nil_r].
  - cbn [app for_each]. rewrite trace_bind, Hy, IH.
    exists (trace_of (body y) ++ before), after.
    now rewrite <- app_assoc.
Qed.

Lemma check_channel_remind_trace (self : SlackMonitor) (now : datetime)
  (ch : monitored) (record : exchange) :
  evaluate_channel self (fetched self (m_id ch)) = Ok (Some record) ->
  decide_status self record now = remind ->
  trace_of (check_channel self now ch)
  = (Log (InfoChecking (m_name ch) (m_id ch))
     :: trace_of (fetch_messages self (m_id ch) (m_name ch)))
    ++ trace_of (log_record self (m_name ch) (m_id ch) record remind)
    ++ trace_of (log_trail self (m_name ch) (m_id ch) record remind)
    ++ (if truthy_ostr (m_owner_id ch)
        then trace_of (send_reminder self (m_id ch)
                         (get_default (m_owner_id ch) EmptyString) record now)
        else [Log (WarnNoOwner (m_name ch) (m_id ch))]).
Proof.
  intros Hev Hst. unfold check_channel.
  rewrite trace_bind. cbn [emit outcome_of trace_of fst snd].
  rewrite trace_bind, fetch_messages_outcome.
  rewrite trace_bind. unfold lift at 1 2. cbn [outcome_of trace_of fst snd].
  rewrite Hev, Hst. cbn [app].
  rewrite trace_bind. cbn [log_record emit outcome_of snd].
  rewrite trace_bind. cbn [log_trail emit outcome_of snd].
  cbn [status_eqb andb].
  destruct (truthy_ostr (m_owner_id ch)); cbn [negb]; reflexivity.
Qed.

(** C8.  In a monitoring cycle, take a monitored channel that the loop
    reaches, whose evaluation yields an exchange and whose status is
    [remind].  The events of the cycle contain the events of that channel,
    which are: a prefix without log rows and without reminder calls; then
    the summary row and the trail row of the channel, both with status
    [remind]; then the reminder step.  When the channel has an owner, the
    reminder step opens a direct-message channel to that owner exactly
    once, as its first event, and posts at most one message: when the
    platform opens the channel, the rest of the step is exactly one post,
    to that direct-message channel, of the reminder text formatted from
    the template, the id of the monitored channel and the elapsed hours,
    followed by the log line of its success or of its failure; when the
    platform refuses to open it, the rest of the step is the log line of
    the failure alone and nothing is posted.  When the channel has no
    owner, the reminder step is the warning alone: no reminder call is
    made. *)
Theorem remind_rows_then_reminder (self : SlackMonitor) (fuel : nat)
  (now : instant) (chs pre post : list monitored) (ch : monitored)
  (record : exchange) :
  outcome_of (fetch_monitored_channels self fuel) = Ok (Some chs) ->
  chs = pre ++ ch :: post ->
  Forall (fun ch' =>
            forall e, evaluate_channel self (fetched self (m_id ch'))
                      <> Raise e) pre ->
  evaluate_channel self (fetched self (m_id ch)) = Ok (Some record) ->
  decide_status self record (datetime_now self now) = remind ->
  exists (before head : list event) (row : summary_row) (trow : trail_row)
         (tail after : list event),
    trace_of (check_channels self fuel now)
    = before ++ trace_of (check_channel self (datetime_now self now) ch)
      ++ after
    /\ trace_of (check_channel self (datetime_now self now) ch)
       = head ++ AppendSummary row :: AppendTrail trow :: tail
    /\ count_events is_row head = 0%nat
    /\ count_events is_reminder_call head = 0%nat
    /\ sr_channel_id row = m_id ch /\ sr_status row = remind
    /\ tr_channel_id trow = m_id ch /\ tr_status trow = remind
    /\ count_events is_row tail = 0%nat
    /\ (forall owner : string,
          m_owner_id ch = Some owner -> owner <> EmptyString ->
          exists rest : list event,
            tail = CallConversationsOpen owner :: rest
            /\ count_events is_dm_open tail = 1%nat
            /\ (count_events is_post tail <= 1)%nat
            /\ (forall dm : string,
                  conversations_open (client self) owner = Some dm ->
                  let message_text :=
                    format_reminder (reminder_text_template (config self))
                      (m_id ch)
                      (reminder_hours record (datetime_now self now)) in
                  rest
                  = [CallChatPostMessage dm message_text;
                     Log (if chat_postMessage (client self) dm message_text
                          then InfoReminderSent owner (m_id ch)
                          else ErrSendReminder (m_id ch))])
            /\ (conversations_open (client self) owner = None ->
                rest = [Log (ErrSendReminder (m_id ch))]))
    /\ (truthy_ostr (m_owner_id ch) = false ->
        tail = [Log (WarnNoOwner (m_name ch) (m_id ch))]
        /\ count_events is_reminder_call tail = 0%nat).
Proof.
  intros Hfetch -> Hpre Hev Hst.
  set (dnow := datetime_now self now) in *.
  assert (Hok : Forall (fun y => outcome_of (check_channel self dnow y) = Ok tt)
                  pre).
  { eapply List.Forall_impl; [| exact Hpre]. intros ch' Hch'. cbn beta in Hch'.
    rewrite check_channel_outcome.
    destruct (evaluate_channel self (fetched self (m_id ch'))) as [? | e];
      [reflexivity | now destruct (Hch' e)]. }
  destruct (for_each_segment (check_channel self dnow) pre post ch Hok)
    as (before & after & Hseg).
  destruct (fetch_messages_trace self (m_id ch) (m_name ch)) as [Hf1 Hf2].
  exists (trace_of (fetch_monitored_channels self fuel) ++ before).
  exists (Log (InfoChecking (m_name ch) (m_id ch))
          :: trace_of (fetch_messages self (m_id ch) (m_name ch))).
  eexists. eexists.
  exists (if truthy_ostr (m_owner_id ch)
          then trace_of (send_reminder self (m_id ch)
                           (get_default (m_owner_id ch) EmptyString) record
                           dnow)
          else [Log (WarnNoOwner (m_name ch) (m_id ch))]).
  exists (match outcome_of (for_each (check_channel self dnow)
                              (pre ++ ch :: post)) with
          | Ok _ => after ++ []
          | Raise _ => after
          end).
  repeat match goal with |- _ /\ _ => split end.
  - unfold check_channels. fold dnow. cbv zeta.
    rewrite trace_bind, Hfetch, trace_bind, Hseg.
    destruct (outcome_of (for_each _ _)); cbn [ret trace_of fst];
      now rewrite <- !app_assoc.
  - rewrite (check_channel_remind_trace self dnow ch record Hev Hst).
    cbn [log_record log_trail emit trace_of fst]. reflexivity.
  - exact Hf2.
  - exact Hf1.
  - reflexivity.
  - reflexivity.
  - reflexivity.
  - reflexivity.
  - destruct (truthy_ostr (m_owner_id ch)); [| reflexivity].
    now destruct (send_reminder_trace self (m_id ch)
                    (get_default (m_owner_id ch) EmptyString) record dnow)
      as (rest & -> & _ & _ & Hrows & _).
  - intros owner Hown Hne. rewrite Hown. cbn [truthy_ostr get_default].
    destruct owner as [| c owner]; [congruence |]. cbn [truthy_str].
    destruct (send_reminder_trace self (m_id ch) (String c owner) record dnow)
      as (rest & -> & Hopen & Hpostn & _ & Hrest).
    exists rest. split; [reflexivity |].
    unfold count_events in *. cbn [List.filter is_dm_open is_post length].
    rewrite Hopen. split; [reflexivity |]. split; [exact Hpostn |].
    split.
    + intros dm Hdm. rewrite Hdm in Hrest. exact Hrest.
    + intros Hnone. rewrite Hnone in Hrest. exact Hrest.
  - intros ->. split; reflexivity.
Qed.

Lemma describe_owner (self : SlackMonitor) (raw : channel) (d : monitored) :
  describe self raw = Ok d -> m_owner_id d = resolve_owner self raw.
Proof.
  unfold describe. destruct (ch_id raw); cbn; [| discriminate].
  now intros [= <-].
Qed.

(** ** More on sorting *)

Lemma insert_by_front {A : Type} (key : A -> Z) (x : A) (l : list A) :
  Forall (fun z => key x <= key z) l -> insert_by key x l = x :: l.
Proof.
  destruct 1 as [| y l Hy _]; [reflexivity |].
  cbn [insert_by]. apply Z.leb_le in Hy. now rewrite Hy.
Qed.

Lemma filter_insert_by {A : Type} (key : A -> Z) (p : A -> bool) (x : A)
  (l : list A) :
  StronglySorted (key_le key) l ->
  List.filter p (insert_by key x l)
  = if p x then insert_by key x (List.filter p l) else List.filter p l.
Proof.
  induction 1 as [| y l Hl IH Hy]; cbn [insert_by List.filter].
  - now destruct (p x).
  - destruct (Z.leb_spec (key x) (key y)) as [Hle | Hgt].
    + cbn [List.filter]. destruct (p x); [| reflexivity].
      symmetry. apply insert_by_front.
      apply List.Forall_forall. intros z Hz.
      assert (Hin : In z (y :: l)).
      { destruct (p y); [destruct Hz as [<- | Hz]; [now left |] |];
          right; now apply filter_In in Hz. }
      destruct Hin as [<- | Hin]; [exact Hle |].
      rewrite List.Forall_forall in Hy. specialize (Hy z Hin).
      unfold key_le in Hy. lia.
    + cbn [List.filter]. rewrite IH.
      destruct (p y), (p x); cbn [insert_by]; try reflexivity.
      destruct (Z.leb_spec (key x) (key y)); [lia | reflexivity].
Qed.

(** Sorting and filtering commute. *)
Lemma filter_sorted {A : Type} (key : A -> Z) (p : A -> bool) (l : list A) :
  List.filter p (sorted key l) = sorted key (List.filter p l).
Proof.
  induction l as [| x l IH]; [reflexivity |].
  cbn [sorted fold_right List.filter]. fold (sorted key l).
  rewrite filter_insert_by by apply sorted_ordered.
  rewrite IH. now destruct (p x).
Qed.

Lemma filter_idempotent {A : Type} (p : A -> bool) (l : list A) :
  List.filter p (List.filter p l) = List.filter p l.
Proof.
  induction l as [| x l IH]; [reflexivity |].
  cbn [List.filter]. destruct (p x) eqn:E; [| exact IH].
  cbn [List.filter]. now rewrite E, IH.
Qed.

(** Two ordered arrangements of the same elements coincide when no two
    elements share a key. *)
Lemma ordered_unique {A : Type} (key : A -> Z) (l1 l2 : list A) :
  StronglySorted (key_le key) l1 ->
  StronglySorted (key_le key) l2 ->
  List.NoDup (map key l1) ->
  Permutation l1 l2 ->
  l1 = l2.
Proof.
  intros H1. revert l2.
  induction H1 as [| a l1 Hl1 IH Ha]; intros l2 H2 Hnd Hp.
  - apply Permutation_nil in Hp. now subst.
  - destruct l2 as [| b l2];
      [apply Permutation_sym, Permutation_nil in Hp; discriminate |].
    apply StronglySorted_inv in H2 as [Hl2 Hb].
    cbn [map] in Hnd. apply NoDup_cons_iff in Hnd as [Hnotin Hnd].
    assert (Eab : a = b).
    { assert (Hain : In a (b :: l2))
        by (eapply Permutation_in; [exact Hp | now left]).
      assert (Hbin : In b (a :: l1))
        by (eapply Permutation_in; [symmetry; exact Hp | now left]).
      destruct Hain as [-> | Hain]; [reflexivity |].
      destruct Hbin as [-> | Hbin]; [reflexivity |].
      rewrite List.Forall_forall in Ha, Hb.
      pose proof (Ha b Hbin) as Hab. pose proof (Hb a Hain) as Hba.
      unfold key_le in Hab, Hba.
      exfalso. apply Hnotin.
      replace (key a) with (key b) by lia. now apply in_map. }
    subst b. f_equal. apply IH; [exact Hl2 | exact Hnd |].
    now apply Permutation_cons_inv in Hp.
Qed.

Lemma sorted_permutation_invariant {A : Type} (key : A -> Z) (l1 l2 : list A) :
  Permutation l1 l2 -> List.NoDup (map key l1) ->
  sorted key l1 = sorted key l2.
Proof.
  intros Hp Hnd. apply (ordered_unique key).
  - apply sorted_ordered.
  - apply sorted_ordered.
  - eapply Permutation_NoDup; [| exact Hnd].
    apply Permutation_map. symmetry. apply sorted_perm.
  - rewrite sorted_perm, Hp. symmetry. apply sorted_perm.
Qed.


(** ** More on the evaluator *)

Lemma scan_no_client (self : SlackMonitor) (l : list message) :
  Forall (fun m => is_valid_message m = true ->
                   is_client_message self m = false) l ->
  fold_left (scan_step self) l (None, None) = (None, None).
Proof.
  induction 1 as [| m l Hm _ IH]; [reflexivity |].
  cbn [fold_left]. unfold scan_step at 2.
  destruct (is_valid_message m); cbn [negb]; [| exact IH].
  rewrite (Hm eq_refl). cbn [has_key]. exact IH.
Qed.

Lemma exchange_of_state_client (c : message) (reply : option message) :
  exchange_of_state (Some c, reply) <> Ok None.
Proof.
  unfold exchange_of_state. cbn [fst snd].
  destruct (ts c); cbn; [| discriminate].
  destruct reply as [r |]; [| discriminate].
  destruct (ts r); cbn; discriminate.
Qed.

(** The two ways in which an evaluation ends. *)
Lemma evaluate_channel_shape (self : SlackMonitor) (messages : list message) :
  ((forall m, In m messages -> is_valid_message m = true ->
              is_client_message self m = false)
   /\ evaluate_channel self messages = Ok None)
  \/ (exists pre c post,
        scanned messages = pre ++ c :: post
        /\ is_client_message self c = true
        /\ Forall (fun m => is_client_message self m = false) post
        /\ evaluate_channel self messages
           = exchange_of_state (Some c, last_of post)).
Proof.
  destruct (existsb (is_client_message self) (scanned messages)) eqn:E.
  - right. destruct (split_at_last _ _ E) as (pre & c & post & Hs & Hc & Hp).
    exists pre, c, post. repeat split; auto.
    exact (evaluate_channel_decomposed self messages pre post c Hs Hc Hp).
  - left.
    assert (Hno : forall m, In m messages -> is_valid_message m = true ->
                            is_client_message self m = false).
    { intros m Hin Hv. destruct (is_client_message self m) eqn:Hc;
        [| reflexivity].
      assert (existsb (is_client_message self) (scanned messages) = true).
      { apply existsb_exists. exists m. split; [| exact Hc].
        apply scanned_In. auto. }
      congruence. }
    split; [exact Hno |].
    rewrite evaluate_channel_scan, scan_no_client; [reflexivity |].
    apply List.Forall_forall. intros m Hm. apply Hno.
    apply (proj1 (sorted_In sort_key messages m) Hm).
Qed.

(** X1.  The evaluator reports no exchange exactly when no valid message
    of the channel is a client message. *)
Theorem evaluate_channel_none_iff (self : SlackMonitor)
  (messages : list message) :
  evaluate_channel self messages = Ok None <->
  (forall m, In m messages -> is_valid_message m = true ->
             is_client_message self m = false).
Proof.
  destruct (evaluate_channel_shape self messages)
    as [[Hno Hev] | (pre & c & post & Hs & Hc & Hp & Hev)].
  - tauto.
  - split.
    + rewrite Hev. intros H. now apply exchange_of_state_client in H.
    + intros Hno. assert (Hin : In c (scanned messages))
        by (rewrite Hs; apply in_or_app; right; now left).
      apply scanned_In in Hin as [Hin Hv].
      rewrite (Hno c Hin Hv) in Hc. discriminate.
Qed.

(** X2.  Messages that are not valid (an excluded subtype, or neither a
    user nor a bot id) have no influence: removing them from the history
    does not change the result. *)
Theorem evaluate_channel_ignores_invalid (self : SlackMonitor)
  (messages : list message) :
  evaluate_channel self (List.filter is_valid_message messages)
  = evaluate_channel self messages.
Proof.
  rewrite !evaluate_channel_scan.
  rewrite (scan_skips_invalid self (sorted sort_key messages)).
  rewrite (scan_skips_invalid self
             (sorted sort_key (List.filter is_valid_message messages))).
  now rewrite !filter_sorted, filter_idempotent.
Qed.

(** X3.  When no two messages share a sort key, the order in which the
    platform delivers the history is irrelevant. *)
Theorem evaluate_channel_order_irrelevant (self : SlackMonitor)
  (messages messages' : list message) :
  Permutation messages messages' ->
  List.NoDup (map sort_key messages) ->
  evaluate_channel self messages = evaluate_channel self messages'.
Proof.
  intros Hp Hnd. rewrite !evaluate_channel_scan.
  now rewrite (sorted_permutation_invariant sort_key _ _ Hp Hnd).
Qed.

Lemma sort_key_ts (m : message) (t : Z) : ts m = Some t -> sort_key m = t.
Proof. unfold sort_key. now intros ->. Qed.

(** Where the parts of a returned exchange come from. *)
Lemma evaluate_channel_record_facts (self : SlackMonitor)
  (messages : list message) (record : exchange) :
  evaluate_channel self messages = Ok (Some record) ->
  (exists c : message,
     In c messages /\ is_valid_message c = true
     /\ is_client_message self c = true
     /\ ts c = Some (client_ts record)
     /\ client_text record = get_default (text c) EmptyString)
  /\ (forall m, In m messages -> is_valid_message m = true ->
                is_client_message self m = true ->
                sort_key m <= client_ts record)
  /\ match team_reply_ts record with
     | Some t =>
         client_ts record <= t
         /\ (exists r : message,
               In r messages /\ is_valid_message r = true
               /\ is_client_message self r = false
               /\ ts r = Some t
               /\ team_reply_text record
                  = Some (get_default (text r) EmptyString))
         /\ (forall m, In m messages -> is_valid_message m = true ->
                       sort_key m <= t)
     | None =>
         team_reply_text record = None
         /\ (forall m, In m messages -> is_valid_message m = true ->
                       sort_key m <= client_ts record)
     end.
Proof.
  intros Hev.
  destruct (evaluate_channel_shape self messages)
    as [[_ Hnone] | (pre & c & post & Hs & Hc & Hp & Hshape)];
    [congruence |].
  rewrite Hshape in Hev. clear Hshape.
  pose proof (scanned_ordered messages) as Hord. rewrite Hs in Hord.
  assert (Hcin : In c (scanned messages))
    by (rewrite Hs; apply in_or_app; right; now left).
  apply scanned_In in Hcin as [Hcin Hcv].
  unfold exchange_of_state in Hev. cbn [fst snd] in Hev.
  destruct (ts c) as [tc |] eqn:Htc; cbn in Hev; [| discriminate].
  pose proof (sort_key_ts c tc Htc) as Hkc.
  assert (Hpre : forall m, In m pre -> sort_key m <= tc).
  { intros m Hm. rewrite <- Hkc.
    apply (ordered_app sort_key _ _ Hord m c Hm). now left. }
  assert (Hclients : forall m, In m messages -> is_valid_message m = true ->
                               is_client_message self m = true ->
                               sort_key m <= tc).
  { intros m Hin Hv Hmc.
    assert (Hm : In m (scanned messages)) by (apply scanned_In; auto).
    rewrite Hs in Hm. apply in_app_or in Hm as [Hm | [<- | Hm]].
    - now apply Hpre.
    - lia.
    - rewrite List.Forall_forall in Hp. rewrite (Hp m Hm) in Hmc.
      discriminate. }
  destruct (last_of post) as [r |] eqn:Hlast.
  - destruct (ts r) as [tr |] eqn:Htr; cbn in Hev; [| discriminate].
    injection Hev as <-. cbn [client_ts client_text team_reply_ts
                                team_reply_text].
    destruct post as [| p0 post0]; [discriminate |].
    destruct (exists_last (l := p0 :: post0)) as (post' & r' & Epost);
      [discriminate |].
    rewrite Epost in *. rewrite last_of_snoc in Hlast.
    injection Hlast as ->.
    pose proof (sort_key_ts r tr Htr) as Hkr.
    assert (Hrin : In r (scanned messages)).
    { rewrite Hs. apply in_or_app. right. right. apply in_or_app.
      right. now left. }
    apply scanned_In in Hrin as [Hrin Hrv].
    assert (Hrn : is_client_message self r = false).
    { rewrite List.Forall_forall in Hp. apply Hp, in_or_app.
      right. now left. }
    assert (Hall : forall m, In m (pre ++ c :: post') -> sort_key m <= tr).
    { intros m Hm. rewrite <- Hkr.
      replace (pre ++ c :: post' ++ [r])
        with ((pre ++ c :: post') ++ [r]) in Hord
        by (rewrite <- app_assoc; reflexivity).
      apply (ordered_app sort_key _ _ Hord m r Hm). now left. }
    split; [exists c; auto |]. split; [exact Hclients |].
    split; [| split].
    + rewrite <- Hkc. apply Hall, in_or_app. right. now left.
    + exists r. auto.
    + intros m Hin Hv.
      assert (Hm : In m (scanned messages)) by (apply scanned_In; auto).
      rewrite Hs in Hm.
      replace (pre ++ c :: post' ++ [r])
        with ((pre ++ c :: post') ++ [r]) in Hm
        by (rewrite <- app_assoc; reflexivity).
      apply in_app_or in Hm as [Hm | [<- | []]]; [now apply Hall | lia].
  - injection Hev as <-. cbn [client_ts client_text team_reply_ts
                                team_reply_text].
    destruct post as [| p0 post0];
      [| destruct (last_of_cons p0 post0); congruence].
    split; [exists c; auto |]. split; [exact Hclients |].
    split; [reflexivity |].
    intros m Hin Hv.
    assert (Hm : In m (scanned messages)) by (apply scanned_In; auto).
    rewrite Hs in Hm. apply in_app_or in Hm as [Hm | [<- | []]];
      [now apply Hpre | lia].
Qed.

(** X4.  A returned exchange is made of messages of the channel.  Its
    client part is a valid client message whose timestamp no valid client
    message exceeds.  Its reply, when there is one, is a valid message
    other than a client message, whose timestamp is not before the client
    message's and which no valid message exceeds.  When there is no reply,
    no valid message is later than the client message. *)
Theorem evaluate_channel_record_sound (self : SlackMonitor)
  (messages : list message) (record : exchange) :
  evaluate_channel self messages = Ok (Some record) ->
  (exists c : message,
     In c messages /\ is_valid_message c = true
     /\ is_client_message self c = true
     /\ ts c = Some (client_ts record)
     /\ client_text record = get_default (text c) EmptyString)
  /\ (forall m, In m messages -> is_valid_message m = true ->
                is_client_message self m = true ->
                sort_key m <= client_ts record)
  /\ match team_reply_ts record with
     | Some t =>
         client_ts record <= t
         /\ (exists r : message,
               In r messages /\ is_valid_message r = true
               /\ is_client_message self r = false
               /\ ts r = Some t
               /\ team_reply_text record
                  = Some (get_default (text r) EmptyString))
         /\ (forall m, In m messages -> is_valid_message m = true ->
                       sort_key m <= t)
     | None =>
         team_reply_text record = None
         /\ (forall m, In m messages -> is_valid_message m = true ->
                       sort_key m <= client_ts record)
     end.
Proof. exact (evaluate_channel_record_facts self messages record). Qed.

(** X5.  On histories in which every ts that is present is a number (the
    message type of this development; a ts that [float] rejects is
    outside it), a failure of the evaluator is the [KeyError] on the key
    ts of a valid message of the channel that lacks that key; the
    evaluator does fail in this way when the last client message of the
    scan, or the last message after it, lacks the key. *)
Theorem evaluate_channel_failure (self : SlackMonitor)
  (messages : list message) :
  (forall e : exn,
     evaluate_channel self messages = Raise e ->
     e = KeyError "ts"
     /\ exists m, In m messages /\ is_valid_message m = true /\ ts m = None)
  /\ (forall pre c post,
        scanned messages = pre ++ c :: post ->
        is_client_message self c = true ->
        Forall (fun m => is_client_message self m = false) post ->
        ts c = None
        \/ (exists r, last_of post = Some r /\ ts r = None) ->
        evaluate_channel self messages = Raise (KeyError "ts")).
Proof.
  split.
  - intros e Hev.
    destruct (evaluate_channel_shape self messages)
      as [[_ Hnone] | (pre & c & post & Hs & Hc & Hp & Hshape)];
      [congruence |].
    rewrite Hshape in Hev. unfold exchange_of_state in Hev.
    cbn [fst snd] in Hev.
    assert (Hcin : In c (scanned messages))
      by (rewrite Hs; apply in_or_app; right; now left).
    apply scanned_In in Hcin as [Hcin Hcv].
    destruct (ts c) as [tc |] eqn:Htc; cbn in Hev.
    + destruct (last_of post) as [r |] eqn:Hlast; [| discriminate].
      destruct (ts r) as [tr |] eqn:Htr; cbn in Hev; [discriminate |].
      injection Hev as <-. split; [reflexivity |].
      exists r.
      assert (Hrin : In r (scanned messages)).
      { rewrite Hs. apply in_or_app. right. right.
        clear - Hlast. induction post as [| p post IH]; [discriminate |].
        destruct post as [| q post]; [injection Hlast as ->; now left |].
        right. now apply IH. }
      apply scanned_In in Hrin as [Hrin Hrv]. auto.
    + injection Hev as <-. split; [reflexivity |]. exists c. auto.
  - intros pre c post Hs Hc Hp Hmiss.
    rewrite (evaluate_channel_decomposed self messages pre post c Hs Hc Hp).
    unfold exchange_of_state. cbn [fst snd].
    destruct Hmiss as [-> | (r & -> & Hr)]; [reflexivity |].
    destruct (ts c); cbn; [| reflexivity]. now rewrite Hr.
Qed.


(** ** More on the status decision *)

(** X6.  When the last valid message of the scan is a client message, the
    exchange has no reply, and its status is never [answered]. *)
Theorem trailing_client_message_unanswered (self : SlackMonitor)
  (messages pre : list message) (c : message) (tc : Z) :
  scanned messages = pre ++ [c] ->
  is_client_message self c = true ->
  ts c = Some tc ->
  evaluate_channel self messages
  = Ok (Some {| client_ts := tc;
                client_text := get_default (text c) EmptyString;
                team_reply_ts := None;
                team_reply_text := None |})
  /\ forall (record : exchange) (now : datetime),
       evaluate_channel self messages = Ok (Some record) ->
       decide_status self record now <> answered.
Proof.
  intros Hs Hc Htc.
  assert (Hev : evaluate_channel self messages
                = Ok (Some {| client_ts := tc;
                              client_text := get_default (text c) EmptyString;
                              team_reply_ts := None;
                              team_reply_text := None |})).
  { rewrite (evaluate_channel_decomposed self messages pre [] c Hs Hc
               (List.Forall_nil _)).
    unfold exchange_of_state. cbn [fst snd last_of]. now rewrite Htc. }
  split; [exact Hev |].
  intros record now Hrec. rewrite Hev in Hrec. injection Hrec as <-.
  rewrite decide_status_answered_iff.
  now rewrite no_reply_not_after.
Qed.

Lemma reply_after_zone (self self' : SlackMonitor) (record : exchange) :
  timezone (business_hours (config self))
  = timezone (business_hours (config self')) ->
  reply_after self record = reply_after self' record.
Proof.
  intros E. unfold reply_after, reply_datetime, zoned_fromtimestamp.
  now rewrite E.
Qed.

(** X7.  The verdict [answered] depends on the record and on the
    configured time zone alone: a record that is answered at one instant
    under one configuration is answered at every instant under every
    configuration with the same time zone. *)
Theorem answered_is_final (self self' : SlackMonitor) (record : exchange)
  (now now' : datetime) :
  timezone (business_hours (config self))
  = timezone (business_hours (config self')) ->
  decide_status self record now = answered ->
  decide_status self' record now' = answered.
Proof.
  intros E. rewrite !decide_status_answered_iff.
  now rewrite (reply_after_zone self self' record E).
Qed.

Lemma threshold_at_bounds (self : SlackMonitor) (now : datetime) :
  Z.min (business_reply_hours (config self)) (overall_reply_hours (config self))
  <= threshold_at self now
  <= Z.max (business_reply_hours (config self))
       (overall_reply_hours (config self)).
Proof. unfold threshold_at. destruct (is_open _ _); lia. Qed.

Lemma not_answered_at_all (self : SlackMonitor) (record : exchange)
  (now now' : datetime) :
  decide_status self record now <> answered ->
  decide_status self record now' <> answered.
Proof. now rewrite !decide_status_answered_iff. Qed.

(** X8.  In a zone that keeps one UTC offset and with thresholds of at
    most [2^19] hours in absolute value, for a record that is not
    answered, whatever the business hours: while the elapsed time is
    below the smaller of the two thresholds the verdict is [waiting]; once
    it has reached the larger one the verdict is [remind], and stays
    [remind] at every later instant. *)
Theorem verdict_outside_thresholds (self : SlackMonitor) (offset : Z)
  (record : exchange) (now : datetime) :
  fixed_offset (timezone (business_hours (config self))) offset ->
  - 2 ^ 19 <= business_reply_hours (config self) <= 2 ^ 19 ->
  - 2 ^ 19 <= overall_reply_hours (config self) <= 2 ^ 19 ->
  decide_status self record now <> answered ->
  (dt_instant now - client_ts record
   < Z.min (business_reply_hours (config self))
       (overall_reply_hours (config self)) * US_PER_HOUR ->
   decide_status self record now = waiting)
  /\ (Z.max (business_reply_hours (config self))
        (overall_reply_hours (config self)) * US_PER_HOUR
      <= dt_instant now - client_ts record ->
      forall later : datetime,
        dt_instant now <= dt_instant later ->
        decide_status self record later = remind).
Proof.
  intros Hfix Hb Ho Hna. split.
  - intros Hlt.
    apply (decide_status_fixed_offset self offset record now Hfix Hb Ho Hna).
    pose proof (threshold_at_bounds self now).
    unfold US_PER_HOUR, US_PER_SECOND in *. lia.
  - intros Hge later Hlater.
    pose proof (not_answered_at_all self record now later Hna) as Hna'.
    apply (decide_status_fixed_offset self offset record later Hfix Hb Ho
             Hna').
    pose proof (threshold_at_bounds self later).
    unfold US_PER_HOUR, US_PER_SECOND in *. lia.
Qed.

(** X9.  A [remind] verdict is not kept across the close of business.  In
    a zone that keeps one UTC offset and with thresholds of at most [2^19]
    hours in absolute value, for an unanswered record whose elapsed time
    has reached [business_reply_hours] at an instant inside business
    hours, and is still below [overall_reply_hours] at a later instant
    outside business hours, the verdict is [remind] at the first instant
    and [waiting] at the second. *)
Theorem remind_reverts_after_hours (self : SlackMonitor) (offset : Z)
  (record : exchange) (now1 now2 : datetime) :
  fixed_offset (timezone (business_hours (config self))) offset ->
  - 2 ^ 19 <= business_reply_hours (config self) <= 2 ^ 19 ->
  - 2 ^ 19 <= overall_reply_hours (config self) <= 2 ^ 19 ->
  decide_status self record now1 <> answered ->
  dt_instant now1 <= dt_instant now2 ->
  is_open (business_hours (config self)) (dt_instant now1) = true ->
  is_open (business_hours (config self)) (dt_instant now2) = false ->
  business_reply_hours (config self) * US_PER_HOUR
  <= dt_instant now1 - client_ts record ->
  dt_instant now2 - client_ts record
  < overall_reply_hours (config self) * US_PER_HOUR ->
  decide_status self record now1 = remind
  /\ decide_status self record now2 = waiting.
Proof.
  intros Hfix Hb Ho Hna _ Ho1 Ho2 Hge Hlt.
  pose proof (not_answered_at_all self record now1 now2 Hna) as Hna2.
  split.
  - apply (decide_status_fixed_offset self offset record now1 Hfix Hb Ho Hna).
    unfold threshold_at. now rewrite Ho1.
  - apply (decide_status_fixed_offset self offset record now2 Hfix Hb Ho
             Hna2).
    unfold threshold_at. now rewrite Ho2.
Qed.

(** X24.  What the status decision computes when [now] carries the
    configured time zone, as it does in a monitoring cycle, and the
    thresholds are of at most [2^19] hours in absolute value.  The
    verdict is [answered] exactly when the record holds a reply with a
    truthy timestamp whose local wall-clock reading is after that of the
    client message.  Otherwise it is [remind] exactly when the local
    wall-clock reading of [now] is at least the threshold after that of
    the client message, and [waiting] when it is not.  The offsets of the
    zone at the respective instants enter both comparisons. *)
Theorem decide_status_wall_clock (self : SlackMonitor) (record : exchange)
  (now : instant) :
  - 2 ^ 19 <= business_reply_hours (config self) <= 2 ^ 19 ->
  - 2 ^ 19 <= overall_reply_hours (config self) <= 2 ^ 19 ->
  let zone := timezone (business_hours (config self)) in
  let dnow := datetime_now self now in
  (decide_status self record dnow = answered <->
   exists t : Z,
     reply_seen record t
     /\ client_ts record + US_PER_SECOND * ZoneInfo zone (client_ts record)
        < t + US_PER_SECOND * ZoneInfo zone t)
  /\ (decide_status self record dnow <> answered ->
      (decide_status self record dnow = remind <->
       threshold_at self dnow * US_PER_HOUR
       <= (now + US_PER_SECOND * ZoneInfo zone now)
          - (client_ts record
             + US_PER_SECOND * ZoneInfo zone (client_ts record)))
      /\ (decide_status self record dnow = waiting <->
          (now + US_PER_SECOND * ZoneInfo zone now)
          - (client_ts record
             + US_PER_SECOND * ZoneInfo zone (client_ts record))
          < threshold_at self dnow * US_PER_HOUR)).
Proof.
  intros Hb Ho zone dnow. split.
  - rewrite decide_status_answered_iff, reply_after_iff. reflexivity.
  - intros Hna.
    destruct (decide_status_not_answered self record dnow Hna) as [Hr Hw].
    assert (Hth : - 2 ^ 19 <= threshold_at self dnow <= 2 ^ 19)
      by (destruct (threshold_at_cases self dnow) as [-> | ->]; assumption).
    rewrite (hours_since_client_reaches self record dnow _ Hth) in Hr, Hw.
    rewrite (same_zone_sub dnow (zoned_fromtimestamp self (client_ts record))
               eq_refl) in Hr, Hw.
    split; [exact Hr |]. rewrite Hw.
    unfold wall, astimezone, dnow, datetime_now, zoned_fromtimestamp,
      fromtimestamp. cbn [dt_zone dt_instant]. fold zone. lia.
Qed.

(** X25.  In a zone that keeps one UTC offset and with thresholds of at
    most [2^19] hours in absolute value the status decision is the one of
    the elapsed time.  The verdict is [answered] exactly when the record
    holds a reply with a truthy timestamp after that of the client
    message; otherwise it is [remind] exactly when the time elapsed since
    the client message has reached the threshold.  In particular a
    [remind] verdict for a record without reply is kept at every later
    instant with the same answer of [is_open]. *)
Theorem decide_status_elapsed (self : SlackMonitor) (offset : Z)
  (record : exchange) :
  fixed_offset (timezone (business_hours (config self))) offset ->
  - 2 ^ 19 <= business_reply_hours (config self) <= 2 ^ 19 ->
  - 2 ^ 19 <= overall_reply_hours (config self) <= 2 ^ 19 ->
  (forall now : datetime,
     decide_status self record now = answered <->
     exists t : Z, reply_seen record t /\ client_ts record < t)
  /\ (forall now : datetime,
        decide_status self record now <> answered ->
        (decide_status self record now = remind <->
         threshold_at self now * US_PER_HOUR
         <= dt_instant now - client_ts record)
        /\ (decide_status self record now = waiting <->
            dt_instant now - client_ts record
            < threshold_at self now * US_PER_HOUR))
  /\ (forall now1 now2 : datetime,
        team_reply_ts record = None ->
        dt_instant now1 <= dt_instant now2 ->
        is_open (business_hours (config self)) (dt_instant now1)
        = is_open (business_hours (config self)) (dt_instant now2) ->
        decide_status self record now1 = remind ->
        decide_status self record now2 = remind).
Proof.
  intros Hfix Hb Ho.
  repeat match goal with |- _ /\ _ => split end.
  - intros now. rewrite decide_status_answered_iff, reply_after_iff.
    split; intros (t & Hseen & Hlt); exists t; (split; [exact Hseen |]);
      apply (fixed_offset_wall self offset _ _ Hfix); exact Hlt.
  - intros now Hna.
    exact (decide_status_fixed_offset self offset record now Hfix Hb Ho Hna).
  - intros now1 now2 Hnone Hle Hopen Hr1.
    assert (Hna1 : decide_status self record now1 <> answered)
      by (rewrite Hr1; discriminate).
    pose proof (not_answered_at_all self record now1 now2 Hna1) as Hna2.
    apply (decide_status_fixed_offset self offset record now1 Hfix Hb Ho
             Hna1) in Hr1.
    apply (decide_status_fixed_offset self offset record now2 Hfix Hb Ho
             Hna2).
    assert (Eth : threshold_at self now2 = threshold_at self now1)
      by (unfold threshold_at; now rewrite Hopen).
    rewrite Eth. lia.
Qed.

(** X26.  The two scenarios of the five hours.  A client message without
    reply is looked at five hours later, in a zone whose UTC offset at
    the two instants differs by an hour at most.  With
    [business_reply_hours] 4 and business hours open the verdict is
    [remind]; with [overall_reply_hours] 24 and business hours closed it
    is [waiting]. *)
Theorem five_hours_later (self : SlackMonitor) (record : exchange)
  (now : instant) :
  team_reply_ts record = None ->
  now = client_ts record + 5 * US_PER_HOUR ->
  Z.abs (ZoneInfo (timezone (business_hours (config self))) now
         - ZoneInfo (timezone (business_hours (config self)))
             (client_ts record)) <= 3600 ->
  (business_reply_hours (config self) = 4 ->
   is_open (business_hours (config self)) now = true ->
   decide_status self record (datetime_now self now) = remind)
  /\ (overall_reply_hours (config self) = 24 ->
      is_open (business_hours (config self)) now = false ->
      decide_status self record (datetime_now self now) = waiting).
Proof.
  intros Hnone Hnow Hoff.
  set (dnow := datetime_now self now).
  assert (Hna : decide_status self record dnow <> answered).
  { rewrite decide_status_answered_iff.
    rewrite (no_reply_not_after self record Hnone). discriminate. }
  destruct (decide_status_not_answered self record dnow Hna) as [Hr Hw].
  assert (Hsub : datetime_sub dnow (zoned_fromtimestamp self (client_ts record))
                 = 5 * US_PER_HOUR
                   + US_PER_SECOND
                     * (ZoneInfo (timezone (business_hours (config self))) now
                        - ZoneInfo (timezone (business_hours (config self)))
                            (client_ts record))).
  { rewrite (same_zone_sub dnow (zoned_fromtimestamp self (client_ts record))
               eq_refl).
    unfold wall, astimezone, dnow, datetime_now, zoned_fromtimestamp,
      fromtimestamp. cbn [dt_zone dt_instant]. lia. }
  split.
  - intros Hb Hopen. apply Hr.
    assert (Eth : threshold_at self dnow = 4)
      by (unfold threshold_at, dnow; cbn [datetime_now dt_instant];
          now rewrite Hopen).
    rewrite Eth.
    apply (hours_since_client_reaches self record dnow 4); [lia |].
    rewrite Hsub. unfold US_PER_HOUR, US_PER_SECOND. lia.
  - intros Ho Hclosed. apply Hw.
    assert (Eth : threshold_at self dnow = 24)
      by (unfold threshold_at, dnow; cbn [datetime_now dt_instant];
          now rewrite Hclosed).
    rewrite Eth.
    rewrite (hours_since_client_reaches self record dnow 24) by lia.
    rewrite Hsub. unfold US_PER_HOUR, US_PER_SECOND. lia.
Qed.

(** ** More on business hours *)

Lemma weekday_next_week (local : wallclock) :
  weekday (local + 7 * US_PER_DAY) = weekday local.
Proof.
  unfold weekday, toordinal.
  rewrite Z.div_add by (unfold US_PER_DAY, US_PER_SECOND; lia).
  replace (local / US_PER_DAY + 7 + 719163 + 6)
    with (local / US_PER_DAY + 719163 + 6 + 1 * 7) by lia.
  apply Z.mod_add. lia.
Qed.

Lemma time_of_next_day (local : wallclock) (days : Z) :
  time_of (local + days * US_PER_DAY) = time_of local.
Proof.
  unfold time_of.
  now rewrite Z.mod_add by (unfold US_PER_DAY, US_PER_SECOND; lia).
Qed.

(** X10.  In a zone with one fixed UTC offset the answer of [is_open]
    repeats every week; when [weekdays_only] is off it repeats every
    day. *)
Theorem is_open_periodic (bh : BusinessHours) (offset : Z)
  (moment : instant) :
  fixed_offset (timezone bh) offset ->
  is_open bh (moment + 7 * US_PER_DAY) = is_open bh moment
  /\ (weekdays_only bh = false ->
      is_open bh (moment + US_PER_DAY) = is_open bh moment).
Proof.
  intros Hfix.
  assert (Hshift : forall d, astimezone (timezone bh) (moment + d)
                             = astimezone (timezone bh) moment + d).
  { intros d. unfold astimezone. rewrite !Hfix. lia. }
  split.
  - rewrite !is_open_unfold, Hshift, weekday_next_week, time_of_next_day.
    reflexivity.
  - intros Hw. rewrite !is_open_unfold, Hshift, Hw. cbn [andb negb].
    replace (astimezone (timezone bh) moment + US_PER_DAY)
      with (astimezone (timezone bh) moment + 1 * US_PER_DAY) by lia.
    now rewrite time_of_next_day.
Qed.


(** ** More on CSV escaping *)

Lemma csv_escape_steps (text : string) :
  csv_escape text
  = String DQUOTE
      (String.append
         (replace DQUOTE (String DQUOTE (String DQUOTE EmptyString))
            (line_breaks_to_spaces text))
         (String DQUOTE EmptyString)).
Proof. reflexivity. Qed.

Lemma replace_absent (old : ascii) (new s : string) :
  ~ occurs old s -> replace old new s = s.
Proof.
  induction s as [| c s IH]; [reflexivity |].
  cbn [occurs replace]. intros Hno.
  destruct (Ascii.eqb_spec c old) as [-> | _];
    [exfalso; apply Hno; now left |].
  rewrite IH; [reflexivity |]. intros H. apply Hno. now right.
Qed.

Lemma length_append (s t : string) :
  String.length (String.append s t)
  = (String.length s + String.length t)%nat.
Proof.
  induction s as [| c s IH]; rewrite ?append_cons, ?append_empty;
    cbn [String.length]; [reflexivity | now rewrite IH].
Qed.

Lemma count_char_append (c : ascii) (s t : string) :
  count_char c (String.append s t)
  = (count_char c s + count_char c t)%nat.
Proof.
  induction s as [| d s IH]; rewrite ?append_cons, ?append_empty;
    cbn [count_char]; [reflexivity | rewrite IH; lia].
Qed.

Lemma escape_all_measure (s : string) :
  String.length (escape_all s)
  = (String.length s + count_char DQUOTE s)%nat
  /\ count_char DQUOTE (escape_all s) = (2 * count_char DQUOTE s)%nat.
Proof.
  induction s as [| c s [IHl IHc]]; [split; reflexivity |].
  cbn [escape_all]. rewrite length_append, count_char_append, IHl, IHc.
  unfold escape_char. cbn [String.length count_char].
  destruct (Ascii.eqb_spec c LF) as [-> | _].
  { cbn [String.length count_char].
    change (Ascii.eqb SPACE DQUOTE) with false.
    change (Ascii.eqb LF DQUOTE) with false. split; lia. }
  destruct (Ascii.eqb_spec c CR) as [-> | _].
  { cbn [String.length count_char].
    change (Ascii.eqb SPACE DQUOTE) with false.
    change (Ascii.eqb CR DQUOTE) with false. split; lia. }
  destruct (Ascii.eqb_spec c DQUOTE) as [-> | Hne];
    cbn [String.length count_char].
  - change (Ascii.eqb DQUOTE DQUOTE) with true. split; lia.
  - destruct (Ascii.eqb_spec c DQUOTE); [contradiction |]. split; lia.
Qed.

(** X11.  The escaped field is longer than the text by the two enclosing
    quotes and one character for each double quote of the text, and the
    number of double quotes in it is even: twice that of the text plus
    the two enclosing ones. *)
Theorem csv_escape_measure (text : string) :
  String.length (csv_escape text)
  = (String.length text + count_char DQUOTE text + 2)%nat
  /\ count_char DQUOTE (csv_escape text)
     = (2 * count_char DQUOTE text + 2)%nat.
Proof.
  destruct (escape_all_measure text) as [Hl Hc].
  unfold csv_escape. rewrite replace_chain.
  cbn [String.length count_char].
  rewrite length_append, count_char_append, Hl, Hc.
  change (Ascii.eqb DQUOTE DQUOTE) with true.
  cbn [String.length count_char].
  change (Ascii.eqb DQUOTE DQUOTE) with true. split; lia.
Qed.

Lemma double_quotes_injective (s t : string) :
  String.append
    (replace DQUOTE (String DQUOTE (String DQUOTE EmptyString)) s)
    (String DQUOTE EmptyString)
  = String.append
      (replace DQUOTE (String DQUOTE (String DQUOTE EmptyString)) t)
      (String DQUOTE EmptyString) ->
  s = t.
Proof.
  revert t. induction s as [| c s IH]; intros [| d t];
    cbn [replace]; rewrite ?append_cons, ?append_empty.
  - reflexivity.
  - destruct (Ascii.eqb_spec d DQUOTE) as [-> | Hd];
      rewrite ?append_cons, ?append_empty; intros [=]. congruence.
  - destruct (Ascii.eqb_spec c DQUOTE) as [-> | Hc];
      rewrite ?append_cons, ?append_empty; intros [=]. congruence.
  - destruct (Ascii.eqb_spec c DQUOTE) as [-> | Hc];
      destruct (Ascii.eqb_spec d DQUOTE) as [-> | Hd];
      rewrite ?append_cons, ?append_empty; intros [= E].
    + f_equal. now apply IH.
    + destruct s; rewrite ?append_cons, ?append_empty in *; congruence.
    + destruct t; rewrite ?append_cons, ?append_empty in *; congruence.
    + f_equal; [congruence | now apply IH].
Qed.

(** X12.  Escaping loses nothing but the line breaks: two texts have the
    same escaped field exactly when they agree once their line feeds and
    carriage returns are replaced by spaces.  On texts without line breaks
    escaping is one-to-one. *)
Theorem csv_escape_injective (a b : string) :
  (csv_escape a = csv_escape b <->
   line_breaks_to_spaces a = line_breaks_to_spaces b)
  /\ (~ occurs LF a -> ~ occurs CR a -> ~ occurs LF b -> ~ occurs CR b ->
      csv_escape a = csv_escape b -> a = b).
Proof.
  assert (Hiff : csv_escape a = csv_escape b <->
                 line_breaks_to_spaces a = line_breaks_to_spaces b).
  { rewrite !csv_escape_steps. split.
    - intros [= E]. now apply double_quotes_injective.
    - now intros ->. }
  split; [exact Hiff |].
  intros Ha1 Ha2 Hb1 Hb2 E. apply Hiff in E.
  unfold line_breaks_to_spaces in E.
  rewrite (replace_absent LF _ a Ha1), (replace_absent LF _ b Hb1) in E.
  now rewrite (replace_absent CR _ a Ha2), (replace_absent CR _ b Hb2) in E.
Qed.


(** ** More on owner resolution and channel listing *)

(** X13.  A resolved owner is always a value of [channel_owners], found
    under the channel's id, its name or its normalized name.  The
    normalized name is consulted only when the name is missing or empty:
    it then resolves the owner, while a channel with a non-empty name that
    is not configured has no owner even if its normalized name is
    configured. *)
Theorem resolve_owner_sound (self : SlackMonitor) (ch : channel) :
  let owners := channel_owners (config self) in
  (forall owner : string,
     resolve_owner self ch = Some owner ->
     exists key : string,
       owners !! key = Some owner
       /\ (ch_id ch = Some key \/ ch_name ch = Some key
           \/ ch_name_normalized ch = Some key))
  /\ (forall normalized owner : string,
        dict_lookup owners (ch_id ch) = None ->
        truthy_ostr (ch_name ch) = false ->
        ch_name_normalized ch = Some normalized ->
        normalized <> EmptyString ->
        owners !! normalized = Some owner ->
        resolve_owner self ch = Some owner)
  /\ (forall name : string,
        dict_lookup owners (ch_id ch) = None ->
        ch_name ch = Some name -> name <> EmptyString ->
        owners !! name = None ->
        resolve_owner self ch = None).
Proof.
  intros owners. rewrite resolve_owner_cases. fold owners.
  split; [| split].
  - intros owner.
    destruct (dict_lookup owners (ch_id ch)) as [o |] eqn:Hid.
    + intros [= ->]. destruct (ch_id ch) as [k |]; [| discriminate].
      exists k. auto.
    + unfold or_ostr.
      destruct (truthy_ostr (ch_name ch)) eqn:Hn.
      * rewrite Hn. destruct (ch_name ch) as [k |]; [| discriminate].
        cbn [dict_lookup]. intros H. exists k. auto.
      * destruct (truthy_ostr (ch_name_normalized ch)); [| discriminate].
        destruct (ch_name_normalized ch) as [k |]; [| discriminate].
        cbn [dict_lookup]. intros H. exists k. auto.
  - intros normalized owner -> Hn Hnn Hne Hown.
    unfold or_ostr. rewrite Hn, Hnn. cbn [truthy_ostr dict_lookup].
    destruct normalized; [congruence |]. exact Hown.
  - intros name -> Hn Hne Hown. unfold or_ostr. rewrite Hn.
    cbn [truthy_ostr dict_lookup].
    destruct name; [congruence |]. cbn [truthy_str]. exact Hown.
Qed.

(** The channel object behind a monitored channel. *)
Lemma describe_sound (self : SlackMonitor) (raw : channel) (d : monitored) :
  describe self raw = Ok d ->
  ch_id raw = Some (m_id d) /\ m_owner_id d = resolve_owner self raw
  /\ m_name d
     = or_ostr (or_ostr (ch_name raw) (ch_name_normalized raw)) (ch_id raw).
Proof.
  unfold describe. destruct (ch_id raw) as [i |]; cbn; [| discriminate].
  intros [= <-]. auto.
Qed.

Lemma add_channels_sound (self : SlackMonitor) (P : monitored -> Prop)
  (page : list channel) :
  (forall raw d, In raw page -> ch_is_member raw = true ->
                 describe self raw = Ok d -> P d) ->
  forall channels channels',
    Forall P channels ->
    add_channels self page channels = Ok channels' ->
    Forall P channels'.
Proof.
  induction page as [| raw page IH]; intros Hpage channels channels' Hacc;
    cbn [add_channels].
  - now intros [= <-].
  - destruct (ch_is_member raw) eqn:Hm; cbn [negb].
    + destruct (describe self raw) as [d | e] eqn:Hd; cbn; [| discriminate].
      apply IH.
      * intros raw' d' Hin. apply Hpage. now right.
      * apply Forall_app. split; [exact Hacc |].
        constructor; [| constructor].
        apply (Hpage raw d); auto. now left.
    + apply IH; [| exact Hacc].
      intros raw' d' Hin. apply Hpage. now right.
Qed.

Lemma fetch_pages_sound (self : SlackMonitor) (P : monitored -> Prop) :
  (forall cursor page raw d,
     conversations_list (client self) cursor = Some page ->
     In raw (page_channels page) -> ch_is_member raw = true ->
     describe self raw = Ok d -> P d) ->
  forall fuel cursor channels channels',
    Forall P channels ->
    outcome_of (fetch_pages self fuel cursor channels) = Ok (Some channels') ->
    Forall P channels'.
Proof.
  intros HP. induction fuel as [| fuel IH];
    intros cursor channels channels' Hacc; cbn [fetch_pages].
  - discriminate.
  - rewrite outcome_bind. cbn [emit outcome_of snd].
    destruct (conversations_list (client self) cursor) as [page |] eqn:Hl.
    + rewrite outcome_bind. unfold lift at 1. cbn [outcome_of snd].
      destruct (add_channels self (page_channels page) channels)
        as [chs | e] eqn:Ha; [| discriminate].
      assert (Hchs : Forall P chs).
      { apply (add_channels_sound self P (page_channels page)
                 (fun raw d => HP cursor page raw d Hl) channels chs Hacc Ha). }
      destruct (truthy_ostr (next_cursor page)); cbn [negb].
      * now apply IH.
      * cbn. now intros [= <-].
    + cbn. now intros [= <-].
Qed.

(** X14.  Every channel that a cycle monitors comes from a channel object
    of a listed page of which the bot is a member; it carries that
    object's id and the owner that [_resolve_owner] finds for it.
    Channels the bot is not a member of are never monitored. *)
Theorem monitored_channels_sound (self : SlackMonitor) (fuel : nat)
  (channels : list monitored) :
  outcome_of (fetch_monitored_channels self fuel) = Ok (Some channels) ->
  forall d : monitored,
    In d channels ->
    exists (cursor : option string) (page : channel_page) (raw : channel),
      conversations_list (client self) cursor = Some page
      /\ In raw (page_channels page)
      /\ ch_is_member raw = true
      /\ ch_id raw = Some (m_id d)
      /\ m_owner_id d = resolve_owner self raw.
Proof.
  intros Hout.
  apply List.Forall_forall.
  apply (fetch_pages_sound self
           (fun d => exists cursor page raw,
                conversations_list (client self) cursor = Some page
                /\ In raw (page_channels page)
                /\ ch_is_member raw = true
                /\ ch_id raw = Some (m_id d)
                /\ m_owner_id d = resolve_owner self raw))
    with (fuel := fuel) (cursor := None) (channels := []).
  - intros cursor page raw d Hl Hin Hm Hd.
    destruct (describe_sound self raw d Hd) as (Hid & Hown & _).
    exists cursor, page, raw. auto.
  - constructor.
  - exact Hout.
Qed.

(** X15.  When the first listing call fails, the cycle consists of that
    call and the error log: nothing is monitored, no history is fetched,
    no row is written, no reminder is sent, and the cycle ends normally. *)
Theorem listing_failure_ends_cycle (self : SlackMonitor) (fuel : nat)
  (now : instant) :
  conversations_list (client self) None = None ->
  check_channels self (S fuel) now
  = ([CallConversationsList None; Log ErrListChannels], Ok (Some tt)).
Proof.
  intros Hfail. unfold check_channels, fetch_monitored_channels.
  cbn [fetch_pages]. rewrite Hfail. reflexivity.
Qed.


(** ** More on the monitoring cycle *)

Lemma count_events_app (p : event -> bool) (l1 l2 : list event) :
  count_events p (l1 ++ l2) = (count_events p l1 + count_events p l2)%nat.
Proof. unfold count_events. now rewrite List.filter_app, List.length_app. Qed.

Lemma count_events_none (p : event -> bool) (l : list event) (e : event) :
  count_events p l = 0%nat -> In e l -> p e = false.
Proof.
  unfold count_events. intros Hz Hin.
  destruct (p e) eqn:Hp; [| reflexivity].
  assert (Hf : In e (List.filter p l)) by (apply filter_In; auto).
  destruct (List.filter p l); [contradiction | discriminate].
Qed.

Lemma fetch_messages_events (self : SlackMonitor) (channel_id : string)
  (channel_name : option string) :
  trace_of (fetch_messages self channel_id channel_name)
  = CallConversationsHistory channel_id 200
    :: match conversations_history (client self) channel_id with
       | Some _ => []
       | None => [Log (ErrFetchMessages channel_id)]
       end.
Proof.
  unfold fetch_messages.
  now destruct (conversations_history (client self) channel_id).
Qed.

(** The events of one pass of the loop body, case by case. *)
Lemma check_channel_trace (self : SlackMonitor) (now : datetime)
  (ch : monitored) :
  trace_of (check_channel self now ch)
  = (Log (InfoChecking (m_name ch) (m_id ch))
     :: trace_of (fetch_messages self (m_id ch) (m_name ch)))
    ++ match evaluate_channel self (fetched self (m_id ch)) with
       | Raise _ => []
       | Ok None => [Log (InfoNoClientMessages (m_id ch) (m_name ch))]
       | Ok (Some record) =>
           trace_of (log_record self (m_name ch) (m_id ch) record
                       (decide_status self record now))
           ++ trace_of (log_trail self (m_name ch) (m_id ch) record
                          (decide_status self record now))
           ++ (if status_eqb (decide_status self record now) remind
               then if truthy_ostr (m_owner_id ch)
                    then trace_of
                           (send_reminder self (m_id ch)
                              (get_default (m_owner_id ch) EmptyString)
                              record now)
                    else [Log (WarnNoOwner (m_name ch) (m_id ch))]
               else [])
       end.
Proof.
  unfold check_channel.
  rewrite trace_bind. cbn [emit outcome_of trace_of fst snd].
  rewrite trace_bind, fetch_messages_outcome.
  rewrite trace_bind. unfold lift at 1 2. cbn [outcome_of trace_of fst snd].
  destruct (evaluate_channel self (fetched self (m_id ch)))
    as [[record |] | e]; cbn [app].
  - rewrite trace_bind. cbn [log_record emit outcome_of snd].
    rewrite trace_bind. cbn [log_trail emit outcome_of snd].
    destruct (status_eqb (decide_status self record now) remind);
      cbn [andb]; [| reflexivity].
    destruct (truthy_ostr (m_owner_id ch)); cbn [negb]; reflexivity.
  - reflexivity.
  - reflexivity.
Qed.

Lemma status_eqb_eq (a b : status) : status_eqb a b = true <-> a = b.
Proof. destruct a, b; cbn; split; congruence. Qed.

(** The reminder calls of one pass of the loop body. *)
Lemma check_channel_reminder_calls (self : SlackMonitor) (now : datetime)
  (ch : monitored) :
  (count_events is_dm_open (trace_of (check_channel self now ch)) <= 1)%nat
  /\ (count_events is_post (trace_of (check_channel self now ch))
      <= count_events is_dm_open (trace_of (check_channel self now ch)))%nat
  /\ (count_events is_reminder_call (trace_of (check_channel self now ch))
      <> 0%nat ->
      exists (record : exchange) (owner : string),
        evaluate_channel self (fetched self (m_id ch)) = Ok (Some record)
        /\ decide_status self record now = remind
        /\ m_owner_id ch = Some owner /\ owner <> EmptyString).
Proof.
  rewrite check_channel_trace, fetch_messages_events.
  set (head := Log (InfoChecking (m_name ch) (m_id ch))
               :: CallConversationsHistory (m_id ch) 200
               :: match conversations_history (client self) (m_id ch) with
                  | Some _ => []
                  | None => [Log (ErrFetchMessages (m_id ch))]
                  end).
  assert (Hhead : count_events is_dm_open head = 0%nat
                  /\ count_events is_post head = 0%nat
                  /\ count_events is_reminder_call head = 0%nat).
  { unfold head. now destruct (conversations_history _ _). }
  destruct Hhead as (Hh1 & Hh2 & Hh3).
  rewrite !count_events_app, Hh1, Hh2, Hh3.
  destruct (evaluate_channel self (fetched self (m_id ch)))
    as [[record |] | e].
  - cbn [log_record log_trail emit trace_of fst].
    destruct (status_eqb (decide_status self record now) remind) eqn:Hst;
      [| cbn; repeat split; lia].
    apply status_eqb_eq in Hst.
    destruct (m_owner_id ch) as [owner |] eqn:Hown; cbn [truthy_ostr];
      [| cbn; repeat split; lia].
    destruct owner as [| c owner]; cbn [truthy_str];
      [cbn; repeat split; lia |].
    cbn [get_default].
    destruct (send_reminder_trace self (m_id ch) (String c owner) record now)
      as (rest & -> & Hopen & Hpost & _).
    rewrite !count_events_app. unfold count_events in *.
    cbn [List.filter is_row is_dm_open is_post is_reminder_call orb length
           app].
    rewrite Hopen. cbn [length].
    split; [lia | split; [lia |]].
    intros _. exists record, (String c owner).
    split; [reflexivity |]. split; [exact Hst |].
    split; [reflexivity | discriminate].
  - cbn. repeat split; lia.
  - cbn. repeat split; lia.
Qed.

(** X16.  One pass of the loop body opens at most one direct-message
    channel and posts a message only after opening one.  It makes a
    reminder call only when the channel's exchange has status [remind] and
    the channel has a non-empty owner. *)
Theorem reminder_only_when_due (self : SlackMonitor) (now : datetime)
  (ch : monitored) :
  (count_events is_dm_open (trace_of (check_channel self now ch)) <= 1)%nat
  /\ (count_events is_post (trace_of (check_channel self now ch))
      <= count_events is_dm_open (trace_of (check_channel self now ch)))%nat
  /\ (count_events is_reminder_call (trace_of (check_channel self now ch))
      <> 0%nat ->
      exists (record : exchange) (owner : string),
        evaluate_channel self (fetched self (m_id ch)) = Ok (Some record)
        /\ decide_status self record now = remind
        /\ m_owner_id ch = Some owner /\ owner <> EmptyString).
Proof. exact (check_channel_reminder_calls self now ch). Qed.


Lemma reminder_step_no_rows (self : SlackMonitor) (now : datetime)
  (ch : monitored) (record : exchange) (st : status) :
  count_events is_row
    (if status_eqb st remind
     then if truthy_ostr (m_owner_id ch)
          then trace_of
                 (send_reminder self (m_id ch)
                    (get_default (m_owner_id ch) EmptyString) record now)
          else [Log (WarnNoOwner (m_name ch) (m_id ch))]
     else []) = 0%nat.
Proof.
  destruct (status_eqb st remind); [| reflexivity].
  destruct (truthy_ostr (m_owner_id ch)); [| reflexivity].
  destruct (send_reminder_trace self (m_id ch)
              (get_default (m_owner_id ch) EmptyString) record now)
    as (rest & -> & _ & _ & Hrows & _).
  exact Hrows.
Qed.

(** X17.  A channel with an exchange gets exactly one summary row,
    directly followed by exactly one trail row; the two rows carry the
    same channel id, client timestamp, reply timestamp, hours and status,
    the status being the verdict of the status decision.  A channel
    without exchange, or whose evaluation fails, gets no row. *)
Theorem rows_written_in_pairs (self : SlackMonitor) (now : datetime)
  (ch : monitored) :
  (forall record : exchange,
     evaluate_channel self (fetched self (m_id ch)) = Ok (Some record) ->
     exists (head : list event) (row : summary_row) (trow : trail_row)
            (tail : list event),
       trace_of (check_channel self now ch)
       = head ++ AppendSummary row :: AppendTrail trow :: tail
       /\ count_events is_row head = 0%nat
       /\ count_events is_row tail = 0%nat
       /\ sr_status row = decide_status self record now
       /\ tr_status trow = sr_status row
       /\ sr_channel_id row = m_id ch
       /\ tr_channel_id trow = m_id ch
       /\ sr_client_ts row = client_ts record
       /\ tr_client_ts trow = client_ts record
       /\ tr_team_reply_ts trow = sr_team_reply_ts row
       /\ tr_hours_between trow = sr_hours_to_reply row)
  /\ ((forall record : exchange,
         evaluate_channel self (fetched self (m_id ch)) <> Ok (Some record)) ->
      count_events is_row (trace_of (check_channel self now ch)) = 0%nat).
Proof.
  destruct (fetch_messages_trace self (m_id ch) (m_name ch)) as [_ Hf].
  split.
  - intros record Hev.
    exists (Log (InfoChecking (m_name ch) (m_id ch))
            :: trace_of (fetch_messages self (m_id ch) (m_name ch))).
    eexists. eexists. eexists.
    split; [rewrite check_channel_trace, Hev;
            cbn [log_record log_trail emit trace_of fst]; reflexivity |].
    split; [exact Hf |].
    split; [apply reminder_step_no_rows |].
    repeat split.
  - intros Hno. rewrite check_channel_trace, count_events_app.
    replace (count_events is_row
               (Log (InfoChecking (m_name ch) (m_id ch))
                :: trace_of (fetch_messages self (m_id ch) (m_name ch))))
      with 0%nat by (symmetry; exact Hf).
    destruct (evaluate_channel self (fetched self (m_id ch)))
      as [[record |] | e]; [now destruct (Hno record) | reflexivity ..].
Qed.

(** X18.  Every summary row of a pass is consistent with its status: a
    row with status [answered] has a reply timestamp after the client
    timestamp and a positive [hours_to_reply]; a row without reply
    timestamp has no [hours_to_reply] and is not [answered]; and an
    [hours_to_reply] that is shown is never zero. *)
Theorem summary_row_consistent (self : SlackMonitor) (now : datetime)
  (ch : monitored) (row : summary_row) :
  In (AppendSummary row) (trace_of (check_channel self now ch)) ->
  (sr_status row = answered ->
   exists (t : instant) (h : Q),
     sr_team_reply_ts row = Some t /\ sr_client_ts row < t
     /\ sr_hours_to_reply row = Some h /\ (0 < h)%Q)
  /\ (sr_team_reply_ts row = None ->
      sr_hours_to_reply row = None /\ sr_status row <> answered)
  /\ (forall h : Q, sr_hours_to_reply row = Some h -> ~ (h == 0)%Q).
Proof.
  rewrite check_channel_trace. intros Hin.
  apply in_app_or in Hin as [Hin | Hin].
  { destruct (fetch_messages_trace self (m_id ch) (m_name ch)) as [_ Hf].
    destruct Hin as [[=] | Hin].
    pose proof (count_events_none is_row _ _ Hf Hin). discriminate. }
  destruct (evaluate_channel self (fetched self (m_id ch)))
    as [[record |] | e] eqn:Hev;
    [| destruct Hin as [[=] | []] | destruct Hin].
  cbn [log_record log_trail emit trace_of fst app] in Hin.
  destruct Hin as [[= <-] | [[=] | Hin]].
  - cbn [sr_status sr_team_reply_ts sr_client_ts sr_hours_to_reply].
    pose proof (evaluate_channel_record_facts self _ record Hev)
      as (_ & _ & Hrep).
    split; [| split].
    + intros Hst. apply decide_status_answered_iff in Hst.
      unfold reply_after in Hst. unfold reply_datetime in *.
      destruct (team_reply_ts record) as [t |]; [| discriminate].
      destruct (truthy_num t); [| discriminate].
      destruct Hrep as [Hle _].
      rewrite same_zone_gt in Hst by reflexivity. apply Z.ltb_lt in Hst.
      cbn [option_map hours_field zoned_fromtimestamp dt_instant].
      unfold fromtimestamp.
      rewrite same_zone_sub by reflexivity.
      set (us := wall (zoned_fromtimestamp self t)
                 - wall (zoned_fromtimestamp self (client_ts record))) in *.
      assert (Hpos : (0 < total_hours us)%Q)
        by (apply (total_hours_sign us); lia).
      destruct (Qeq_bool (total_hours us) 0) eqn:E.
      * apply Qeq_bool_iff in E. rewrite E in Hpos.
        now apply Qlt_irrefl in Hpos.
      * exists t, (total_hours us).
        split; [reflexivity |]. split.
        -- assert (t <> client_ts record) by (intros ->; unfold us in Hst; lia).
           lia.
        -- split; [reflexivity | exact Hpos].
    + intros Hnone. unfold reply_datetime in *.
      destruct (team_reply_ts record) as [t |] eqn:Ht.
      * destruct (truthy_num t) eqn:Htr; [discriminate |].
        cbn [hours_field]. split; [reflexivity |].
        rewrite decide_status_answered_iff. unfold reply_after, reply_datetime.
        rewrite Ht, Htr. discriminate.
      * cbn [hours_field]. split; [reflexivity |].
        rewrite decide_status_answered_iff. unfold reply_after, reply_datetime.
        rewrite Ht. discriminate.
    + intros h. unfold hours_field.
      destruct (reply_datetime self record) as [r |]; [| discriminate].
      destruct (Qeq_bool _ 0) eqn:E; [discriminate |].
      intros [= <-] Hz. apply Qeq_bool_iff in Hz. congruence.
  - pose proof (count_events_none is_row _ _
                  (reminder_step_no_rows self now ch record
                     (decide_status self record now)) Hin).
    discriminate.
Qed.

(** X27.  The hours of a summary row follow the local wall clocks.  For a
    record with a truthy reply timestamp, the row shows the reply
    timestamp, and its [hours_to_reply] is positive when the wall-clock
    reading of the reply is after that of the client message, negative
    when it is before, and empty when the two readings coincide,
    whichever of the two instants is the later one. *)
Theorem hours_to_reply_sign (self : SlackMonitor)
  (channel_name : option string) (channel_id : string) (record : exchange)
  (st : status) (t : Z) (row : summary_row) :
  reply_seen record t ->
  log_record self channel_name channel_id record st
  = ([AppendSummary row], Ok tt) ->
  let zone := timezone (business_hours (config self)) in
  let shift :=
    (t + US_PER_SECOND * ZoneInfo zone t)
    - (client_ts record + US_PER_SECOND * ZoneInfo zone (client_ts record)) in
  sr_team_reply_ts row = Some t
  /\ (0 < shift ->
      exists h : Q, sr_hours_to_reply row = Some h /\ (0 < h)%Q)
  /\ (shift < 0 ->
      exists h : Q, sr_hours_to_reply row = Some h /\ (h < 0)%Q)
  /\ (shift = 0 -> sr_hours_to_reply row = None).
Proof.
  intros [Ht Hnz] Hrow zone shift.
  unfold log_record, emit in Hrow. injection Hrow as <-.
  cbn [sr_team_reply_ts sr_hours_to_reply].
  unfold reply_datetime. rewrite Ht.
  assert (Htruthy : truthy_num t = true)
    by (unfold truthy_num; destruct (Z.eqb_spec t 0); [contradiction | easy]).
  rewrite Htruthy. cbn [option_map hours_field zoned_fromtimestamp dt_instant].
  rewrite same_zone_sub by reflexivity.
  match goal with
  | |- context [total_hours ?d] =>
      replace d with shift
        by (unfold wall, astimezone, zoned_fromtimestamp, fromtimestamp,
              shift, zone; cbn [dt_zone dt_instant]; lia)
  end.
  destruct (total_hours_sign shift) as (Hpos & Hneg & Hzero).
  split; [reflexivity |].
  split; [| split].
  - intros Hs. specialize (Hpos Hs).
    destruct (Qeq_bool (total_hours shift) 0) eqn:E.
    + apply Qeq_bool_iff in E. rewrite E in Hpos.
      now apply Qlt_irrefl in Hpos.
    + eexists. split; [reflexivity | exact Hpos].
  - intros Hs. specialize (Hneg Hs).
    destruct (Qeq_bool (total_hours shift) 0) eqn:E.
    + apply Qeq_bool_iff in E. rewrite E in Hneg.
      now apply Qlt_irrefl in Hneg.
    + eexists. split; [reflexivity | exact Hneg].
  - intros Hs. rewrite (Hzero Hs). reflexivity.
Qed.

Lemma for_each_all_ok {A : Type} (body : A -> M unit) (l : list A) :
  Forall (fun y => outcome_of (body y) = Ok tt) l ->
  for_each body l = (flat_map (fun y => trace_of (body y)) l, Ok tt).
Proof.
  induction 1 as [| y l Hy _ IH]; [reflexivity |].
  cbn [for_each flat_map]. rewrite IH.
  unfold bind, outcome_of, trace_of in *.
  destruct (body y) as [tr r]. cbn [fst snd] in *. now subst r.
Qed.

Lemma for_each_raise {A : Type} (body : A -> M unit) (pre post : list A)
  (x : A) (e : exn) :
  Forall (fun y => outcome_of (body y) = Ok tt) pre ->
  outcome_of (body x) = Raise e ->
  for_each body (pre ++ x :: post)
  = (flat_map (fun y => trace_of (body y)) pre ++ trace_of (body x), Raise e).
Proof.
  intros Hpre Hx. induction Hpre as [| y pre Hy _ IH].
  - cbn [app for_each flat_map]. unfold bind, outcome_of, trace_of in *.
    destruct (body x) as [tr r]. cbn [fst snd] in *. now subst r.
  - cbn [app for_each flat_map]. rewrite IH.
    unfold bind, outcome_of, trace_of in *.
    destruct (body y) as [tr r]. cbn [fst snd] in *. subst r.
    now rewrite <- app_assoc.
Qed.

Lemma check_channels_ok (self : SlackMonitor) (now : datetime)
  (chs : list monitored) :
  Forall (fun ch => forall e,
            evaluate_channel self (fetched self (m_id ch)) <> Raise e) chs ->
  Forall (fun ch => outcome_of (check_channel self now ch) = Ok tt) chs.
Proof.
  intros H. eapply List.Forall_impl; [| exact H].
  intros ch Hch. cbn beta in Hch. rewrite check_channel_outcome.
  destruct (evaluate_channel self (fetched self (m_id ch))) as [? | e];
    [reflexivity | now destruct (Hch e)].
Qed.

(** X19.  A channel whose evaluation fails ends the cycle: the channels
    before it are processed in full, on the failing channel only the
    history is fetched (no row, no reminder), the channels after it are
    not touched, and the failure leaves [check_channels]. *)
Theorem failing_channel_aborts_cycle (self : SlackMonitor) (fuel : nat)
  (now : instant) (pre post : list monitored) (ch : monitored) (e : exn) :
  outcome_of (fetch_monitored_channels self fuel)
  = Ok (Some (pre ++ ch :: post)) ->
  Forall (fun ch' =>
            forall e', evaluate_channel self (fetched self (m_id ch'))
                       <> Raise e') pre ->
  evaluate_channel self (fetched self (m_id ch)) = Raise e ->
  check_channels self fuel now
  = (trace_of (fetch_monitored_channels self fuel)
     ++ flat_map (fun ch' => trace_of (check_channel self (datetime_now self now) ch')) pre
     ++ Log (InfoChecking (m_name ch) (m_id ch))
        :: trace_of (fetch_messages self (m_id ch) (m_name ch)),
     Raise e).
Proof.
  intros Hfetch Hpre Hev.
  set (dnow := datetime_now self now).
  assert (Hx : outcome_of (check_channel self dnow ch) = Raise e)
    by (rewrite check_channel_outcome; now rewrite Hev).
  pose proof (for_each_raise (check_channel self dnow) pre post ch e
                (check_channels_ok self dnow pre Hpre) Hx) as Hloop.
  rewrite check_channel_trace, Hev, app_nil_r in Hloop.
  unfold check_channels. fold dnow. cbv zeta.
  destruct (fetch_monitored_channels self fuel) as [tr r].
  cbn [outcome_of snd trace_of fst] in *. subst r.
  cbn [bind]. rewrite Hloop. cbn [bind]. reflexivity.
Qed.

Lemma fetch_pages_no_dm (self : SlackMonitor) (fuel : nat) :
  forall (cursor : option string) (channels : list monitored),
    count_events is_dm_open (trace_of (fetch_pages self fuel cursor channels))
    = 0%nat.
Proof.
  induction fuel as [| fuel IH]; intros cursor channels; [reflexivity |].
  cbn [fetch_pages]. rewrite trace_bind. cbn [emit outcome_of trace_of fst snd].
  destruct (conversations_list (client self) cursor) as [page |];
    [| reflexivity].
  rewrite trace_bind. unfold lift at 1 2. cbn [outcome_of trace_of fst snd].
  destruct (add_channels self (page_channels page) channels) as [chs | e];
    [| reflexivity].
  destruct (truthy_ostr (next_cursor page)); cbn [negb]; [| reflexivity].
  change (count_events is_dm_open
            ([CallConversationsList cursor]
             ++ [] ++ trace_of (fetch_pages self fuel (next_cursor page) chs))
          = 0%nat).
  rewrite !count_events_app, IH. reflexivity.
Qed.

(** X20.  When no evaluation fails, a cycle is the channel listing
    followed by one pass of the loop body per monitored channel, in
    order, and it ends normally; it opens at most as many direct-message
    channels as there are monitored channels. *)
Theorem cycle_is_sequence_of_passes (self : SlackMonitor) (fuel : nat)
  (now : instant) (chs : list monitored) :
  outcome_of (fetch_monitored_channels self fuel) = Ok (Some chs) ->
  Forall (fun ch =>
            forall e, evaluate_channel self (fetched self (m_id ch))
                      <> Raise e) chs ->
  check_channels self fuel now
  = (trace_of (fetch_monitored_channels self fuel)
     ++ flat_map (fun ch => trace_of (check_channel self (datetime_now self now) ch))
          chs,
     Ok (Some tt))
  /\ (count_events is_dm_open (trace_of (check_channels self fuel now))
      <= length chs)%nat.
Proof.
  intros Hfetch Hok.
  set (dnow := datetime_now self now).
  assert (Hcycle : check_channels self fuel now
                   = (trace_of (fetch_monitored_channels self fuel)
                      ++ flat_map (fun ch => trace_of (check_channel self dnow ch))
                           chs,
                      Ok (Some tt))).
  { unfold check_channels. fold dnow. cbv zeta.
    pose proof (for_each_all_ok (check_channel self dnow) chs
                  (check_channels_ok self dnow chs Hok)) as Hloop.
    destruct (fetch_monitored_channels self fuel) as [tr r].
    cbn [outcome_of snd trace_of fst] in *. subst r.
    cbn [bind]. rewrite Hloop. cbn [bind ret]. now rewrite app_nil_r. }
  split; [exact Hcycle |].
  rewrite Hcycle. cbn [trace_of fst]. rewrite count_events_app.
  unfold fetch_monitored_channels. rewrite fetch_pages_no_dm.
  clear. induction chs as [| ch chs IH]; [cbn; lia |].
  cbn [flat_map length]. rewrite count_events_app.
  pose proof (proj1 (check_channel_reminder_calls self dnow ch)). lia.
Qed.


(** X21.  A failed history call is handled as an empty history: the
    failure is logged, the channel is reported as having no client
    message, no row is written, no reminder is sent, and the pass ends
    normally. *)
Theorem history_failure_is_no_exchange (self : SlackMonitor) (now : datetime)
  (ch : monitored) :
  conversations_history (client self) (m_id ch) = None ->
  check_channel self now ch
  = ([Log (InfoChecking (m_name ch) (m_id ch));
      CallConversationsHistory (m_id ch) 200;
      Log (ErrFetchMessages (m_id ch));
      Log (InfoNoClientMessages (m_id ch) (m_name ch))],
     Ok tt).
Proof.
  intros Hfail. unfold check_channel, fetch_messages. rewrite Hfail.
  reflexivity.
Qed.

(** ** SlackMonitor.run_forever *)

Lemma sleeps_app (l1 l2 : list loop_event) :
  sleeps (l1 ++ l2) = sleeps l1 ++ sleeps l2.
Proof. unfold sleeps. apply flat_map_app. Qed.

Lemma logged_failures_app (l1 l2 : list loop_event) :
  logged_failures (l1 ++ l2) = logged_failures l1 ++ logged_failures l2.
Proof. unfold logged_failures. apply flat_map_app. Qed.

Lemma in_cycle_quiet (tr : list event) :
  sleeps (map InCycle tr) = [] /\ logged_failures (map InCycle tr) = [].
Proof. induction tr as [| e tr [IH1 IH2]]; split; auto. Qed.

Lemma run_iteration_sound (self : SlackMonitor) (fuel : nat) (now : instant)
  (tr : list loop_event) :
  run_iteration self fuel now = Some tr ->
  sleeps tr = [interval (config self)]
  /\ logged_failures tr
     = match outcome_of (check_channels self fuel now) with
       | Raise e => [e]
       | Ok _ => []
       end.
Proof.
  unfold run_iteration, outcome_of.
  destruct (check_channels self fuel now) as [ctr [[u |] | e]]; cbn [snd];
    [| discriminate |]; intros [= <-];
    rewrite sleeps_app, logged_failures_app;
    destruct (in_cycle_quiet ctr) as [-> ->]; split; reflexivity.
Qed.

Lemma check_channels_unfinished (self : SlackMonitor) (fuel : nat)
  (now : instant) :
  outcome_of (check_channels self fuel now) = Ok None <->
  outcome_of (fetch_monitored_channels self fuel) = Ok None.
Proof.
  unfold check_channels. cbv zeta. rewrite outcome_bind.
  destruct (outcome_of (fetch_monitored_channels self fuel))
    as [[chs |] | e].
  - rewrite outcome_bind.
    destruct (outcome_of (for_each _ chs)); cbn; split; discriminate.
  - cbn. split; reflexivity.
  - split; discriminate.
Qed.

Lemma run_iteration_returns (self : SlackMonitor) (fuel : nat)
  (now : instant) :
  outcome_of (fetch_monitored_channels self fuel) <> Ok None ->
  exists tr : list loop_event, run_iteration self fuel now = Some tr.
Proof.
  rewrite <- (check_channels_unfinished self fuel now).
  unfold run_iteration, outcome_of.
  destruct (check_channels self fuel now) as [ctr [[u |] | e]]; cbn [snd];
    intros Hne; [eexists; reflexivity | congruence | eexists; reflexivity].
Qed.

(** X22.  When the channel listing of every cycle ends within the page
    budget, [run_forever] carries out every iteration, however many of
    its cycles fail: the run sleeps exactly once per iteration, each time
    for the same interval of at least 60 seconds, and it logs exactly the
    failures of the cycles that raised, in order.  No failure of a cycle
    ends the loop. *)
Theorem run_forever_contains_failures (cfg : MonitorConfig) (fuel : nat)
  (ticks : list (instant * WebClient)) :
  Forall (listing_ends cfg fuel) ticks ->
  exists tr : list loop_event,
    run_forever cfg fuel ticks = Some tr
    /\ sleeps tr = repeat (interval cfg) (length ticks)
    /\ 60 <= interval cfg
    /\ logged_failures tr = flat_map (cycle_failure cfg fuel) ticks.
Proof.
  assert (Hint : 60 <= interval cfg) by (unfold interval; lia).
  induction 1 as [| [now api] ticks Hends _ (tr2 & Hrun & Hs2 & _ & Hf2)].
  - exists []. repeat split; [exact Hint].
  - cbn [run_forever].
    destruct (run_iteration_returns {| config := cfg; client := api |} fuel
                now Hends) as (tr1 & H1).
    rewrite H1, Hrun. exists (tr1 ++ tr2).
    destruct (run_iteration_sound _ _ _ _ H1) as [Hs1 Hf1].
    split; [reflexivity |]. split; [| split; [exact Hint |]].
    + rewrite sleeps_app, Hs1, Hs2. reflexivity.
    + rewrite logged_failures_app, Hf1, Hf2. reflexivity.
Qed.

(** ** SlackMonitor._debug_log_messages *)

Lemma substring_prefix_length (n : nat) (s : string) :
  String.length (String.substring 0 n s) = Nat.min n (String.length s).
Proof.
  revert s. induction n as [| n IH]; intros [| c s]; cbn; auto.
Qed.

Lemma substring_whole (n : nat) (s : string) :
  (String.length s <= n)%nat -> String.substring 0 n s = s.
Proof.
  revert s. induction n as [| n IH]; intros [| c s]; cbn; auto; try lia.
  intros H. f_equal. apply IH. lia.
Qed.

Lemma occurs_substring (c : ascii) (n : nat) (s : string) :
  occurs c (String.substring 0 n s) -> occurs c s.
Proof.
  revert s. induction n as [| n IH]; intros [| d s];
    cbn [String.substring occurs]; try contradiction.
  intros [-> | H]; auto.
Qed.

Lemma replace_char_gone (old c : ascii) (s : string) :
  c <> old -> ~ occurs old (replace old (String c EmptyString) s).
Proof.
  intros Hne. induction s as [| d s IH]; cbn [replace occurs];
    [intros [] |].
  destruct (Ascii.eqb_spec d old) as [-> | Hd];
    rewrite ?append_cons, ?append_empty; cbn [occurs];
    intros [E | H]; try congruence; now apply IH.
Qed.

Lemma occurs_append (c : ascii) (s1 s2 : string) :
  occurs c (String.append s1 s2) -> occurs c s1 \/ occurs c s2.
Proof.
  induction s1 as [| d s1 IH]; rewrite ?append_cons, ?append_empty;
    cbn [occurs]; [now right |].
  intros [-> | H]; [left; now left |].
  destruct (IH H) as [H1 | H2]; [left; now right | now right].
Qed.

Lemma replace_char_length (old c : ascii) (s : string) :
  String.length (replace old (String c EmptyString) s) = String.length s.
Proof.
  induction s as [| d s IH]; [reflexivity |]. cbn [replace].
  destruct (Ascii.eqb d old); rewrite ?append_cons, ?append_empty;
    cbn [String.length]; now rewrite IH.
Qed.

(** X23.  The snippet that the debug log prints for a message is on one
    line and at most 83 characters long; for a text of at most 80
    characters it is the whole text with its line feeds replaced by
    spaces, for a longer text it is the first 80 characters of that
    followed by three dots. *)
Theorem debug_snippet_bounded (msg : message) :
  let body :=
    replace LF (String SPACE EmptyString)
      (get_default (or_ostr (text msg) (Some EmptyString)) EmptyString) in
  (String.length (dbg_snippet (debug_fields msg)) <= 83)%nat
  /\ ~ occurs LF (dbg_snippet (debug_fields msg))
  /\ String.length body
     = String.length
         (get_default (or_ostr (text msg) (Some EmptyString)) EmptyString)
  /\ ((String.length body <= 80)%nat ->
      dbg_snippet (debug_fields msg) = body)
  /\ ((80 < String.length body)%nat ->
      dbg_snippet (debug_fields msg)
      = String.append (String.substring 0 80 body) "..."%string
      /\ String.length (dbg_snippet (debug_fields msg)) = 83%nat).
Proof.
  intros body. unfold debug_fields. cbn [dbg_snippet]. fold body.
  assert (Hno : ~ occurs LF body)
    by (apply replace_char_gone; discriminate).
  destruct (Nat.ltb_spec 80 (String.length body)) as [Hlong | Hshort].
  - repeat split.
    + rewrite length_append, substring_prefix_length.
      cbn [String.length]. lia.
    + intros H. apply occurs_append in H as [H | H].
      * apply Hno. now apply occurs_substring in H.
      * cbn in H. destruct H as [H | [H | [H | []]]]; discriminate.
    + apply replace_char_length.
    + lia.
    + rewrite length_append, substring_prefix_length.
      cbn [String.length]. lia.
  - repeat split.
    + rewrite length_append, substring_prefix_length.
      cbn [String.length]. lia.
    + intros H. apply occurs_append in H as [H | []].
      apply Hno. now apply occurs_substring in H.
    + apply replace_char_length.
    + intros _. rewrite substring_whole by exact Hshort.
      clear. induction body as [| c s IH]; [reflexivity |].
      rewrite append_cons. now rewrite IH.
    + lia.
    + lia.
Qed.


End Monitor.

(** * Concrete runs *)

Example csv_escape_quote_and_newline :
  csv_escape
    (String "a" (String DQUOTE (String "b" (String LF (String "c" EmptyString)))))
  = String DQUOTE
      (String "a" (String DQUOTE (String DQUOTE
         (String "b" (String SPACE (String "c" (String DQUOTE EmptyString))))))).
Proof. reflexivity. Qed.

Example sample_channels_described :
  outcome_of (fetch_monitored_channels Sample.monitor 1)
  = Ok (Some [Sample.monitored_c1; Sample.monitored_c2; Sample.monitored_c3]).
Proof. vm_compute. reflexivity. Qed.

(** ** The evaluator on the sample thread *)

Lemma evaluate_channel_latest_reply_witness :
  evaluate_channel Sample.monitor Sample.thread
  = Ok (Some {| client_ts := Sample.monday_0900;
                client_text := get_default (text Sample.question) EmptyString;
                team_reply_ts := Some (Sample.monday_0900 + 120 * US_PER_SECOND);
                team_reply_text :=
                  Some (get_default (text Sample.second_answer) EmptyString) |})
  /\ Forall (fun m => sort_key m <= Sample.monday_0900 + 120 * US_PER_SECOND)
       [Sample.first_answer].
Proof.
  apply (evaluate_channel_latest_reply Sample.monitor Sample.thread
           [] [Sample.first_answer] Sample.question Sample.second_answer).
  - vm_compute. reflexivity.
  - reflexivity.
  - repeat constructor.
  - reflexivity.
  - reflexivity.
Defined.

(** The sample thread is a client question followed by two valid team
    messages; the exchange carries the timestamp and text of the second
    one, not of the first message after the question. *)
Lemma evaluate_channel_not_first_reply :
  scanned Sample.thread
  = [Sample.question; Sample.first_answer; Sample.second_answer]
  /\ is_client_message Sample.monitor Sample.question = true
  /\ is_client_message Sample.monitor Sample.first_answer = false
  /\ is_client_message Sample.monitor Sample.second_answer = false
  /\ exists record : exchange,
       evaluate_channel Sample.monitor Sample.thread = Ok (Some record)
       /\ team_reply_ts record <> ts Sample.first_answer
       /\ team_reply_text record <> text Sample.first_answer.
Proof.
  split; [vm_compute; reflexivity |].
  repeat (split; [reflexivity |]).
  eexists. split; [vm_compute; reflexivity |].
  split; vm_compute; discriminate.
Qed.

(** ** The status decision on the sample records *)


(** ** The status decision across a change of the clocks *)

(** C2.  The clocks of New York go back on 2024-11-03 at 06:00:00 UTC.  A
    client writes at 05:30:00 UTC and the team answers forty minutes
    later, at 06:10:00 UTC.  The evaluator returns the record of the two
    messages, whose reply timestamp is not zero and strictly after the
    client timestamp.  The status decision reads the client message at
    01:30 and the reply at 01:10 on the local wall clock, so it does not
    return [answered], at whatever instant it is asked; five minutes after
    the reply its verdict is [waiting]. *)
Theorem fall_back_reply_not_answered :
  evaluate_channel Sample.ny_monitor Sample.night_thread
  = Ok (Some Sample.night_record)
  /\ (exists t : Z,
        team_reply_ts Sample.night_record = Some t /\ t <> 0
        /\ client_ts Sample.night_record < t)
  /\ (forall now : datetime,
        decide_status Sample.ny_zones Sample.ny_monitor Sample.night_record
          now <> answered)
  /\ decide_status Sample.ny_zones Sample.ny_monitor Sample.night_record
       (datetime_now Sample.ny_monitor Sample.night_0615) = waiting.
Proof.
  split; [vm_compute; reflexivity |].
  split; [eexists; split; [reflexivity |]; split; vm_compute; congruence |].
  split; [| vm_compute; reflexivity].
  intros now. rewrite decide_status_answered_iff. vm_compute. discriminate.
Qed.

(** C3.  The clocks of New York go forward on 2024-03-10 at 07:00:00 UTC.
    A client writes on Saturday at 23:00:00 UTC and gets no reply; on
    Sunday at 22:30:00 UTC, twenty-three and a half hours later, business
    hours are closed and the threshold is the 24 hours of
    [overall_reply_hours].  The status decision computes twenty-four and a
    half hours, the difference of the local wall clocks, and returns
    [remind]. *)
Theorem spring_forward_remind_early :
  team_reply_ts Sample.spring_record = None
  /\ Sample.spring_sunday_2230 - client_ts Sample.spring_record
     = 23 * US_PER_HOUR + 30 * US_PER_MINUTE
  /\ is_open Sample.ny_zones (business_hours (config Sample.ny_monitor))
       Sample.spring_sunday_2230 = false
  /\ threshold_at Sample.ny_zones Sample.ny_monitor
       (datetime_now Sample.ny_monitor Sample.spring_sunday_2230) = 24
  /\ (hours_since_client Sample.ny_zones Sample.ny_monitor
        Sample.spring_record
        (datetime_now Sample.ny_monitor Sample.spring_sunday_2230)
      == 49 # 2)%Q
  /\ decide_status Sample.ny_zones Sample.ny_monitor Sample.spring_record
       (datetime_now Sample.ny_monitor Sample.spring_sunday_2230) = remind.
Proof. repeat split; vm_compute; reflexivity. Qed.

(** C5.  The clocks of New York go back on 2024-11-03 at 06:00:00 UTC.  A
    client writes on Saturday at 05:30:00 UTC and gets no reply.  On
    Sunday at 05:45:00 UTC and at 06:15:00 UTC, both after the client
    message, business hours are closed.  At the first instant the status
    decision returns [remind]; at the second, half an hour later, the
    local wall clock has gone back to 01:15 and the status decision
    returns [waiting]. *)
Theorem fall_back_remind_reverts :
  team_reply_ts Sample.autumn_record = None
  /\ client_ts Sample.autumn_record < Sample.autumn_sunday_0545
  /\ Sample.autumn_sunday_0545 < Sample.autumn_sunday_0615
  /\ is_open Sample.ny_zones (business_hours (config Sample.ny_monitor))
       Sample.autumn_sunday_0545 = false
  /\ is_open Sample.ny_zones (business_hours (config Sample.ny_monitor))
       Sample.autumn_sunday_0615 = false
  /\ decide_status Sample.ny_zones Sample.ny_monitor Sample.autumn_record
       (datetime_now Sample.ny_monitor Sample.autumn_sunday_0545) = remind
  /\ decide_status Sample.ny_zones Sample.ny_monitor Sample.autumn_record
       (datetime_now Sample.ny_monitor Sample.autumn_sunday_0615) = waiting.
Proof. repeat split; vm_compute; reflexivity. Qed.

(** ** Business hours on the sample windows *)

Lemma is_open_window_witness :
  is_open Sample.utc_zones Sample.office_hours Sample.monday_0800 = true
  /\ is_open Sample.utc_zones Sample.office_hours Sample.monday_1700 = true
  /\ is_open Sample.utc_zones Sample.office_hours Sample.saturday_noon = false.
Proof.
  assert (Hutc : zone_is_utc Sample.utc_zones "UTC") by (intros t; reflexivity).
  split; [| split].
  - apply (proj1 (proj2 (proj2 (is_open_window Sample.utc_zones
                                  Sample.office_hours Sample.monday_0800))
                    eq_refl Hutc eq_refl eq_refl eq_refl)).
    + reflexivity.
    + left. reflexivity.
  - apply (proj1 (proj2 (proj2 (is_open_window Sample.utc_zones
                                  Sample.office_hours Sample.monday_1700))
                    eq_refl Hutc eq_refl eq_refl eq_refl)).
    + reflexivity.
    + right. reflexivity.
  - apply (proj2 (proj2 (proj2 (is_open_window Sample.utc_zones
                                  Sample.office_hours Sample.saturday_noon))
                    eq_refl Hutc eq_refl eq_refl eq_refl)).
    reflexivity.
Defined.

Lemma inverted_window_never_open_witness :
  is_open Sample.utc_zones Sample.inverted_hours Sample.monday_1400 = false.
Proof.
  apply (proj1 (inverted_window_never_open Sample.utc_zones
                  Sample.monitor_inverted eq_refl)).
Defined.

(** ** Owner resolution on the sample channels *)

Lemma resolve_owner_id_then_name_witness :
  resolve_owner Sample.monitor Sample.by_id_and_name = Some "U_ALICE"%string
  /\ resolve_owner Sample.monitor Sample.by_name_only = Some "U_CAROL"%string
  /\ resolve_owner Sample.monitor Sample.unconfigured = None.
Proof.
  split; [| split].
  - apply (proj1 (proj2 (proj2 (resolve_owner_id_then_name Sample.monitor
                                  Sample.by_id_and_name)))
             "C1"%string "support"%string "U_ALICE"%string "U_BOB"%string);
      vm_compute; reflexivity.
  - apply (proj1 (proj2 (resolve_owner_id_then_name Sample.monitor
                           Sample.by_name_only))
             "sales"%string "U_CAROL"%string);
      [vm_compute; reflexivity | reflexivity | discriminate
      | vm_compute; reflexivity].
  - apply (proj2 (proj2 (proj2 (resolve_owner_id_then_name Sample.monitor
                                  Sample.unconfigured))));
      vm_compute; reflexivity.
Defined.

(** ** A monitoring cycle on the sample workspace *)

Lemma remind_rows_then_reminder_witness :
  exists (before head : list event) (row : summary_row) (trow : trail_row)
         (after : list event),
    trace_of (check_channels Sample.utc_zones Sample.plain_format
                Sample.monitor 1 Sample.tuesday_1500)
    = before
      ++ (head
          ++ [AppendSummary row; AppendTrail trow;
              CallConversationsOpen "U_ALICE";
              CallChatPostMessage "D-U_ALICE" "Reminder: please respond.";
              Log (InfoReminderSent "U_ALICE" "C1")])
      ++ after
    /\ sr_status row = remind /\ tr_status trow = remind.
Proof.
  destruct (remind_rows_then_reminder Sample.utc_zones Sample.plain_format
              Sample.monitor 1 Sample.tuesday_1500
              [Sample.monitored_c1; Sample.monitored_c2; Sample.monitored_c3]
              [] [Sample.monitored_c2; Sample.monitored_c3]
              Sample.monitored_c1 Sample.open_record)
    as (before & head & row & trow & tail & after & Htrace & Hpass & _ & _
        & _ & Hsr & _ & Htr & _ & Howner & _).
  - vm_compute. reflexivity.
  - reflexivity.
  - constructor.
  - vm_compute. reflexivity.
  - vm_compute. reflexivity.
  - destruct (Howner "U_ALICE"%string eq_refl ltac:(discriminate))
      as (rest & Htail & _ & _ & Hposted & _).
    specialize (Hposted "D-U_ALICE"%string eq_refl). cbv zeta in Hposted.
    exists before, head, row, trow, after.
    rewrite Htrace, Hpass, Htail, Hposted.
    split; [reflexivity | split; assumption].
Defined.

(** ** Further runs of the evaluator *)

Lemma evaluate_channel_none_iff_witness :
  evaluate_channel Sample.monitor [Sample.second_answer; Sample.first_answer]
  = Ok None.
Proof.
  apply (proj2 (evaluate_channel_none_iff Sample.monitor
                  [Sample.second_answer; Sample.first_answer])).
  intros m [<- | [<- | []]] _; reflexivity.
Defined.

Lemma evaluate_channel_order_irrelevant_witness :
  evaluate_channel Sample.monitor Sample.thread
  = evaluate_channel Sample.monitor (rev Sample.thread).
Proof.
  apply (evaluate_channel_order_irrelevant Sample.monitor Sample.thread
           (rev Sample.thread)).
  - apply Permutation_rev.
  - vm_compute. repeat constructor; cbn; intuition discriminate.
Defined.

Lemma evaluate_channel_record_sound_witness :
  exists c : message,
    In c Sample.thread /\ is_valid_message c = true
    /\ is_client_message Sample.monitor c = true
    /\ ts c = Some Sample.monday_0900
    /\ get_default (text Sample.question) EmptyString
       = get_default (text c) EmptyString.
Proof.
  apply (proj1 (evaluate_channel_record_sound Sample.monitor Sample.thread
                  {| client_ts := Sample.monday_0900;
                     client_text :=
                       get_default (text Sample.question) EmptyString;
                     team_reply_ts :=
                       Some (Sample.monday_0900 + 120 * US_PER_SECOND);
                     team_reply_text :=
                       Some (get_default (text Sample.second_answer)
                               EmptyString) |}
                  ltac:(vm_compute; reflexivity))).
Defined.

Lemma evaluate_channel_failure_witness :
  evaluate_channel Sample.monitor [Sample.first_answer; Sample.untimed_question]
  = Raise (KeyError "ts").
Proof.
  apply (proj2 (evaluate_channel_failure Sample.monitor
                  [Sample.first_answer; Sample.untimed_question])
           [] Sample.untimed_question [Sample.first_answer]).
  - vm_compute. reflexivity.
  - reflexivity.
  - repeat constructor.
  - left. reflexivity.
Defined.

Lemma trailing_client_message_unanswered_witness :
  evaluate_channel Sample.monitor [Sample.question]
  = Ok (Some {| client_ts := Sample.monday_0900;
                client_text := get_default (text Sample.question) EmptyString;
                team_reply_ts := None;
                team_reply_text := None |}).
Proof.
  apply (proj1 (trailing_client_message_unanswered Sample.utc_zones
                  Sample.monitor [Sample.question] [] Sample.question
                  Sample.monday_0900 ltac:(vm_compute; reflexivity)
                  eq_refl eq_refl)).
Defined.

(** ** Further runs of the status decision *)

Lemma answered_is_final_witness :
  decide_status Sample.utc_zones Sample.monitor_inverted
    Sample.answered_record (datetime_now Sample.monitor Sample.tuesday_1500)
  = answered.
Proof.
  apply (answered_is_final Sample.utc_zones Sample.monitor
           Sample.monitor_inverted Sample.answered_record
           (datetime_now Sample.monitor Sample.monday_1400)
           (datetime_now Sample.monitor Sample.tuesday_1500) eq_refl).
  vm_compute. reflexivity.
Defined.

Lemma verdict_outside_thresholds_witness :
  decide_status Sample.utc_zones Sample.monitor Sample.open_record
    (datetime_now Sample.monitor Sample.monday_1000) = waiting
  /\ decide_status Sample.utc_zones Sample.monitor Sample.open_record
       (datetime_now Sample.monitor (Sample.tuesday_1500 + US_PER_DAY))
     = remind.
Proof.
  split.
  - apply (proj1 (verdict_outside_thresholds Sample.utc_zones Sample.monitor
                    0 Sample.open_record
                    (datetime_now Sample.monitor Sample.monday_1000)
                    (fun t => eq_refl)
                    ltac:(vm_compute; split; discriminate)
                    ltac:(vm_compute; split; discriminate)
                    ltac:(vm_compute; discriminate)));
      vm_compute; reflexivity.
  - apply (proj2 (verdict_outside_thresholds Sample.utc_zones Sample.monitor
                    0 Sample.open_record
                    (datetime_now Sample.monitor Sample.tuesday_1500)
                    (fun t => eq_refl)
                    ltac:(vm_compute; split; discriminate)
                    ltac:(vm_compute; split; discriminate)
                    ltac:(vm_compute; discriminate)));
      vm_compute; discriminate.
Defined.

Lemma remind_reverts_after_hours_witness :
  decide_status Sample.utc_zones Sample.monitor Sample.open_record
    (datetime_now Sample.monitor Sample.monday_1400) = remind
  /\ decide_status Sample.utc_zones Sample.monitor Sample.open_record
       (datetime_now Sample.monitor Sample.monday_2200) = waiting.
Proof.
  apply (remind_reverts_after_hours Sample.utc_zones Sample.monitor 0
           Sample.open_record
           (datetime_now Sample.monitor Sample.monday_1400)
           (datetime_now Sample.monitor Sample.monday_2200)
           (fun t => eq_refl));
    vm_compute; solve [reflexivity | discriminate | split; discriminate].
Defined.

Lemma decide_status_wall_clock_witness :
  decide_status Sample.ny_zones Sample.ny_monitor Sample.autumn_record
    (datetime_now Sample.ny_monitor Sample.autumn_sunday_0615) = waiting.
Proof.
  pose proof (decide_status_wall_clock Sample.ny_zones Sample.ny_monitor
                Sample.autumn_record Sample.autumn_sunday_0615
                ltac:(vm_compute; split; discriminate)
                ltac:(vm_compute; split; discriminate)) as H.
  cbv zeta in H. destruct H as [_ H].
  apply (proj2 (H ltac:(vm_compute; discriminate))).
  vm_compute. reflexivity.
Defined.

Lemma decide_status_elapsed_witness :
  decide_status Sample.utc_zones Sample.monitor Sample.open_record
    (datetime_now Sample.monitor Sample.monday_1700) = remind.
Proof.
  apply (proj2 (proj2 (decide_status_elapsed Sample.utc_zones Sample.monitor
                         0 Sample.open_record (fun t => eq_refl)
                         ltac:(vm_compute; split; discriminate)
                         ltac:(vm_compute; split; discriminate)))
           (datetime_now Sample.monitor Sample.monday_1400)
           (datetime_now Sample.monitor Sample.monday_1700));
    vm_compute; solve [reflexivity | discriminate].
Defined.

Lemma five_hours_later_witness :
  decide_status Sample.utc_zones Sample.monitor Sample.open_record
    (datetime_now Sample.monitor Sample.monday_1400) = remind
  /\ decide_status Sample.ny_zones Sample.ny_monitor Sample.night_question_record
       (datetime_now Sample.ny_monitor Sample.night_1030) = waiting.
Proof.
  split.
  - apply (proj1 (five_hours_later Sample.utc_zones Sample.monitor
                    Sample.open_record Sample.monday_1400 eq_refl
                    ltac:(vm_compute; reflexivity)
                    ltac:(vm_compute; discriminate)));
      vm_compute; reflexivity.
  - apply (proj2 (five_hours_later Sample.ny_zones Sample.ny_monitor
                    Sample.night_question_record Sample.night_1030 eq_refl
                    ltac:(vm_compute; reflexivity)
                    ltac:(vm_compute; discriminate)));
      vm_compute; reflexivity.
Defined.

Lemma is_open_periodic_witness :
  is_open Sample.utc_zones Sample.office_hours
    (Sample.monday_0800 + 7 * US_PER_DAY)
  = is_open Sample.utc_zones Sample.office_hours Sample.monday_0800.
Proof.
  apply (proj1 (is_open_periodic Sample.utc_zones Sample.office_hours 0
                  Sample.monday_0800 (fun t => eq_refl))).
Defined.

(** ** Further runs of CSV escaping and owner resolution *)

Lemma csv_escape_injective_witness :
  String "a" (String DQUOTE EmptyString) = String "a" (String DQUOTE EmptyString).
Proof.
  apply (proj2 (csv_escape_injective
                  (String "a" (String DQUOTE EmptyString))
                  (String "a" (String DQUOTE EmptyString))));
    try reflexivity; cbn; intuition discriminate.
Defined.

Lemma resolve_owner_sound_witness :
  resolve_owner Sample.monitor Sample.normalized_only = Some "U_CAROL"%string
  /\ exists key : string,
       channel_owners (config Sample.monitor) !! key = Some "U_ALICE"%string
       /\ (ch_id Sample.by_id_and_name = Some key
           \/ ch_name Sample.by_id_and_name = Some key
           \/ ch_name_normalized Sample.by_id_and_name = Some key).
Proof.
  split.
  - apply (proj1 (proj2 (resolve_owner_sound Sample.monitor
                           Sample.normalized_only))
             "sales"%string "U_CAROL"%string);
      solve [vm_compute; reflexivity | discriminate].
  - apply (proj1 (resolve_owner_sound Sample.monitor Sample.by_id_and_name)
             "U_ALICE"%string).
    vm_compute. reflexivity.
Defined.

(** ** Further runs of the monitoring cycle *)

Lemma monitored_channels_sound_witness :
  exists (cursor : option string) (page : channel_page) (raw : channel),
    conversations_list (client Sample.monitor) cursor = Some page
    /\ In raw (page_channels page)
    /\ ch_is_member raw = true
    /\ ch_id raw = Some (m_id Sample.monitored_c2)
    /\ m_owner_id Sample.monitored_c2 = resolve_owner Sample.monitor raw.
Proof.
  apply (monitored_channels_sound Sample.monitor 1
           [Sample.monitored_c1; Sample.monitored_c2; Sample.monitored_c3]).
  - vm_compute. reflexivity.
  - right. left. reflexivity.
Defined.

Lemma listing_failure_ends_cycle_witness :
  check_channels Sample.utc_zones Sample.plain_format Sample.offline_monitor
    1 Sample.tuesday_1500
  = ([CallConversationsList None; Log ErrListChannels], Ok (Some tt)).
Proof.
  apply (listing_failure_ends_cycle Sample.utc_zones Sample.plain_format
           Sample.offline_monitor 0 Sample.tuesday_1500 eq_refl).
Defined.

Lemma reminder_only_when_due_witness :
  exists (record : exchange) (owner : string),
    evaluate_channel Sample.monitor
      (fetched Sample.monitor (m_id Sample.monitored_c1))
    = Ok (Some record)
    /\ decide_status Sample.utc_zones Sample.monitor record
         (datetime_now Sample.monitor Sample.tuesday_1500) = remind
    /\ m_owner_id Sample.monitored_c1 = Some owner /\ owner <> EmptyString.
Proof.
  apply (proj2 (proj2 (reminder_only_when_due Sample.utc_zones
                         Sample.plain_format Sample.monitor
                         (datetime_now Sample.monitor Sample.tuesday_1500)
                         Sample.monitored_c1))).
  vm_compute. discriminate.
Defined.

Lemma rows_written_in_pairs_witness :
  exists (head : list event) (row : summary_row) (trow : trail_row)
         (tail : list event),
    trace_of (check_channel Sample.utc_zones Sample.plain_format
                Sample.monitor
                (datetime_now Sample.monitor Sample.tuesday_1500)
                Sample.monitored_c1)
    = head ++ AppendSummary row :: AppendTrail trow :: tail
    /\ sr_status row = remind /\ tr_status trow = remind.
Proof.
  destruct (proj1 (rows_written_in_pairs Sample.utc_zones Sample.plain_format
                     Sample.monitor
                     (datetime_now Sample.monitor Sample.tuesday_1500)
                     Sample.monitored_c1)
              Sample.open_record ltac:(vm_compute; reflexivity))
    as (head & row & trow & tail & Htrace & _ & _ & Hs & Ht & _).
  exists head, row, trow, tail.
  split; [exact Htrace |].
  assert (Hst : decide_status Sample.utc_zones Sample.monitor
                  Sample.open_record
                  (datetime_now Sample.monitor Sample.tuesday_1500) = remind)
    by (vm_compute; reflexivity).
  split; congruence.
Defined.

Lemma summary_row_consistent_witness :
  sr_hours_to_reply Sample.c1_row = None
  /\ sr_status Sample.c1_row <> answered.
Proof.
  apply (proj1 (proj2 (summary_row_consistent Sample.utc_zones
                         Sample.plain_format Sample.monitor
                         (datetime_now Sample.monitor Sample.tuesday_1500)
                         Sample.monitored_c1
                         Sample.c1_row
                         ltac:(vm_compute; tauto)))).
  reflexivity.
Defined.

(** The reply of the night in which the clocks go back is forty minutes
    after the question; the row shows it twenty minutes before. *)
Lemma hours_to_reply_sign_witness :
  exists h : Q,
    sr_hours_to_reply
      {| sr_channel_name := Some "support"%string; sr_channel_id := "C1";
         sr_client_ts := client_ts Sample.night_record;
         sr_team_reply_ts := team_reply_ts Sample.night_record;
         sr_hours_to_reply := Some (total_hours (- (20 * US_PER_MINUTE)));
         sr_status := waiting |} = Some h
    /\ (h < 0)%Q.
Proof.
  apply (proj1 (proj2 (proj2 (hours_to_reply_sign Sample.ny_zones
                                Sample.ny_monitor (Some "support"%string)
                                "C1" Sample.night_record waiting
                                (1730614200 * US_PER_SECOND) _
                                ltac:(split; [reflexivity
                                             | vm_compute; discriminate])
                                eq_refl)))).
  vm_compute. reflexivity.
Defined.

Lemma failing_channel_aborts_cycle_witness :
  outcome_of (check_channels Sample.utc_zones Sample.plain_format
                Sample.broken_monitor 1 Sample.tuesday_1500)
  = Raise (KeyError "ts").
Proof.
  rewrite (failing_channel_aborts_cycle Sample.utc_zones Sample.plain_format
             Sample.broken_monitor 1 Sample.tuesday_1500
             [Sample.monitored_c1] [Sample.monitored_c3]
             Sample.monitored_c2 (KeyError "ts")).
  - reflexivity.
  - vm_compute. reflexivity.
  - repeat constructor; intros e; vm_compute; discriminate.
  - vm_compute. reflexivity.
Defined.

Lemma cycle_is_sequence_of_passes_witness :
  (count_events is_dm_open
     (trace_of (check_channels Sample.utc_zones Sample.plain_format
                  Sample.monitor 1 Sample.tuesday_1500)) <= 3)%nat.
Proof.
  apply (proj2 (cycle_is_sequence_of_passes Sample.utc_zones
                  Sample.plain_format Sample.monitor 1 Sample.tuesday_1500
                  [Sample.monitored_c1; Sample.monitored_c2;
                   Sample.monitored_c3]
                  ltac:(vm_compute; reflexivity)
                  ltac:(repeat constructor; intros e; vm_compute;
                        discriminate))).
Defined.

Lemma history_failure_is_no_exchange_witness :
  outcome_of (check_channel Sample.utc_zones Sample.plain_format
                Sample.offline_monitor
                (datetime_now Sample.offline_monitor Sample.tuesday_1500)
                Sample.monitored_c1)
  = Ok tt.
Proof.
  rewrite (history_failure_is_no_exchange Sample.utc_zones
             Sample.plain_format Sample.offline_monitor
             (datetime_now Sample.offline_monitor Sample.tuesday_1500)
             Sample.monitored_c1 eq_refl).
  reflexivity.
Defined.

Lemma run_forever_contains_failures_witness :
  exists tr : list loop_event,
    run_forever Sample.utc_zones Sample.plain_format Sample.cfg 1
      [(Sample.tuesday_1500, Sample.broken_api);
       (Sample.tuesday_1500 + 600 * US_PER_SECOND, Sample.api)]
    = Some tr
    /\ sleeps tr = [600; 600]
    /\ logged_failures tr = [KeyError "ts"].
Proof.
  destruct (run_forever_contains_failures Sample.utc_zones
              Sample.plain_format Sample.cfg 1
              [(Sample.tuesday_1500, Sample.broken_api);
               (Sample.tuesday_1500 + 600 * US_PER_SECOND, Sample.api)])
    as (tr & Hrun & Hs & _ & Hf).
  - repeat constructor; vm_compute; discriminate.
  - exists tr. split; [exact Hrun |]. split; [exact Hs |].
    rewrite Hf. vm_compute. reflexivity.
Defined.

Lemma debug_snippet_bounded_witness :
  dbg_snippet (debug_fields Sample.question)
  = replace LF (String SPACE EmptyString)
      (get_default (or_ostr (text Sample.question) (Some EmptyString))
         EmptyString).
Proof.
  apply (proj1 (proj2 (proj2 (proj2 (debug_snippet_bounded Sample.question))))).
  vm_compute. repeat constructor.
Defined.
